(** * pa_SplitEXR: a shallow embedding of [Scripts/Comp/pa_SplitEXR.py]

    The script splits a multi-layer or multi-part OpenEXR loader of a
    compositing graph into one loader per layer (or part).  The host
    application (node graph, attribute storage, undo stack) is external;
    it is modelled here as an explicit [World] that the script's
    functions read and update through a state-and-exception monad. *)

From Stdlib Require Import ZArith String Ascii List Bool Lia.
From stdpp Require Import base gmap strings list.

Open Scope string_scope.

(** ** Python string builtins used by the script

    Channel and layer names are modelled as [string]s of 8-bit
    characters; [lower] and [upper] act on the ASCII letters, which is
    how [str.lower] and [str.upper] act on ASCII text.  Names with
    cased letters outside ASCII, which Python would map as well, are
    outside the model: their bytes are left as they are.  The keywords
    the script looks for in lower-cased names are ASCII. *)

Module Py.

Definition is_upper (c : ascii) : bool :=
  (65 <=? nat_of_ascii c)%nat && (nat_of_ascii c <=? 90)%nat.

Definition is_lower (c : ascii) : bool :=
  (97 <=? nat_of_ascii c)%nat && (nat_of_ascii c <=? 122)%nat.

Definition lower_char (c : ascii) : ascii :=
  if is_upper c then ascii_of_nat (nat_of_ascii c + 32) else c.

Definition upper_char (c : ascii) : ascii :=
  if is_lower c then ascii_of_nat (nat_of_ascii c - 32) else c.

(** [s.lower()], on ASCII text *)
Fixpoint lower (s : string) : string :=
  match s with
  | EmptyString => EmptyString
  | String c s' => String (lower_char c) (lower s')
  end.

(** [s.upper()], on ASCII text *)
Fixpoint upper (s : string) : string :=
  match s with
  | EmptyString => EmptyString
  | String c s' => String (upper_char c) (upper s')
  end.

(** [s.split(sep)] for a one-character separator: every occurrence of
    the separator ends a segment, so [n] occurrences give [n + 1]
    segments and the empty string gives one empty segment. *)
Fixpoint split (sep : ascii) (s : string) : list string :=
  match s with
  | EmptyString => [EmptyString]
  | String c s' =>
      if Ascii.eqb c sep then EmptyString :: split sep s'
      else match split sep s' with
           | seg :: rest => String c seg :: rest
           | [] => [String c EmptyString]
           end
  end.

(** [sep.join(l)] *)
Fixpoint join (sep : string) (l : list string) : string :=
  match l with
  | [] => EmptyString
  | [x] => x
  | x :: rest => x ++ sep ++ join sep rest
  end.

(** [sub in s] on strings: [sub] occurs in [s] as a substring. *)
Fixpoint contains (sub s : string) : bool :=
  String.prefix sub s ||
  match s with
  | EmptyString => false
  | String _ s' => contains sub s'
  end.

(** [l[-1]] of a non-empty list and [l[0:-1]]. *)
Definition last_item (l : list string) : string := List.last l EmptyString.
Definition but_last (l : list string) : list string := List.removelast l.

End Py.

(** ** Ordered dictionaries

    A Python [dict] iterates in insertion order, and the order of the
    layers decides the order of the new nodes, so the layer dictionary
    is an association list with unique keys. *)

Section OrderedDict.
Context {V : Type}.

Definition odict := list (string * V).

(** [k in d] *)
Definition dict_mem (k : string) (d : odict) : bool :=
  existsb (fun kv => String.eqb (fst kv) k) d.

(** [d.get(k)] *)
Fixpoint dict_get (k : string) (d : odict) : option V :=
  match d with
  | [] => None
  | (k', v) :: d' => if String.eqb k' k then Some v else dict_get k d'
  end.

(** [d[k] = v]: a present key keeps its place, a new key goes last. *)
Fixpoint dict_set (k : string) (v : V) (d : odict) : odict :=
  match d with
  | [] => [(k, v)]
  | (k', v') :: d' =>
      if String.eqb k' k then (k', v) :: d' else (k', v') :: dict_set k v d'
  end.

(** In-place update of the value stored under a present key. *)
Fixpoint dict_alter (f : V -> V) (k : string) (d : odict) : odict :=
  match d with
  | [] => []
  | (k', v') :: d' =>
      if String.eqb k' k then (k', f v') :: d' else (k', v') :: dict_alter f k d'
  end.

Definition dict_keys (d : odict) : list string := map fst d.
End OrderedDict.

Arguments odict V : clear implicits.

(** ** The channel-name parser (split_multilayer_exr, lines 298-311) *)

(** A channel of a layer: the key without its prefix and the raw name. *)
Definition channel := (string * string)%type.
Definition layers_t := odict (list channel).

Definition namespace_separator : ascii := "."%char.

(** The [if len(s) > 1] of the loop: the key (not yet lower-cased) and
    the layer name of a raw channel name. *)
Definition split_channel (chan : string) : string * string :=
  let s := Py.split namespace_separator chan in
  if (1 <? length s)%nat
  then (Py.last_item s,
        Py.join (String namespace_separator EmptyString) (Py.but_last s))
  else (chan, "default").

Definition layer_name_of (chan : string) : string := snd (split_channel chan).
Definition key_of (chan : string) : string := Py.lower (fst (split_channel chan)).

(** One iteration of the grouping loop. *)
Definition add_channel (layers : layers_t) (chan : string) : layers_t :=
  let '(key, layer_name) := split_channel chan in
  let layers :=
    if negb (dict_mem layer_name layers) then dict_set layer_name [] layers
    else layers in
  let key := Py.lower key in
  dict_alter (fun l => (l ++ [(key, chan)])%list) layer_name layers.

(** The loop over [sourceChannels], starting from the empty dict. *)
Definition group_layers (sourceChannels : list string) : layers_t :=
  fold_left add_channel sourceChannels [].

(** ** Python values, exceptions and the script monad *)

(** A tool is a handle on a node owned by the host. *)
Abbreviation tool := nat.

(** The exceptions the script can raise. *)
Inductive exn :=
| NameError | UnboundLocalError | AttributeError | IndexError | KeyError
| NotImplementedError.

Definition exn_eqb (a b : exn) : bool :=
  match a, b with
  | NameError, NameError | UnboundLocalError, UnboundLocalError
  | AttributeError, AttributeError | IndexError, IndexError
  | KeyError, KeyError | NotImplementedError, NotImplementedError => true
  | _, _ => false
  end.

(** [UnboundLocalError] is a subclass of [NameError]. *)
Definition base_class (e : exn) : option exn :=
  match e with
  | UnboundLocalError => Some NameError
  | _ => None
  end.

Definition isinstance (e cls : exn) : bool :=
  exn_eqb e cls ||
  match base_class e with Some b => exn_eqb b cls | None => false end.

(** What [process_layer] may return. *)
Inductive pyvalue :=
| PyNone
| PyBool (b : bool)
| PyInt (z : Z)
| PyStr (s : string)
| PyTool (t : tool).

(** [if result:]; host objects are true. *)
Definition truthy (v : pyvalue) : bool :=
  match v with
  | PyNone => false
  | PyBool b => b
  | PyInt z => negb (z =? 0)%Z
  | PyStr s => negb (String.eqb s EmptyString)
  | PyTool _ => true
  end.

(** [hasattr(result, 'GetAttrs')] *)
Definition has_GetAttrs (v : pyvalue) : bool :=
  match v with
  | PyTool _ => true
  | _ => false
  end.

(** The tools a result adds to [new_tools]. *)
Definition created (v : pyvalue) : list tool :=
  match v with
  | PyTool t => [t]
  | _ => []
  end.

(** ** The host

    The host is modelled as far as the script uses it: its calls
    succeed, a tool is a true value, a dangling handle reads as a blank
    tool and ignores assignments, and a new tool is unselected and
    sits at the origin of the flow until it is moved.  Coordinates and
    frame numbers are integers.

    What the host keeps for a tool, as far as the script reads or
    writes it. *)
Record ToolData := {
  TOOLS_RegID : string;
  Selected : bool;
  TOOLS_Name : string;
  TOOLB_NameSet : bool;
  TOOLST_Clip_Name : string;
  (** values of the controls of [Clip1.OpenEXRFormat] *)
  OpenEXRFormat : gmap string string;
  GlobalIn : Z;
  GlobalOut : Z;
  GammaSpace : Z;
  (** the tool the main input is connected to *)
  Input : option tool;
  (** position in the flow view *)
  Pos : Z * Z
}.

(** What the host decodes from a clip: the format name, the channel
    enumeration of the [RedName] control and, for a multi-part file,
    the enumeration of the [Part] control; [PartIDs] is [None] when
    the format has no [Part] control, that is when
    [tool.Clip1.OpenEXRFormat.Part] is [None]. *)
Record ClipInfo := {
  FormatName : string;
  ChannelIDs : list string;
  PartIDs : option (list string)
}.

(** Calls on the composition and its flow view. *)
Inductive host_call :=
| StartUndo (name : string)
| EndUndo (keep : bool)
| Lock
| Unlock
| Loader (clip : string) (new : tool)
| AddTool (id : string) (new : tool)
| SetPos (t : tool) (x y : Z).

Inductive level := DEBUG | INFO | WARNING | ERROR.

Inductive log_arg :=
| LStr (s : string)
| LNat (n : nat)
| LVal (v : pyvalue).

(** A call of the logger: level, message template and arguments. *)
Record log_record := {
  levelname : level;
  msg : string;
  args : list log_arg
}.

Record World := {
  tools : list ToolData;
  media : string -> ClipInfo;
  calls : list host_call;
  log : list log_record
}.

Definition blank_tool : ToolData :=
  {| TOOLS_RegID := ""; Selected := false; TOOLS_Name := "";
     TOOLB_NameSet := false; TOOLST_Clip_Name := "";
     OpenEXRFormat := ∅; GlobalIn := 0; GlobalOut := 0; GammaSpace := 0;
     Input := None; Pos := (0, 0)%Z |}.

Definition tool_data (w : World) (t : tool) : ToolData :=
  default blank_tool (tools w !! t).

Definition clip_info (w : World) (t : tool) : ClipInfo :=
  media w (TOOLST_Clip_Name (tool_data w t)).

Inductive result (A : Type) :=
| Return (a : A)
| Raise (e : exn).
Arguments Return {A} a.
Arguments Raise {A} e.

(** A computation of the script: it reads and updates the world and
    returns or raises. *)
Definition M (A : Type) : Type := World -> result A * World.

#[global] Instance M_ret : MRet M := fun A a w => (Return a, w).

#[global] Instance M_bind : MBind M := fun A B f m w =>
  match m w with
  | (Return a, w') => f a w'
  | (Raise e, w') => (Raise e, w')
  end.

Definition raise {A} (e : exn) : M A := fun w => (Raise e, w).

Definition gets {A} (f : World -> A) : M A := fun w => (Return (f w), w).

Definition modify (f : World -> World) : M unit := fun w => (Return tt, f w).

(** [try: body finally: fin]: [fin] runs on both exits; the exception
    of [body] is raised again afterwards unless [fin] raises itself. *)
Definition try_finally {A} (body : M A) (fin : M unit) : M A := fun w =>
  match body w with
  | (r, w') =>
      match fin w' with
      | (Return _, w'') => (r, w'')
      | (Raise e, w'') => (Raise e, w'')
      end
  end.

(** [for x in l: body x] *)
Fixpoint for_each {A} (l : list A) (body : A -> M unit) : M unit :=
  match l with
  | [] => mret tt
  | x :: l' => body x;; for_each l' body
  end.

(** *** Updates of the world *)

Definition set_tools (f : list ToolData -> list ToolData) (w : World) : World :=
  {| tools := f (tools w); media := media w; calls := calls w; log := log w |}.

Definition add_call (c : host_call) (w : World) : World :=
  {| tools := tools w; media := media w; calls := calls w ++ [c]; log := log w |}.

Definition add_log (r : log_record) (w : World) : World :=
  {| tools := tools w; media := media w; calls := calls w; log := log w ++ [r] |}.

Definition with_name (name : string) (d : ToolData) : ToolData :=
  {| TOOLS_RegID := TOOLS_RegID d; Selected := Selected d; TOOLS_Name := name;
     TOOLB_NameSet := true; TOOLST_Clip_Name := TOOLST_Clip_Name d;
     OpenEXRFormat := OpenEXRFormat d; GlobalIn := GlobalIn d;
     GlobalOut := GlobalOut d; GammaSpace := GammaSpace d; Input := Input d;
     Pos := Pos d |}.

Definition with_control (k v : string) (d : ToolData) : ToolData :=
  {| TOOLS_RegID := TOOLS_RegID d; Selected := Selected d;
     TOOLS_Name := TOOLS_Name d; TOOLB_NameSet := TOOLB_NameSet d;
     TOOLST_Clip_Name := TOOLST_Clip_Name d;
     OpenEXRFormat := <[k := v]> (OpenEXRFormat d); GlobalIn := GlobalIn d;
     GlobalOut := GlobalOut d; GammaSpace := GammaSpace d; Input := Input d;
     Pos := Pos d |}.

Definition with_GlobalIn (z : Z) (d : ToolData) : ToolData :=
  {| TOOLS_RegID := TOOLS_RegID d; Selected := Selected d;
     TOOLS_Name := TOOLS_Name d; TOOLB_NameSet := TOOLB_NameSet d;
     TOOLST_Clip_Name := TOOLST_Clip_Name d;
     OpenEXRFormat := OpenEXRFormat d; GlobalIn := z;
     GlobalOut := GlobalOut d; GammaSpace := GammaSpace d;
     Input := Input d; Pos := Pos d |}.

Definition with_GlobalOut (z : Z) (d : ToolData) : ToolData :=
  {| TOOLS_RegID := TOOLS_RegID d; Selected := Selected d;
     TOOLS_Name := TOOLS_Name d; TOOLB_NameSet := TOOLB_NameSet d;
     TOOLST_Clip_Name := TOOLST_Clip_Name d;
     OpenEXRFormat := OpenEXRFormat d; GlobalIn := GlobalIn d;
     GlobalOut := z; GammaSpace := GammaSpace d;
     Input := Input d; Pos := Pos d |}.

Definition with_gamma (g : Z) (d : ToolData) : ToolData :=
  {| TOOLS_RegID := TOOLS_RegID d; Selected := Selected d;
     TOOLS_Name := TOOLS_Name d; TOOLB_NameSet := TOOLB_NameSet d;
     TOOLST_Clip_Name := TOOLST_Clip_Name d;
     OpenEXRFormat := OpenEXRFormat d; GlobalIn := GlobalIn d;
     GlobalOut := GlobalOut d; GammaSpace := g; Input := Input d;
     Pos := Pos d |}.

Definition with_input (src : tool) (d : ToolData) : ToolData :=
  {| TOOLS_RegID := TOOLS_RegID d; Selected := Selected d;
     TOOLS_Name := TOOLS_Name d; TOOLB_NameSet := TOOLB_NameSet d;
     TOOLST_Clip_Name := TOOLST_Clip_Name d;
     OpenEXRFormat := OpenEXRFormat d; GlobalIn := GlobalIn d;
     GlobalOut := GlobalOut d; GammaSpace := GammaSpace d; Input := Some src;
     Pos := Pos d |}.

Definition with_pos (x y : Z) (d : ToolData) : ToolData :=
  {| TOOLS_RegID := TOOLS_RegID d; Selected := Selected d;
     TOOLS_Name := TOOLS_Name d; TOOLB_NameSet := TOOLB_NameSet d;
     TOOLST_Clip_Name := TOOLST_Clip_Name d;
     OpenEXRFormat := OpenEXRFormat d; GlobalIn := GlobalIn d;
     GlobalOut := GlobalOut d; GammaSpace := GammaSpace d; Input := Input d;
     Pos := (x, y) |}.

(** A freshly created tool of the given type on the given clip. *)
Definition new_tool_data (regid clip : string) : ToolData :=
  {| TOOLS_RegID := regid; Selected := false; TOOLS_Name := "";
     TOOLB_NameSet := false; TOOLST_Clip_Name := clip;
     OpenEXRFormat := ∅; GlobalIn := 0; GlobalOut := 0; GammaSpace := 0;
     Input := None; Pos := (0, 0)%Z |}.

(** *** The host interface *)

(** An attribute or control assignment on a tool. *)
Definition update_tool (t : tool) (f : ToolData -> ToolData) : M unit :=
  modify (set_tools (alter f t)).

(** [comp.Loader({"Clip": clip})] *)
Definition comp_Loader (clip : string) : M tool := fun w =>
  let t := length (tools w) in
  (Return t,
   add_call (Loader clip t) (set_tools (fun l => l ++ [new_tool_data "Loader" clip])%list w)).

(** [comp.AddTool(id)] *)
Definition comp_AddTool (id : string) : M tool := fun w =>
  let t := length (tools w) in
  (Return t,
   add_call (AddTool id t) (set_tools (fun l => l ++ [new_tool_data id ""])%list w)).

Definition comp_StartUndo (name : string) : M unit := modify (add_call (StartUndo name)).
Definition comp_EndUndo (keep : bool) : M unit := modify (add_call (EndUndo keep)).
Definition comp_Lock : M unit := modify (add_call Lock).
Definition comp_Unlock : M unit := modify (add_call Unlock).

(** [flow.GetPosTable(t).values()] and [flow.SetPos(t, x, y)] *)
Definition flow_GetPosTable (t : tool) : M (Z * Z) :=
  gets (fun w => Pos (tool_data w t)).

Definition flow_SetPos (t : tool) (x y : Z) : M unit :=
  update_tool t (with_pos x y);; modify (add_call (SetPos t x y)).

(** The logger. *)
Definition logger (l : level) (m : string) (a : list log_arg) : M unit :=
  modify (add_log {| levelname := l; msg := m; args := a |}).

Definition logger_debug := logger DEBUG.
Definition logger_info := logger INFO.
Definition logger_error := logger ERROR.

(** ** Util functions *)

(** [get_selected_tools(comp, tool_type)]: the selected tools of the
    given type, in the order of the host's tool list. *)
Definition get_selected_tools (tool_type : option string) : M (list tool) :=
  gets (fun w =>
    List.filter
      (fun t =>
         Selected (tool_data w t) &&
         match tool_type with
         | None => true
         | Some ty => String.eqb (TOOLS_RegID (tool_data w t)) ty
         end)
      (seq 0 (length (tools w)))).

Definition get_tool_name (t : tool) : M string :=
  gets (fun w => TOOLS_Name (tool_data w t)).

Definition set_tool_name (t : tool) (name : string) : M unit :=
  update_tool t (with_name name).

Definition is_exr_loader (t : tool) : M bool :=
  fmt ← gets (fun w => FormatName (clip_info w t));
  mret (String.eqb fmt "OpenEXRFormat").

Definition is_multipart_exr (t : tool) : M bool :=
  exr ← is_exr_loader t;
  if negb exr then mret false
  else
    part ← gets (fun w => PartIDs (clip_info w t));
    mret (match part with Some _ => true | None => false end).

(** ** Plugins *)

(** An options dict; only the truth value of an option is ever used. *)
Abbreviation options_t := (gmap string bool).

(** [d[k]] on a dict. *)
Definition getitem (d : options_t) (k : string) : M bool :=
  match d !! k with
  | Some v => mret v
  | None => raise KeyError
  end.

(** A [list] object has neither [keys] nor [get]: the attribute lookup
    raises [AttributeError]. *)
Definition list_keys (l : list channel) : M (list string) :=
  raise AttributeError.

Definition list_get (l : list channel) (k : string) : M (option string) :=
  raise AttributeError.

Inductive plugin_class :=
| EXRSplitPlugin
| DefaultPlugin
| CryptomattePlugin
| VrayPlugin.

Definition class_name (c : plugin_class) : string :=
  match c with
  | EXRSplitPlugin => "EXRSplitPlugin"
  | DefaultPlugin => "DefaultPlugin"
  | CryptomattePlugin => "CryptomattePlugin"
  | VrayPlugin => "VrayPlugin"
  end.

Definition default_options (c : plugin_class) : list (string * bool) :=
  match c with
  | DefaultPlugin => [("alpha_fallback", false)]
  | VrayPlugin => [("use_aux_channels", true); ("flip_worldpos_axis", true)]
  | EXRSplitPlugin | CryptomattePlugin => []
  end.

(** A plugin instance.  [options] is the caller's dict itself, shared
    by all instances of one splitting operation. *)
Record plugin := {
  cls : plugin_class;
  exr_filename : string;
  loader : tool;
  layers : layers_t;
  options : options_t;
  made_crypto : bool
}.

(** The loop of [EXRSplitPlugin.__init__]: the defaults the caller's
    dict lacks are written into it. *)
Definition init_options (c : plugin_class) (options : options_t) : options_t :=
  fold_left
    (fun o kv => match o !! fst kv with
                 | Some _ => o
                 | None => <[fst kv := snd kv]> o
                 end)
    (default_options c) options.

Definition with_made_crypto (b : bool) (p : plugin) : plugin :=
  {| cls := cls p; exr_filename := exr_filename p; loader := loader p;
     layers := layers p; options := options p; made_crypto := b |}.

(** *** DefaultPlugin *)

Definition channel_mappings : odict string :=
  [("r", "RedName"); ("g", "GreenName"); ("b", "BlueName"); ("a", "AlphaName");
   ("u", "RedName"); ("v", "GreenName"); ("w", "BlueName");
   ("x", "RedName"); ("y", "GreenName"); ("z", "BlueName")].

Definition CHANNEL_NO_MATCH : string := "SomethingThatWontMatchHopefully".

(** The body of the loop over the channels of the layer. *)
Definition bind_channel (new_loader : tool) (c : channel) : M unit :=
  let '(chan, raw_channel) := c in
  match dict_get chan channel_mappings with
  | None => logger_error ("Unknown channel: " ++ chan) []
  | Some mapping => update_tool new_loader (with_control mapping raw_channel)
  end.

Definition DefaultPlugin_process_layer
    (self : plugin) (layer_name : string) (channels : list channel)
  : M (pyvalue * plugin) :=
  logger_info "Creating new loader for layer: %s" [LStr layer_name];;
  new_loader ← comp_Loader (exr_filename self);
  update_tool new_loader (with_control "RedName" CHANNEL_NO_MATCH);;
  update_tool new_loader (with_control "GreenName" CHANNEL_NO_MATCH);;
  update_tool new_loader (with_control "BlueName" CHANNEL_NO_MATCH);;
  update_tool new_loader (with_control "AlphaName" CHANNEL_NO_MATCH);;
  update_tool new_loader (with_control "ZName" CHANNEL_NO_MATCH);;
  for_each channels (bind_channel new_loader);;
  alpha_fallback ← getitem (options self) "alpha_fallback";
  no_alpha ← (if alpha_fallback : bool
              then keys ← list_keys channels;
                   mret (negb (existsb (String.eqb "a") keys))
              else mret false);
  (if no_alpha : bool
   then
     fallback_alpha_channel ←
       match dict_get "default" (layers self) with
       | Some l => list_get l "a"
       | None => mret None
       end;
     match fallback_alpha_channel with
     | Some c =>
         if String.eqb c EmptyString then mret tt
         else update_tool new_loader (with_control "AlphaName" c)
     | None => mret tt
     end
   else mret tt);;
  gin ← gets (fun w => GlobalIn (tool_data w (loader self)));
  update_tool new_loader (with_GlobalIn gin);;
  gout ← gets (fun w => GlobalOut (tool_data w (loader self)));
  update_tool new_loader (with_GlobalOut gout);;
  let name := layer_name in
  set_tool_name new_loader name;;
  mret (PyTool new_loader, self).

(** *** CryptomattePlugin *)

(** [os.path.basename] and the root of [os.path.splitext], for
    [/]-separated paths. *)
Definition basename (p : string) : string :=
  Py.last_item (Py.split "/"%char p).

Fixpoint all_dots (s : string) : bool :=
  match s with
  | EmptyString => true
  | String c s' => Ascii.eqb c "."%char && all_dots s'
  end.

Definition splitext_root (p : string) : string :=
  let segs := Py.split "."%char p in
  let root := Py.join "." (Py.but_last segs) in
  if (1 <? length segs)%nat && negb (all_dots root) then root else p.

Definition CryptomattePlugin_process_layer
    (self : plugin) (layer_name : string) (channels : list channel)
  : M (pyvalue * plugin) :=
  if negb (Py.contains "crypto" (Py.lower layer_name))
  then mret (PyBool false, self)
  else
    logger_info "Cryptomatte: %s" [LStr layer_name];;
    if made_crypto self then mret (PyBool true, self)
    else
      logger_info "Creating Cryptomatte node." [];;
      new_tool ← comp_AddTool "Fuse.Cryptomatte";
      update_tool new_tool (with_input (loader self));;
      let exr_name := splitext_root (basename (exr_filename self)) in
      let name := "Cryp_" ++ exr_name in
      set_tool_name new_tool name;;
      mret (PyTool new_tool, with_made_crypto true self).

(** *** VrayPlugin *)

Definition pos_remappings : odict string :=
  [("r", "x"); ("g", "y"); ("b", "z")].

Definition layer_name_mappings : odict string :=
  [("normal", "NormName"); ("pos", "PosName"); ("vel", "VelName")].

(** The axis letter of a channel of the layer, before [upper]. *)
Definition vray_axis (self : plugin) (mapping_name layer_name chan : string)
  : M string :=
  let chan := default chan (dict_get chan pos_remappings) in
  if String.eqb mapping_name "pos" then
    logger_info "World Position: %s" [LStr layer_name];;
    flip ← getitem (options self) "flip_worldpos_axis";
    if flip : bool then
      logger_info "Doing 3DSMax WorldPos tweaks for channel: %s" [LStr chan];;
      if String.eqb chan "z" then
        logger_info "Flipping Z axis to Y" [];; mret "y"
      else if String.eqb chan "y" then
        logger_info "Flipping Y axis to Z" [];; mret "z"
      else mret chan
    else mret chan
  else mret chan.

(** The body of the loop over the channels of the layer. *)
Definition vray_channel (self : plugin) (mapping_name mapping layer_name : string)
    (c : channel) : M unit :=
  let '(chan, raw_channel) := c in
  chan ← vray_axis self mapping_name layer_name chan;
  let chan := Py.upper chan in
  let fusion_name := chan ++ mapping in
  logger_info (fusion_name ++ " -> " ++ raw_channel) [];;
  update_tool (loader self) (with_control fusion_name raw_channel).

Definition VrayPlugin_process_layer
    (self : plugin) (layer_name : string) (channels : list channel)
  : M (pyvalue * plugin) :=
  use_aux ← getitem (options self) "use_aux_channels";
  if negb use_aux then mret (PyBool false, self)
  else
    logger_info "Native Fusion Layer: %s" [LStr layer_name];;
    let mapping_name :=
      List.find (fun l => Py.contains l (Py.lower layer_name))
                (dict_keys layer_name_mappings) in
    match mapping_name with
    | None => mret (PyBool false, self)
    | Some mapping_name =>
        match dict_get mapping_name layer_name_mappings with
        | None => raise KeyError
        | Some mapping =>
            for_each channels (vray_channel self mapping_name mapping layer_name);;
            mret (PyBool true, self)
        end
    end.

(** *** The plugin interface *)

Class Plugin (P : Type) := {
  plugin_name : P -> string;
  process_layer : P -> string -> list channel -> M (pyvalue * P)
}.

#[global] Instance plugin_Plugin : Plugin plugin := {|
  plugin_name p := class_name (cls p);
  process_layer p :=
    match cls p with
    | EXRSplitPlugin => fun _ _ => raise NotImplementedError
    | DefaultPlugin => DefaultPlugin_process_layer p
    | CryptomattePlugin => CryptomattePlugin_process_layer p
    | VrayPlugin => VrayPlugin_process_layer p
    end
|}.

(** ** Main EXR split functions *)

Section Dispatch.
Context {P : Type} `{Plugin P}.

(** The loop over the plugins for one layer (lines 324-336): the
    plugins after their calls, and [new_tools].  The record of
    ['Result: {}'.format(result)] keeps the result itself, as the
    text of a host object is the host's. *)
Fixpoint dispatch_layer (plugins : list P) (layer_name : string)
    (channels : list channel) (new_tools : list tool)
  : M (list P * list tool) :=
  match plugins with
  | [] => mret ([], new_tools)
  | plugin :: rest =>
      logger_debug "Attempting to use plugin %s on layer %s"
                   [LStr (plugin_name plugin); LStr layer_name];;
      '(result, plugin') ← process_layer plugin layer_name channels;
      logger_debug "Result: {}" [LVal result];;
      if truthy result then
        logger_debug "There was a result." [];;
        new_tools ←
          (if has_GetAttrs result then
             logger_debug "The result was a new tool." [];;
             mret (new_tools ++ created result)%list
           else mret new_tools);
        logger_debug "Plugin %s successfully processed layer %s"
                     [LStr (plugin_name plugin'); LStr layer_name];;
        mret (plugin' :: rest, new_tools)
      else
        logger_debug "Plugin %s rejected layer %s"
                     [LStr (plugin_name plugin'); LStr layer_name];;
        '(rest', new_tools) ← dispatch_layer rest layer_name channels new_tools;
        mret (plugin' :: rest', new_tools)
  end.

(** The loop over the layers (lines 319-336). *)
Fixpoint dispatch_layers (layers : layers_t) (plugins : list P)
    (new_tools : list tool) : M (list P * list tool) :=
  match layers with
  | [] => mret (plugins, new_tools)
  | (layer_name, channels) :: layers' =>
      logger_info "Layer: %s" [LStr layer_name];;
      '(plugins, new_tools) ← dispatch_layer plugins layer_name channels new_tools;
      dispatch_layers layers' plugins new_tools
  end.
End Dispatch.

(** [[p(exr_filename, loader, layers, options) for p in plugin_classes]]:
    every constructor writes its defaults into the one dict [options],
    and every instance holds that dict, so each sees the defaults of
    all.  The dict after the constructors is returned with the
    instances. *)
Definition make_plugins (plugin_classes : list plugin_class)
    (exr_filename : string) (loader : tool) (layers : layers_t)
    (options : options_t) : list plugin * options_t :=
  let options := fold_left (fun o c => init_options c o) plugin_classes options in
  (map (fun c => {| cls := c; exr_filename := exr_filename; loader := loader;
                    layers := layers; options := options;
                    made_crypto := false |})
       plugin_classes,
   options).

(** [split_multilayer_exr(comp, loader, plugin_classes, options)]
    returns [new_tools]; the dict [options], which it updates in place,
    is returned with it. *)
Definition split_multilayer_exr (loader : tool)
    (plugin_classes : list plugin_class) (options : options_t)
  : M (list tool * options_t) :=
  exr_filename ← gets (fun w => TOOLST_Clip_Name (tool_data w loader));
  sourceChannels ← gets (fun w => ChannelIDs (clip_info w loader));
  let layers := group_layers sourceChannels in
  logger_debug "%s layers found." [LNat (length layers)];;
  let '(plugins, options) :=
    make_plugins plugin_classes exr_filename loader layers options in
  '(_, new_tools) ← dispatch_layers layers plugins [];
  logger_debug "Finished processing all layers." [];;
  mret (new_tools, options).

(** The body of the loop over the parts. *)
Definition new_part_loader (t : tool) (exr_filename name : string) : M tool :=
  new_loader ← comp_Loader exr_filename;
  update_tool new_loader (with_name name);;
  gamma ← gets (fun w => GammaSpace (tool_data w t));
  update_tool new_loader (with_gamma gamma);;
  update_tool new_loader (with_control "Part" name);;
  gin ← gets (fun w => GlobalIn (tool_data w t));
  update_tool new_loader (with_GlobalIn gin);;
  gout ← gets (fun w => GlobalOut (tool_data w t));
  update_tool new_loader (with_GlobalOut gout);;
  mret new_loader.

Fixpoint new_part_loaders (t : tool) (exr_filename : string)
    (names : list string) (new_tools : list tool) : M (list tool) :=
  match names with
  | [] => mret new_tools
  | name :: names' =>
      new_loader ← new_part_loader t exr_filename name;
      new_part_loaders t exr_filename names' (new_tools ++ [new_loader])%list
  end.

(** [split_multipart_exr(comp, tool, plugin_classes, options)]: [None]
    is Python's [None], returned for a tool that is no EXR loader.  For
    an EXR loader without the control [Part], [inp] is [None] and
    [inp.GetAttrs()] raises AttributeError. *)
Definition split_multipart_exr (t : tool) (plugin_classes : list plugin_class)
    (options : options_t) : M (option (list tool)) :=
  exr ← is_exr_loader t;
  if negb exr then mret None
  else
    exr_filename ← gets (fun w => TOOLST_Clip_Name (tool_data w t));
    inp ← gets (fun w => PartIDs (clip_info w t));
    match inp with
    | None => raise AttributeError
    | Some channel_table =>
        new_tools ← new_part_loaders t exr_filename channel_table [];
        mret (Some new_tools)
    end.

(** The loop of [arrange_tools_table] over [enumerate(tools)], from
    index [i] on.  The quotient [int(i / max_rows)] is the integer
    quotient for every index a list can have. *)
Fixpoint place_tools (org_x_pos org_y_pos col_spacing max_rows : Z) (i : Z)
    (tools : list tool) : M unit :=
  match tools with
  | [] => mret tt
  | new_loader :: tools' =>
      let col := (i / max_rows)%Z in
      let row := (i mod max_rows)%Z in
      flow_SetPos new_loader (org_x_pos + col * col_spacing)%Z (org_y_pos + row)%Z;;
      place_tools org_x_pos org_y_pos col_spacing max_rows (i + 1)%Z tools'
  end.

(** [arrange_tools_table(comp, tools, col_spacing, max_rows, origin_tool)];
    the parameter [max_rows] is overwritten with 20 before use. *)
Definition arrange_tools_table (tools : list tool) (col_spacing max_rows : Z)
    (origin_tool : option tool) : M unit :=
  origin_tool ←
    match origin_tool with
    | Some t => mret t
    | None => match tools with
              | t :: _ => mret t
              | [] => raise IndexError
              end
    end;
  '(org_x_pos, org_y_pos) ← flow_GetPosTable origin_tool;
  let max_rows := 20%Z in
  place_tools org_x_pos org_y_pos col_spacing max_rows 0 tools.

(** A local variable is unbound until its first assignment. *)
Inductive local (A : Type) :=
| Unbound
| Bound (a : A).
Arguments Unbound {A}.
Arguments Bound {A} a.

(** [split_exr(comp, tool, plugin_classes, options)], with the dict
    [options] after the call. *)
Definition split_exr (t : tool) (plugin_classes : list plugin_class)
    (options : options_t) : M options_t :=
  multipart ← is_multipart_exr t;
  '(new_tools, options) ←
    (if multipart : bool then
       r ← split_multipart_exr t plugin_classes options;
       mret (Bound r, options)
     else
       exr ← is_exr_loader t;
       if exr : bool then
         '(r, options) ← split_multilayer_exr t plugin_classes options;
         mret (Bound (Some r), options)
       else mret (Unbound, options));
  match new_tools with
  | Unbound => raise UnboundLocalError
  | Bound None | Bound (Some []) => mret options
  | Bound (Some new_tools) =>
      arrange_tools_table new_tools 1 20 (Some t);;
      mret options
  end.

(** The loop of [split_exr_script] over the selected loaders. *)
Fixpoint split_selected (selected : list tool)
    (plugin_classes : list plugin_class) (options : options_t) : M unit :=
  match selected with
  | [] => mret tt
  | t :: selected' =>
      name ← get_tool_name t;
      logger_debug ("Tool: " ++ name) [];;
      options ← split_exr t plugin_classes options;
      split_selected selected' plugin_classes options
  end.

Definition split_exr_script : M unit :=
  logger_debug "Attempting to split EXR from selected tools." [];;
  let options : options_t := ∅ in
  let plugin_classes := [CryptomattePlugin; DefaultPlugin] in
  comp_StartUndo "Split EXR";;
  comp_Lock;;
  try_finally
    (selected ← get_selected_tools (Some "Loader");
     split_selected selected plugin_classes options)
    (comp_Unlock;; comp_EndUndo true).

(** ** The parser, as the specification words it *)

(** The names of a list without repetitions, in first-seen order. *)
Fixpoint first_seen (l : list string) : list string :=
  match l with
  | [] => []
  | x :: l' => x :: List.filter (fun y => negb (String.eqb y x)) (first_seen l')
  end.

(** The channels of layer [L], in the order of the enumeration. *)
Definition channels_of (L : string) (sourceChannels : list string) : list channel :=
  map (fun c => (key_of c, c))
      (List.filter (fun c => String.eqb (layer_name_of c) L) sourceChannels).

(** Every layer in first-seen order, with its channels in the order of
    the enumeration. *)
Definition spec_group_layers (sourceChannels : list string) : layers_t :=
  map (fun L => (L, channels_of L sourceChannels))
      (first_seen (map layer_name_of sourceChannels)).

(** No ['.'] occurs in the string. *)
Fixpoint dot_free (s : string) : bool :=
  match s with
  | EmptyString => true
  | String c s' => negb (Ascii.eqb c namespace_separator) && dot_free s'
  end.

Definition mem (x : string) (l : list string) : bool := existsb (String.eqb x) l.

(** A dictionary presented as a table over its keys. *)
Definition tabulate {V : Type} (g : string -> V) (ks : list string) : odict V :=
  map (fun k => (k, g k)) ks.

(** ** Relations between the worlds before and after a computation *)

(** [m] relates every world to the world it leaves. *)
Definition preserves (R : World -> World -> Prop) {A} (m : M A) : Prop :=
  forall w, R w (snd (m w)).

(** The calls that create or move nodes. *)
Definition node_call (c : host_call) : bool :=
  match c with
  | Loader _ _ | AddTool _ _ | SetPos _ _ _ => true
  | StartUndo _ | EndUndo _ | Lock | Unlock => false
  end.

(** What no assignment of the script changes on a tool. *)
Definition static (d : ToolData) : string * bool * string :=
  (TOOLS_RegID d, Selected d, TOOLST_Clip_Name d).

Definition static_fun (f : ToolData -> ToolData) : Prop :=
  forall d, static (f d) = static d.

(** The later world has the tools of the earlier one, unchanged in
    type, selection and clip, and maybe more; the calls in between
    create or move nodes. *)
Record frame (w w' : World) : Prop := {
  frame_media : media w' = media w;
  frame_length : length (tools w) <= length (tools w');
  frame_static :
    forall t, t < length (tools w) -> static (tool_data w' t) = static (tool_data w t);
  frame_calls :
    exists evs, calls w' = (calls w ++ evs)%list /\ forallb node_call evs = true;
  frame_log : exists recs, log w' = (log w ++ recs)%list
}.

(** Nothing was logged in between. *)
Definition quiet (w w' : World) : Prop := log w' = log w.

Definition is_AddTool (c : host_call) : bool :=
  match c with
  | AddTool _ _ => true
  | _ => false
  end.

Definition count_AddTool (l : list host_call) : nat :=
  length (List.filter is_AddTool l).

(** No node was added with [comp.AddTool] in between. *)
Definition no_AddTool (w w' : World) : Prop :=
  count_AddTool (calls w') = count_AddTool (calls w).

(** How often the graph is locked and how many undo transactions are
    open after the given calls. *)
Definition lock_delta (c : host_call) : Z :=
  match c with
  | Lock => 1
  | Unlock => -1
  | _ => 0
  end.

Definition undo_delta (c : host_call) : Z :=
  match c with
  | StartUndo _ => 1
  | EndUndo _ => -1
  | _ => 0
  end.

Definition lock_depth (l : list host_call) : Z :=
  fold_right (fun c n => (lock_delta c + n)%Z) 0%Z l.

Definition open_undos (l : list host_call) : Z :=
  fold_right (fun c n => (undo_delta c + n)%Z) 0%Z l.

(** [is_exr_loader] as a function of the world. *)
Definition exr_loader (w : World) (t : tool) : bool :=
  String.eqb (FormatName (clip_info w t)) "OpenEXRFormat".

(** [is_multipart_exr] as a function of the world. *)
Definition multipart_exr (w : World) (t : tool) : bool :=
  exr_loader w t &&
  match PartIDs (clip_info w t) with Some _ => true | None => false end.

(** The log line with which the layer-grouping path starts. *)
Definition layers_found (w : World) (t : tool) : log_record :=
  {| levelname := DEBUG; msg := "%s layers found.";
     args := [LNat (length (group_layers (ChannelIDs (clip_info w t))))] |}.

(** ** The layout, as the specification words it

    The place of the [i]-th new node: row [i mod 20], column [i / 20],
    columns [col_spacing] apart and rows one unit apart. *)
Definition grid_pos (org_x_pos org_y_pos col_spacing : Z) (i : nat) : Z * Z :=
  let row := (Z.of_nat i mod 20)%Z in
  let col := (Z.of_nat i / 20)%Z in
  (org_x_pos + col * col_spacing, org_y_pos + row * 1)%Z.

Definition grid_call (org_x_pos org_y_pos col_spacing : Z) (i : nat) (t : tool)
  : host_call :=
  SetPos t (fst (grid_pos org_x_pos org_y_pos col_spacing i))
           (snd (grid_pos org_x_pos org_y_pos col_spacing i)).

(** The origin of the layout: the given tool or else the first new one. *)
Definition origin_of (origin_tool : option tool) (tools : list tool) : option tool :=
  match origin_tool with
  | Some t => Some t
  | None => head tools
  end.

(** ** The auxiliary-pass plugin, as the specification words it *)

(** The keyword of [layer_name_mappings] the layer name matches. *)
Definition mapping_name_of (layer_name : string) : option string :=
  List.find (fun l => Py.contains l (Py.lower layer_name))
            (dict_keys layer_name_mappings).

(** The control a channel is written to: colour letters become axis
    letters, the axes y and z of a position layer are swapped when
    [flip] is set, and the upper-cased letter is put before the name of
    the attribute group. *)
Definition vray_fusion_name (flip : bool) (mapping_name mapping chan : string)
  : string :=
  let axis := default chan (dict_get chan pos_remappings) in
  let axis :=
    if String.eqb mapping_name "pos" && flip then
      if String.eqb axis "z" then "y"
      else if String.eqb axis "y" then "z"
      else axis
    else axis in
  Py.upper axis ++ mapping.

(** The assignment [fmt[fusion_name] = raw_channel] for one channel of
    a position layer. *)
Definition vray_write (flip : bool) (loader : tool) (ts : list ToolData)
    (c : channel) : list ToolData :=
  alter (with_control (vray_fusion_name flip "pos" "PosName" (fst c)) (snd c))
        loader ts.

(** ** The default plugin, as the specification words it *)

(** The channel key is in the mapping table. *)
Definition known_channel (c : channel) : bool :=
  match dict_get (fst c) channel_mappings with
  | Some _ => true
  | None => false
  end.

(** The error logged for a channel whose key is not in the table. *)
Definition unknown_channel_record (c : channel) : log_record :=
  {| levelname := ERROR; msg := "Unknown channel: " ++ fst c; args := [] |}.

(** ** Example worlds

    A composition with one selected loader on a clip; the host decodes
    [beauty.exr] as a multi-layer EXR, [parts.exr] as a multi-part EXR
    and anything else as a JPEG. *)
Definition demo_media (clip : string) : ClipInfo :=
  if String.eqb clip "/shots/beauty.exr" then
    {| FormatName := "OpenEXRFormat";
       ChannelIDs := ["R"; "G"; "B"; "A"; "diffuse.R"; "diffuse.G"; "diffuse.B";
                      "diffuse.Q"; "crypto00.R"; "CryptoObject01.R"];
       PartIDs := None |}
  else if String.eqb clip "/shots/parts.exr" then
    {| FormatName := "OpenEXRFormat"; ChannelIDs := ["R"; "G"; "B"];
       PartIDs := Some ["beauty"; "specular"] |}
  else {| FormatName := "JpegFormat"; ChannelIDs := []; PartIDs := None |}.

Definition demo_loader (clip : string) : ToolData :=
  {| TOOLS_RegID := "Loader"; Selected := true; TOOLS_Name := "Loader1";
     TOOLB_NameSet := false; TOOLST_Clip_Name := clip;
     OpenEXRFormat := ∅; GlobalIn := 1; GlobalOut := 100; GammaSpace := 0;
     Input := None; Pos := (5, 7)%Z |}.

Definition demo_world (clip : string) : World :=
  {| tools := [demo_loader clip]; media := demo_media; calls := []; log := [] |}.

(** A plugin instance on the loader of [demo_world "/shots/beauty.exr"]. *)
Definition demo_plugin (c : plugin_class) (opts : options_t) : plugin :=
  {| cls := c; exr_filename := "/shots/beauty.exr"; loader := 0;
     layers := group_layers (ChannelIDs (demo_media "/shots/beauty.exr"));
     options := opts; made_crypto := false |}.

(** ** The dispatch loop, as the specification words it *)

Section Chain.
Context {P : Type} `{Plugin P}.

(** The world in which a plugin is called: the attempt is logged. *)
Definition attempt_logged (plugin : P) (layer_name : string) (w : World) : World :=
  add_log {| levelname := DEBUG;
             msg := "Attempting to use plugin %s on layer %s";
             args := [LStr (plugin_name plugin); LStr layer_name] |} w.

(** The world after a plugin returned a false result. *)
Definition rejected_logged (plugin' : P) (layer_name : string)
    (result : pyvalue) (w : World) : World :=
  add_log {| levelname := DEBUG; msg := "Plugin %s rejected layer %s";
             args := [LStr (plugin_name plugin'); LStr layer_name] |}
    (add_log {| levelname := DEBUG; msg := "Result: {}";
                args := [LVal result] |} w).

(** The world after a plugin returned a true result. *)
Definition accepted_logged (plugin' : P) (layer_name : string)
    (result : pyvalue) (w : World) : World :=
  add_log {| levelname := DEBUG;
             msg := "Plugin %s successfully processed layer %s";
             args := [LStr (plugin_name plugin'); LStr layer_name] |}
    ((if has_GetAttrs result
      then add_log {| levelname := DEBUG; msg := "The result was a new tool.";
                      args := [] |}
      else fun w => w)
       (add_log {| levelname := DEBUG; msg := "There was a result.";
                   args := [] |}
          (add_log {| levelname := DEBUG; msg := "Result: {}";
                      args := [LVal result] |} w))).

(** [rejects layer_name channels plugins w plugins' w']: called one
    after the other from world [w] on, in the order of the list, every
    plugin returns a false result; the calls leave the plugins as
    [plugins'] and the world as [w']. *)
Inductive rejects (layer_name : string) (channels : list channel)
  : list P -> World -> list P -> World -> Prop :=
| rejects_nil w : rejects layer_name channels [] w [] w
| rejects_cons plugin rest w result plugin' w1 rest' w2 :
    process_layer plugin layer_name channels (attempt_logged plugin layer_name w)
    = (Return (result, plugin'), w1) ->
    truthy result = false ->
    rejects layer_name channels rest
            (rejected_logged plugin' layer_name result w1) rest' w2 ->
    rejects layer_name channels (plugin :: rest) w (plugin' :: rest') w2.
End Chain.

(** The world in which the plugins are offered a layer: the layer is
    logged. *)
Definition layer_logged (layer_name : string) (w : World) : World :=
  add_log {| levelname := INFO; msg := "Layer: %s"; args := [LStr layer_name] |} w.

(** ** The matte plugin, as the specification words it *)

Definition is_crypto (p : plugin) : bool :=
  match cls p with
  | CryptomattePlugin => true
  | _ => false
  end.

(** The layer name contains "crypto", whatever the case. *)
Definition crypto_layer (layer_name : string) : bool :=
  Py.contains "crypto" (Py.lower layer_name).


(** A composition with the loader and 25 more loaders on the clip. *)
Definition demo_world_25 : World :=
  {| tools := demo_loader "/shots/beauty.exr"
              :: replicate 25 (new_tool_data "Loader" "/shots/beauty.exr");
     media := demo_media; calls := []; log := [] |}.

(** The options of the auxiliary-pass plugin, with the given flip. *)
Definition demo_vray_options (flip : bool) : options_t :=
  <[ "flip_worldpos_axis" := flip ]> {[ "use_aux_channels" := true ]}.

(** * Further functions of the script *)

(** ** get_or_default *)

(** [get_or_default(key, options, default_options)] is
    [options.get(key, default_options[key])]: the default is looked up
    before [get] is called. *)
Definition get_or_default (key : string) (options default_options : options_t)
  : result bool :=
  match default_options !! key with
  | None => Raise KeyError
  | Some d => Return (default d (options !! key))
  end.

(** The defaults of a plugin class as a dict. *)
Definition default_options_dict (c : plugin_class) : options_t :=
  list_to_map (default_options c).

(** The channels of all layers, layer after layer. *)
Definition all_channels (layers : layers_t) : list channel :=
  concat (map snd layers).

(** ** The default plugin, in closed form *)

(** What one channel of the layer does to the new loader. *)
Definition bind_data (d : ToolData) (c : channel) : ToolData :=
  match dict_get (fst c) channel_mappings with
  | Some mapping => with_control mapping (snd c) d
  | None => d
  end.

(** The new loader before the loop: the five slots at the sentinel. *)
Definition reset_loader_data (clip : string) : ToolData :=
  with_control "ZName" CHANNEL_NO_MATCH
    (with_control "AlphaName" CHANNEL_NO_MATCH
       (with_control "BlueName" CHANNEL_NO_MATCH
          (with_control "GreenName" CHANNEL_NO_MATCH
             (with_control "RedName" CHANNEL_NO_MATCH
                (new_tool_data "Loader" clip))))).

(** The loader the default plugin leaves for a layer. *)
Definition default_loader_data (clip layer_name : string)
    (channels : list channel) (gin gout : Z) : ToolData :=
  with_name layer_name
    (with_GlobalOut gout
       (with_GlobalIn gin
          (fold_left bind_data channels (reset_loader_data clip)))).

(** The raw names of the channels of the layer that go to a slot. *)
Definition slot_channels (slot : string) (channels : list channel) : list string :=
  map snd
      (List.filter
         (fun c : channel =>
            match dict_get (fst c) channel_mappings with
            | Some mapping => String.eqb mapping slot
            | None => false
            end)
         channels).

Definition slot_names : list string :=
  ["RedName"; "GreenName"; "BlueName"; "AlphaName"; "ZName"].

(** The fields of a tool but the controls of its format. *)
Definition plain (d : ToolData) :=
  (TOOLS_RegID d, Selected d, TOOLS_Name d, TOOLB_NameSet d, TOOLST_Clip_Name d,
   GlobalIn d, GlobalOut d, GammaSpace d, Input d, Pos d).

(** ** The auxiliary-pass plugin, in closed form *)

(** Only the controls of the format of tool [l] differ between the two
    worlds. *)
Record format_only (l : tool) (w w' : World) : Prop := {
  format_only_calls : calls w' = calls w;
  format_only_media : media w' = media w;
  format_only_length : length (tools w') = length (tools w);
  format_only_plain : forall t, plain (tool_data w' t) = plain (tool_data w t);
  format_only_other : forall t, t <> l -> tool_data w' t = tool_data w t
}.

(** The assignment [fmt[fusion_name] = raw_channel] for one channel of
    a layer matched to [mapping_name]. *)
Definition vray_write_at (flip : bool) (mapping_name mapping : string)
    (loader : tool) (ts : list ToolData) (c : channel) : list ToolData :=
  alter (with_control (vray_fusion_name flip mapping_name mapping (fst c)) (snd c))
        loader ts.

(** ** The multi-part splitter, in closed form *)

(** The loader made for the part [name] of the file [clip], with the
    colour space and the frame range of the originating loader. *)
Definition part_loader_data (clip name : string) (gamma gin gout : Z) : ToolData :=
  with_GlobalOut gout
    (with_GlobalIn gin
       (with_control "Part" name
          (with_gamma gamma
             (with_name name (new_tool_data "Loader" clip))))).

(** ** The layout arranger, on any list *)

(** The last index at which [t] occurs in [l], the indices counted
    from [k]. *)
Fixpoint last_index_from (k : nat) (t : tool) (l : list tool) : option nat :=
  match l with
  | [] => None
  | a :: l' =>
      match last_index_from (S k) t l' with
      | Some i => Some i
      | None => if Nat.eqb a t then Some k else None
      end
  end.

(** The fields of a tool but its position. *)
Definition unplaced (d : ToolData) :=
  (TOOLS_RegID d, Selected d, TOOLS_Name d, TOOLB_NameSet d, TOOLST_Clip_Name d,
   OpenEXRFormat d, GlobalIn d, GlobalOut d, GammaSpace d, Input d).

(** ** The plugin chain of the script *)

(** The chain [[CryptomattePlugin, DefaultPlugin]] with the alpha
    fallback disabled. *)
Definition script_chain (plugins : list plugin) : Prop :=
  exists c d,
    plugins = [c; d] /\ is_crypto c = true /\ cls d = DefaultPlugin
    /\ options d !! "alpha_fallback" = Some false.

(** The plugin classes the script configures. *)
Definition script_plugin_classes : list plugin_class :=
  [CryptomattePlugin; DefaultPlugin].

(** The selected loaders, as [split_exr_script] takes them. *)
Definition selected_loaders (w : World) : list tool :=
  List.filter
    (fun t => Selected (tool_data w t)
              && String.eqb (TOOLS_RegID (tool_data w t)) "Loader")
    (seq 0 (length (tools w))).

(** No [c] occurs in the string. *)
Fixpoint char_free (c : ascii) (s : string) : bool :=
  match s with
  | EmptyString => true
  | String x s' => negb (Ascii.eqb x c) && char_free c s'
  end.

(** ** Logging

    The numeric levels of the [logging] module. *)
Definition levelno (l : level) : Z :=
  match l with
  | DEBUG => 10
  | INFO => 20
  | WARNING => 30
  | ERROR => 40
  end.

Inductive stream := stdout | stderr.

(** [LessThanFilter(exclusive_maximum)] *)
Record LessThanFilter := { max_level : Z }.

(** [LessThanFilter.filter(record)], on the level of the record. *)
Definition LessThanFilter_filter (self : LessThanFilter) (record_levelno : Z) : Z :=
  if (record_levelno <? max_level self)%Z then 1 else 0.

(** A [logging.StreamHandler] with its level and filters. *)
Record StreamHandler := {
  handler_stream : stream;
  handler_level : Z;
  handler_filters : list LessThanFilter
}.

(** What [logConfig] sets up: the level of the root logger, the level
    set on the named logger, and the handlers of the root logger. *)
Record LogSetup := {
  root_level : Z;
  named_level : option (string * Z);
  root_handlers : list StreamHandler
}.

(** [logConfig(debug_logger_name)] *)
Definition logConfig (debug_logger_name : option string) : LogSetup :=
  let h1 := {| handler_stream := stdout; handler_level := levelno DEBUG;
               handler_filters := [{| max_level := levelno WARNING |}] |} in
  let h2 := {| handler_stream := stderr; handler_level := levelno WARNING;
               handler_filters := [] |} in
  {| root_level := levelno INFO;
     named_level :=
       match debug_logger_name with
       | Some name =>
           if String.eqb name "" then None else Some (name, levelno DEBUG)
       | None => None
       end;
     root_handlers := [h1; h2] |}.

(** The name of the logger of the script. *)
Definition logger_name : string := "pa.splitexr".

(** Loggers form a tree by their dotted names; [root] names the root. *)
Definition ancestor_or_self (name child : string) : bool :=
  String.eqb name "root" || String.eqb name child
  || String.prefix (name ++ ".") child.

(** [logger.getEffectiveLevel()] of the logger of the script, which
    sets no level of its own: the level of the nearest ancestor. *)
Definition effective_level (s : LogSetup) : Z :=
  match named_level s with
  | Some (name, l) => if ancestor_or_self name logger_name then l else root_level s
  | None => root_level s
  end.

(** A handler writes a record that reaches its level and that every
    filter of it lets through with a non-zero value. *)
Definition handler_emits (h : StreamHandler) (record_levelno : Z) : bool :=
  (handler_level h <=? record_levelno)%Z
  && forallb (fun f => negb (LessThanFilter_filter f record_levelno =? 0)%Z)
             (handler_filters h).

(** The streams a record of the script's logger is written to. *)
Definition written (s : LogSetup) (record_levelno : Z) : list stream :=
  if (effective_level s <=? record_levelno)%Z
  then map handler_stream
           (List.filter (fun h => handler_emits h record_levelno) (root_handlers s))
  else [].

(** * Properties *)

Open Scope list_scope.

(** ** The channel-name parser *)

Lemma mem_app x l1 l2 : mem x (l1 ++ l2)%list = mem x l1 || mem x l2.
Proof. apply existsb_app. Qed.

Lemma filter_ne_notin x l :
  mem x l = false -> List.filter (fun y => negb (String.eqb y x)) l = l.
Proof.
  induction l as [|a l IH]; simpl; [easy|].
  intros Hm. apply orb_false_iff in Hm as [Ha Hl].
  rewrite String.eqb_sym, Ha. simpl. now rewrite IH.
Qed.

Lemma mem_filter_ne x a l :
  mem x (List.filter (fun y => negb (String.eqb y a)) l)
  = negb (String.eqb x a) && mem x l.
Proof.
  induction l as [|b l IH]; simpl.
  - now rewrite andb_false_r.
  - destruct (String.eqb_spec b a) as [->|Hba]; simpl.
    + rewrite IH. destruct (String.eqb_spec x a); simpl; auto.
    + rewrite IH. destruct (String.eqb_spec x b) as [->|Hxb]; simpl.
      * destruct (String.eqb_spec b a); [contradiction|reflexivity].
      * reflexivity.
Qed.

Lemma mem_first_seen x l : mem x (first_seen l) = mem x l.
Proof.
  induction l as [|a l IH]; simpl; [reflexivity|].
  rewrite mem_filter_ne, IH.
  destruct (String.eqb_spec x a); reflexivity.
Qed.

Lemma first_seen_snoc l x :
  first_seen (l ++ [x]) =
  if mem x l then first_seen l else (first_seen l ++ [x])%list.
Proof.
  induction l as [|a l IH]; simpl; [reflexivity|].
  rewrite IH.
  destruct (String.eqb_spec x a) as [->|Hxa]; simpl.
  - destruct (mem a l); [reflexivity|].
    rewrite List.filter_app. simpl. rewrite String.eqb_refl. simpl.
    now rewrite app_nil_r.
  - destruct (mem x l); [reflexivity|].
    rewrite List.filter_app. simpl.
    destruct (String.eqb_spec x a); [contradiction|reflexivity].
Qed.

Lemma first_seen_nodup l : List.NoDup (first_seen l).
Proof.
  induction l as [|a l IH]; simpl; constructor.
  - intros Hin. apply List.filter_In in Hin as [_ Hne].
    now rewrite String.eqb_refl in Hne.
  - now apply List.NoDup_filter.
Qed.

(** Dictionaries presented as a table over their keys. *)
Section Tabulate.
Context {V : Type}.

Lemma dict_mem_tabulate (g : string -> V) k ks : dict_mem k (tabulate g ks) = mem k ks.
Proof.
  unfold dict_mem, mem, tabulate. induction ks as [|a ks IH]; simpl; [reflexivity|].
  now rewrite IH, String.eqb_sym.
Qed.

Lemma dict_set_fresh (g : string -> V) k v ks :
  mem k ks = false ->
  dict_set k v (tabulate g ks) = (tabulate g ks ++ [(k, v)])%list.
Proof.
  induction ks as [|a ks IH]; simpl; [reflexivity|].
  intros Hm. apply orb_false_iff in Hm as [Ha Hks].
  rewrite String.eqb_sym, Ha. now rewrite IH.
Qed.

Lemma dict_alter_fresh f k (d : odict V) :
  mem k (dict_keys d) = false -> dict_alter f k d = d.
Proof.
  induction d as [|[a v] d IH]; simpl; [reflexivity|].
  intros Hm. apply orb_false_iff in Hm as [Ha Hd].
  rewrite String.eqb_sym, Ha. now rewrite IH.
Qed.

Lemma dict_alter_app_fresh f k v (d : odict V) :
  mem k (dict_keys d) = false ->
  dict_alter f k (d ++ [(k, v)]) = (d ++ [(k, f v)])%list.
Proof.
  induction d as [|[a u] d IH]; simpl.
  - now rewrite String.eqb_refl.
  - intros Hm. apply orb_false_iff in Hm as [Ha Hd].
    rewrite String.eqb_sym, Ha. now rewrite IH.
Qed.

Lemma dict_keys_tabulate (g : string -> V) ks : dict_keys (tabulate g ks) = ks.
Proof.
  unfold dict_keys, tabulate. rewrite map_map. simpl. apply map_id.
Qed.

Lemma dict_alter_tabulate f (g : string -> V) k ks :
  List.NoDup ks ->
  dict_alter f k (tabulate g ks)
  = tabulate (fun L => if String.eqb L k then f (g L) else g L) ks.
Proof.
  induction 1 as [|a ks Ha Hnd IH]; simpl; [reflexivity|].
  destruct (String.eqb_spec a k) as [->|Hne].
  - f_equal. unfold tabulate. apply map_ext_in. intros b Hb.
    destruct (String.eqb_spec b k) as [->|]; [contradiction|reflexivity].
  - now rewrite IH.
Qed.

Lemma tabulate_ext (g h : string -> V) ks :
  (forall k, In k ks -> g k = h k) -> tabulate g ks = tabulate h ks.
Proof.
  intros E. unfold tabulate. apply map_ext_in. intros k Hk. now rewrite E.
Qed.
End Tabulate.

Lemma mem_true_In x l : mem x l = true <-> In x l.
Proof.
  unfold mem. rewrite existsb_exists. split.
  - intros (y & Hy & E). apply String.eqb_eq in E. now subst.
  - intros Hx. exists x. split; [assumption|apply String.eqb_refl].
Qed.

Lemma channels_of_snoc L cs c :
  channels_of L (cs ++ [c])
  = (channels_of L cs ++
     if String.eqb (layer_name_of c) L then [(key_of c, c)] else [])%list.
Proof.
  unfold channels_of. rewrite List.filter_app, map_app. simpl.
  destruct (String.eqb (layer_name_of c) L); reflexivity.
Qed.

Lemma channels_of_absent L cs :
  mem L (map layer_name_of cs) = false -> channels_of L cs = [].
Proof.
  unfold channels_of. induction cs as [|c cs IH]; simpl; [reflexivity|].
  intros Hm. apply orb_false_iff in Hm as [Hc Hcs].
  rewrite String.eqb_sym, Hc. now apply IH.
Qed.

Lemma add_channel_spec cs c :
  add_channel (spec_group_layers cs) c = spec_group_layers (cs ++ [c]).
Proof.
  unfold add_channel, spec_group_layers.
  change (key_of c) with (Py.lower (fst (split_channel c))).
  pose proof (eq_refl : layer_name_of c = snd (split_channel c)) as HL.
  pose proof (eq_refl : key_of c = Py.lower (fst (split_channel c))) as HK.
  destruct (split_channel c) as [key L0]. simpl in HL, HK. subst L0. rewrite <- HK.
  fold (tabulate (fun L => channels_of L cs) (first_seen (map layer_name_of cs))).
  fold (tabulate (fun L => channels_of L (cs ++ [c]))
                 (first_seen (map layer_name_of (cs ++ [c])))).
  rewrite dict_mem_tabulate, mem_first_seen, map_app. simpl.
  rewrite first_seen_snoc.
  destruct (mem (layer_name_of c) (map layer_name_of cs)) eqn:Hm; simpl.
  - rewrite dict_alter_tabulate by apply first_seen_nodup.
    apply tabulate_ext. intros L _. rewrite channels_of_snoc.
    rewrite (String.eqb_sym L). destruct (String.eqb (layer_name_of c) L).
    + reflexivity.
    + now rewrite app_nil_r.
  - rewrite dict_set_fresh by now rewrite mem_first_seen.
    rewrite dict_alter_app_fresh
      by now rewrite dict_keys_tabulate, mem_first_seen.
    unfold tabulate at 2. rewrite map_app. simpl. f_equal.
    + apply tabulate_ext. intros L HL. rewrite channels_of_snoc.
      destruct (String.eqb_spec (layer_name_of c) L) as [E|_].
      * subst L. apply mem_true_In in HL. rewrite mem_first_seen in HL. congruence.
      * now rewrite app_nil_r.
    + rewrite channels_of_snoc, String.eqb_refl, channels_of_absent by assumption.
      reflexivity.
Qed.

Lemma group_layers_spec cs : group_layers cs = spec_group_layers cs.
Proof.
  induction cs as [|c cs IH] using rev_ind; [reflexivity|].
  unfold group_layers in *. rewrite fold_left_app. simpl. rewrite IH.
  apply add_channel_spec.
Qed.

(** *** Splitting at dots *)

Lemma split_nonempty sep s : Py.split sep s <> [].
Proof.
  destruct s as [|c s]; simpl; [discriminate|].
  destruct (Ascii.eqb c sep); [discriminate|].
  destruct (Py.split sep s); discriminate.
Qed.

Lemma split_dot_free s : dot_free s = true -> Py.split namespace_separator s = [s].
Proof.
  induction s as [|c s IH]; simpl; [reflexivity|].
  intros Hd. apply andb_true_iff in Hd as [Hc Hs].
  apply negb_true_iff in Hc. rewrite Hc, IH by assumption. reflexivity.
Qed.

Lemma split_app_sep sep l k :
  Py.split sep (l ++ String sep k)%string = Py.split sep l ++ Py.split sep k.
Proof.
  induction l as [|c l IH]; simpl.
  - now rewrite Ascii.eqb_refl.
  - destruct (Ascii.eqb c sep); [now rewrite IH|].
    rewrite IH. pose proof (split_nonempty sep l) as Hne.
    destruct (Py.split sep l); [contradiction|reflexivity].
Qed.

Lemma join_split sep s :
  Py.join (String sep EmptyString) (Py.split sep s) = s.
Proof.
  induction s as [|c s IH]; simpl; [reflexivity|].
  destruct (Ascii.eqb_spec c sep) as [->|Hne].
  - pose proof (split_nonempty sep s) as Hn.
    destruct (Py.split sep s) as [|seg rest] eqn:E; [contradiction|].
    change (Py.join (String sep "") ("" :: seg :: rest))
      with ("" ++ String sep "" ++ Py.join (String sep "") (seg :: rest))%string.
    rewrite IH. reflexivity.
  - pose proof (split_nonempty sep s) as Hn.
    destruct (Py.split sep s) as [|seg rest] eqn:E; [contradiction|].
    destruct rest as [|seg' rest].
    + simpl in *. now rewrite IH.
    + change (Py.join (String sep "") (String c seg :: seg' :: rest))
        with (String c (seg ++ String sep "" ++ Py.join (String sep "") (seg' :: rest))%string).
      f_equal. exact IH.
Qed.

Lemma split_channel_bare c :
  dot_free c = true -> split_channel c = (c, "default").
Proof.
  intros Hd. unfold split_channel. now rewrite split_dot_free.
Qed.

Lemma split_channel_dotted l k :
  dot_free k = true ->
  split_channel (l ++ String namespace_separator k)%string = (k, l).
Proof.
  intros Hd. unfold split_channel.
  rewrite split_app_sep, (split_dot_free k) by assumption.
  pose proof (split_nonempty namespace_separator l) as Hne.
  rewrite length_app. simpl.
  destruct (Py.split namespace_separator l) as [|seg rest] eqn:E; [contradiction|].
  replace (1 <? length (seg :: rest) + 1)%nat with true
    by (symmetry; apply Nat.ltb_lt; simpl; lia).
  unfold Py.last_item, Py.but_last.
  rewrite List.last_last, List.removelast_last, <- E, join_split. reflexivity.
Qed.

Lemma split_join segs :
  segs <> [] -> Forall (fun s => dot_free s = true) segs ->
  Py.split namespace_separator (Py.join (String namespace_separator EmptyString) segs)
  = segs.
Proof.
  induction segs as [|x segs IH]; [congruence|].
  intros _ Hall. inversion Hall as [|? ? Hx Hrest]; subst.
  destruct segs as [|y segs].
  - simpl. now apply split_dot_free.
  - change (Py.join (String namespace_separator "") (x :: y :: segs))
      with (x ++ String namespace_separator
                   (Py.join (String namespace_separator "") (y :: segs)))%string.
    rewrite split_app_sep, (split_dot_free x), IH by (assumption || discriminate).
    reflexivity.
Qed.

(** C2: the parser groups the channel identifiers by layer, the layers
    in first-seen order and the channels of a layer in the order of the
    enumeration; an identifier of several dot-separated segments belongs
    to the layer named by all segments but the last, joined by dots, with
    the lower-cased last segment as its key, and an identifier of one
    segment belongs to the layer "default" with the lower-cased
    identifier as its key. *)
Theorem group_layers_correct (sourceChannels : list string) :
  group_layers sourceChannels = spec_group_layers sourceChannels
  /\ forall segs : list string,
       segs <> [] -> Forall (fun s => dot_free s = true) segs ->
       let chan := Py.join (String namespace_separator EmptyString) segs in
       layer_name_of chan
       = (if (1 <? length segs)%nat
          then Py.join (String namespace_separator EmptyString) (Py.but_last segs)
          else "default")
       /\ key_of chan = Py.lower (Py.last_item segs).
Proof.
  split; [apply group_layers_spec|].
  intros segs Hne Hall chan. unfold layer_name_of, key_of, split_channel.
  subst chan. rewrite split_join by assumption.
  destruct (1 <? length segs)%nat eqn:Hlen; simpl; [easy|].
  destruct segs as [|x [|y segs]]; simpl in *; try easy.
Qed.

Lemma group_layers_correct_witness :
  group_layers ["VRayNormal.R"; "VRayNormal.G"; "Z"; "VRayNormal.B"; "a.b.C"]
  = [("VRayNormal", [("r", "VRayNormal.R"); ("g", "VRayNormal.G");
                     ("b", "VRayNormal.B")]);
     ("default", [("z", "Z")]);
     ("a.b", [("c", "a.b.C")])]
  /\ layer_name_of "a.b.C" = "a.b" /\ key_of "a.b.C" = "c".
Proof.
  destruct (group_layers_correct
              ["VRayNormal.R"; "VRayNormal.G"; "Z"; "VRayNormal.B"; "a.b.C"])
    as [Hgroup Hsegs].
  split; [rewrite Hgroup; reflexivity|].
  apply (Hsegs ["a"; "b"; "C"]); [discriminate|].
  repeat constructor.
Defined.

(** ** Reasoning about computations *)

Lemma bind_eq {A B} (m : M A) (f : A -> M B) w :
  (m ≫= f) w =
  match m w with
  | (Return a, w') => f a w'
  | (Raise e, w') => (Raise e, w')
  end.
Proof. reflexivity. Qed.

Section Preserves.
Context (R : World -> World -> Prop) `{!PreOrder R}.

Lemma preserves_ret {A} (a : A) : preserves R (mret a).
Proof. intros w. simpl. reflexivity. Qed.

Lemma preserves_raise {A} e : preserves R (raise e : M A).
Proof. intros w. simpl. reflexivity. Qed.

Lemma preserves_gets {A} (f : World -> A) : preserves R (gets f).
Proof. intros w. simpl. reflexivity. Qed.

Lemma preserves_bind {A B} (m : M A) (f : A -> M B) :
  preserves R m -> (forall a, preserves R (f a)) -> preserves R (m ≫= f).
Proof.
  intros Hm Hf w. rewrite bind_eq. specialize (Hm w).
  destruct (m w) as [[a|e] w']; simpl in *; [|assumption].
  etransitivity; [eassumption|apply Hf].
Qed.

Lemma preserves_modify f : (forall w, R w (f w)) -> preserves R (modify f).
Proof. intros Hf w. apply Hf. Qed.

Lemma preserves_for_each {A} (l : list A) body :
  (forall x, preserves R (body x)) -> preserves R (for_each l body).
Proof.
  intros Hb. induction l as [|x l IH]; simpl.
  - apply preserves_ret.
  - apply preserves_bind; auto.
Qed.

Lemma preserves_try_finally {A} (body : M A) fin :
  preserves R body -> preserves R fin -> preserves R (try_finally body fin).
Proof.
  intros Hb Hf w. unfold try_finally. specialize (Hb w).
  destruct (body w) as [r w']. specialize (Hf w').
  destruct (fin w') as [[u|e] w'']; simpl in *; etransitivity; eassumption.
Qed.

Lemma preserves_run {A} (m : M A) w r w' :
  preserves R m -> m w = (r, w') -> R w w'.
Proof. intros Hm E. specialize (Hm w). now rewrite E in Hm. Qed.
End Preserves.

Create HintDb pres discriminated.

(** One step through the structure of a computation. *)
Ltac pres_step :=
  lazymatch goal with
  | |- preserves _ (mret _) => apply preserves_ret; try exact _
  | |- preserves _ (raise _) => apply preserves_raise; try exact _
  | |- preserves _ (gets _) => apply preserves_gets; try exact _
  | |- preserves _ (getitem _ _) => unfold getitem
  | |- preserves _ (logger_debug _ _) => unfold logger_debug
  | |- preserves _ (logger_info _ _) => unfold logger_info
  | |- preserves _ (logger_error _ _) => unfold logger_error
  | |- preserves _ (list_keys _) => unfold list_keys
  | |- preserves _ (list_get _ _) => unfold list_get
  | |- preserves _ (for_each _ _) =>
      apply preserves_for_each; [try exact _|intros]
  | |- preserves _ (_ ≫= _) =>
      apply preserves_bind; [try exact _| |intros]
  | |- preserves _ (if ?b then _ else _) => destruct b
  | |- preserves _ (match ?x with _ => _ end) => destruct x
  | |- preserves _ _ => solve [eauto with pres]
  end.

Ltac pres := repeat pres_step.

(** *** The three relations *)

#[global] Instance frame_preorder : PreOrder frame.
Proof.
  split.
  - intros w. split; auto; exists []; now rewrite app_nil_r.
  - intros w1 w2 w3 [Hm1 Hl1 Hs1 (e1 & Hc1 & Hn1) (r1 & Hr1)]
                    [Hm2 Hl2 Hs2 (e2 & Hc2 & Hn2) (r2 & Hr2)].
    split.
    + congruence.
    + lia.
    + intros t Ht. rewrite Hs2 by lia. now apply Hs1.
    + exists (e1 ++ e2). rewrite Hc2, Hc1, app_assoc, forallb_app, Hn1, Hn2. auto.
    + exists (r1 ++ r2). now rewrite Hr2, Hr1, app_assoc.
Qed.

#[global] Instance quiet_preorder : PreOrder quiet.
Proof. split; unfold quiet; [intros w|intros w1 w2 w3]; congruence. Qed.

#[global] Instance no_AddTool_preorder : PreOrder no_AddTool.
Proof. split; unfold no_AddTool; [intros w|intros w1 w2 w3]; congruence. Qed.

Lemma tool_data_alter f t w t' :
  tool_data (set_tools (alter f t) w) t'
  = if decide (t = t') then
      match tools w !! t with Some d => f d | None => blank_tool end
    else tool_data w t'.
Proof.
  unfold tool_data, set_tools. cbn [tools]. case_decide as E.
  - subst t'. rewrite list_lookup_alter_eq. destruct (tools w !! t); reflexivity.
  - now rewrite list_lookup_alter_ne.
Qed.

Lemma static_alter f t w t' :
  static_fun f ->
  static (tool_data (set_tools (alter f t) w) t') = static (tool_data w t').
Proof.
  intros Hf. rewrite tool_data_alter. case_decide as E; [|reflexivity].
  subst t'. unfold tool_data. destruct (tools w !! t); simpl; [apply Hf|reflexivity].
Qed.

Lemma tool_data_app_l w t new :
  t < length (tools w) ->
  tool_data (set_tools (fun l => l ++ new) w) t = tool_data w t.
Proof. intros Ht. unfold tool_data. simpl. now rewrite lookup_app_l. Qed.

Lemma tool_data_new w d :
  tool_data (set_tools (fun l => l ++ [d]) w) (length (tools w)) = d.
Proof.
  unfold tool_data. simpl. rewrite lookup_app_r by lia.
  now rewrite Nat.sub_diag.
Qed.

Lemma static_with_name n : static_fun (with_name n).
Proof. intros d. reflexivity. Qed.
Lemma static_with_control k v : static_fun (with_control k v).
Proof. intros d. reflexivity. Qed.
Lemma static_with_GlobalIn z : static_fun (with_GlobalIn z).
Proof. intros d. reflexivity. Qed.
Lemma static_with_GlobalOut z : static_fun (with_GlobalOut z).
Proof. intros d. reflexivity. Qed.
Lemma static_with_gamma z : static_fun (with_gamma z).
Proof. intros d. reflexivity. Qed.
Lemma static_with_input t : static_fun (with_input t).
Proof. intros d. reflexivity. Qed.
Lemma static_with_pos x y : static_fun (with_pos x y).
Proof. intros d. reflexivity. Qed.

#[global] Hint Resolve static_with_name static_with_control static_with_GlobalIn
  static_with_GlobalOut static_with_gamma static_with_input static_with_pos : pres.

(** The host interface under [frame]. *)

Lemma frame_add_log r w : frame w (add_log r w).
Proof.
  split; simpl; auto; [exists []; now rewrite app_nil_r|now exists [r]].
Qed.

Lemma frame_add_call c w : node_call c = true -> frame w (add_call c w).
Proof.
  intros Hc. split; simpl; auto.
  - exists [c]. simpl. now rewrite Hc.
  - exists []. now rewrite app_nil_r.
Qed.

Lemma frame_alter f t w : static_fun f -> frame w (set_tools (alter f t) w).
Proof.
  intros Hf. split; simpl.
  - reflexivity.
  - now rewrite length_alter.
  - intros t' _. now apply static_alter.
  - exists []. now rewrite app_nil_r.
  - exists []. now rewrite app_nil_r.
Qed.

Lemma frame_new d w : frame w (set_tools (fun l => l ++ [d]) w).
Proof.
  split; simpl.
  - reflexivity.
  - rewrite length_app. lia.
  - intros t Ht. now rewrite tool_data_app_l.
  - exists []. now rewrite app_nil_r.
  - exists []. now rewrite app_nil_r.
Qed.

Lemma frame_logger l m a : preserves frame (logger l m a).
Proof. intros w. apply frame_add_log. Qed.

Lemma frame_update_tool t f : static_fun f -> preserves frame (update_tool t f).
Proof. intros Hf w. now apply frame_alter. Qed.

Lemma frame_comp_Loader clip : preserves frame (comp_Loader clip).
Proof.
  intros w. simpl. etransitivity; [apply frame_new|now apply frame_add_call].
Qed.

Lemma frame_comp_AddTool id : preserves frame (comp_AddTool id).
Proof.
  intros w. simpl. etransitivity; [apply frame_new|now apply frame_add_call].
Qed.

Lemma frame_flow_SetPos t x y : preserves frame (flow_SetPos t x y).
Proof.
  intros w. simpl. etransitivity; [apply frame_alter|now apply frame_add_call].
  apply static_with_pos.
Qed.

(** The host interface under [quiet]. *)

Lemma quiet_update_tool t f : preserves quiet (update_tool t f).
Proof. intros w. reflexivity. Qed.
Lemma quiet_comp_Loader clip : preserves quiet (comp_Loader clip).
Proof. intros w. reflexivity. Qed.
Lemma quiet_comp_AddTool id : preserves quiet (comp_AddTool id).
Proof. intros w. reflexivity. Qed.
Lemma quiet_flow_SetPos t x y : preserves quiet (flow_SetPos t x y).
Proof. intros w. reflexivity. Qed.

(** The host interface under [no_AddTool]. *)

Lemma count_AddTool_snoc l c :
  count_AddTool (l ++ [c]) = count_AddTool l + (if is_AddTool c then 1 else 0).
Proof.
  unfold count_AddTool. rewrite List.filter_app, length_app. simpl.
  now destruct (is_AddTool c).
Qed.

Lemma no_AddTool_logger l m a : preserves no_AddTool (logger l m a).
Proof. intros w. reflexivity. Qed.
Lemma no_AddTool_update_tool t f : preserves no_AddTool (update_tool t f).
Proof. intros w. reflexivity. Qed.
Lemma no_AddTool_comp_Loader clip : preserves no_AddTool (comp_Loader clip).
Proof. intros w. unfold no_AddTool. simpl. rewrite count_AddTool_snoc. simpl. lia. Qed.
Lemma no_AddTool_flow_SetPos t x y : preserves no_AddTool (flow_SetPos t x y).
Proof. intros w. unfold no_AddTool. simpl. rewrite count_AddTool_snoc. simpl. lia. Qed.

#[global] Hint Resolve frame_logger frame_update_tool frame_comp_Loader
  frame_comp_AddTool frame_flow_SetPos quiet_update_tool quiet_comp_Loader
  quiet_comp_AddTool quiet_flow_SetPos no_AddTool_logger no_AddTool_update_tool
  no_AddTool_comp_Loader no_AddTool_flow_SetPos : pres.

(** *** The script's functions under [frame] *)

Lemma frame_set_tool_name t n : preserves frame (set_tool_name t n).
Proof. unfold set_tool_name. pres. Qed.

Lemma frame_bind_channel t c : preserves frame (bind_channel t c).
Proof. unfold bind_channel, logger_error. destruct c. pres. Qed.

#[global] Hint Resolve frame_set_tool_name frame_bind_channel : pres.

Lemma frame_DefaultPlugin self ln ch :
  preserves frame (DefaultPlugin_process_layer self ln ch).
Proof. unfold DefaultPlugin_process_layer, logger_info. pres. Qed.

Lemma frame_CryptomattePlugin self ln ch :
  preserves frame (CryptomattePlugin_process_layer self ln ch).
Proof. unfold CryptomattePlugin_process_layer, logger_info. pres. Qed.

Lemma frame_vray_channel self mn m ln c :
  preserves frame (vray_channel self mn m ln c).
Proof. unfold vray_channel, vray_axis, logger_info. destruct c. pres. Qed.

#[global] Hint Resolve frame_vray_channel : pres.

Lemma frame_VrayPlugin self ln ch :
  preserves frame (VrayPlugin_process_layer self ln ch).
Proof. unfold VrayPlugin_process_layer, logger_info. pres. Qed.

Lemma frame_process_layer (p : plugin) ln ch :
  preserves frame (process_layer p ln ch).
Proof.
  simpl. destruct (cls p).
  - apply preserves_raise; exact _.
  - apply frame_DefaultPlugin.
  - apply frame_CryptomattePlugin.
  - apply frame_VrayPlugin.
Qed.

(** *** The dispatch loop under a relation the plugins preserve *)

Section DispatchPreserves.
Context {P : Type} `{Plugin P}.
Context (R : World -> World -> Prop) `{!PreOrder R}.
Hypothesis Hlog : forall l m a, preserves R (logger l m a).

Lemma preserves_dispatch_layer plugins ln ch nt :
  (forall p, preserves R (process_layer p ln ch)) ->
  preserves R (dispatch_layer plugins ln ch nt).
Proof.
  intros Hproc. revert nt.
  induction plugins as [|p rest IH]; intros nt; simpl; pres.
Qed.

Lemma preserves_dispatch_layers layers plugins nt :
  (forall p ln ch, preserves R (process_layer p ln ch)) ->
  preserves R (dispatch_layers layers plugins nt).
Proof.
  intros Hproc. revert plugins nt.
  induction layers as [|[ln ch] layers IH]; intros plugins nt; simpl; pres.
  now apply preserves_dispatch_layer.
Qed.
End DispatchPreserves.

Lemma frame_split_multilayer_exr t pcs opts :
  preserves frame (split_multilayer_exr t pcs opts).
Proof.
  unfold split_multilayer_exr. pres.
  apply preserves_dispatch_layers; auto using frame_logger, frame_process_layer.
  exact _.
Qed.

Lemma frame_new_part_loaders t f names nt :
  preserves frame (new_part_loaders t f names nt).
Proof.
  revert nt. induction names as [|n names IH]; intros nt; simpl; pres.
  unfold new_part_loader. pres.
Qed.

Lemma frame_split_multipart_exr t pcs opts :
  preserves frame (split_multipart_exr t pcs opts).
Proof.
  unfold split_multipart_exr, is_exr_loader. pres. apply frame_new_part_loaders.
Qed.

Lemma frame_place_tools ox oy cs mr i l :
  preserves frame (place_tools ox oy cs mr i l).
Proof. revert i. induction l as [|t l IH]; intros i; simpl; pres. Qed.

Lemma frame_arrange_tools_table l cs mr o :
  preserves frame (arrange_tools_table l cs mr o).
Proof.
  unfold arrange_tools_table, flow_GetPosTable. pres; apply frame_place_tools.
Qed.

Lemma frame_split_exr t pcs opts : preserves frame (split_exr t pcs opts).
Proof.
  unfold split_exr, is_multipart_exr, is_exr_loader. pres;
    auto using frame_split_multipart_exr, frame_split_multilayer_exr,
               frame_arrange_tools_table.
Qed.

Lemma frame_split_selected sel pcs opts :
  preserves frame (split_selected sel pcs opts).
Proof.
  revert opts. induction sel as [|t sel IH]; intros opts; simpl;
    unfold get_tool_name; pres.
  apply frame_split_exr.
Qed.

(** ** The orchestration: lock and undo transaction *)

Lemma lock_depth_app l1 l2 : lock_depth (l1 ++ l2) = (lock_depth l1 + lock_depth l2)%Z.
Proof. unfold lock_depth. induction l1 as [|c l1 IH]; simpl; lia. Qed.

Lemma open_undos_app l1 l2 : open_undos (l1 ++ l2) = (open_undos l1 + open_undos l2)%Z.
Proof. unfold open_undos. induction l1 as [|c l1 IH]; simpl; lia. Qed.

Lemma node_calls_neutral l :
  forallb node_call l = true -> lock_depth l = 0%Z /\ open_undos l = 0%Z.
Proof.
  unfold lock_depth, open_undos. induction l as [|c l IH]; simpl; [easy|].
  intros Hc. apply andb_true_iff in Hc as [Hc Hl]. destruct (IH Hl) as [-> ->].
  destruct c; simpl in *; try discriminate; auto.
Qed.

Lemma frame_selected_batch pcs opts :
  preserves frame
    (selected ← get_selected_tools (Some "Loader");
     split_selected selected pcs opts).
Proof. unfold get_selected_tools. pres. apply frame_split_selected. Qed.

(** The world in which the batch starts. *)
Lemma split_exr_script_eq w :
  split_exr_script w
  = try_finally
      (selected ← get_selected_tools (Some "Loader");
       split_selected selected [CryptomattePlugin; DefaultPlugin] ∅)
      (comp_Unlock;; comp_EndUndo true)
      (add_call Lock
         (add_call (StartUndo "Split EXR")
            (add_log {| levelname := DEBUG;
                        msg := "Attempting to split EXR from selected tools.";
                        args := [] |} w))).
Proof. reflexivity. Qed.

Lemma try_finally_cleanup {A} (body : M A) w :
  try_finally body (comp_Unlock;; comp_EndUndo true) w
  = (fst (body w), add_call (EndUndo true) (add_call Unlock (snd (body w)))).
Proof. unfold try_finally. now destruct (body w). Qed.

(** C8: whether the batch over the selected loaders returns or raises,
    the script unlocks the graph and closes the undo transaction, as a
    kept action, exactly once after the batch: the calls of a run are
    StartUndo, Lock, the calls of the batch, which neither lock nor
    unlock nor touch the undo stack, then Unlock and EndUndo(True); the
    graph is as locked and the undo stack as open after the run as
    before it. *)
Theorem split_exr_script_cleanup (w : World) :
  exists batch : list host_call,
    calls (snd (split_exr_script w))
    = calls w ++ [StartUndo "Split EXR"; Lock] ++ batch ++ [Unlock; EndUndo true]
    /\ forallb node_call batch = true
    /\ lock_depth (calls (snd (split_exr_script w))) = lock_depth (calls w)
    /\ open_undos (calls (snd (split_exr_script w))) = open_undos (calls w).
Proof.
  rewrite split_exr_script_eq, try_finally_cleanup.
  set (w0 := add_call Lock _).
  pose proof (frame_selected_batch [CryptomattePlugin; DefaultPlugin] ∅ w0) as Hf.
  destruct Hf as [_ _ _ (batch & Hc & Hn) _].
  assert (Hcalls :
    calls (add_call (EndUndo true) (add_call Unlock
            (snd ((selected ← get_selected_tools (Some "Loader");
                   split_selected selected [CryptomattePlugin; DefaultPlugin] ∅) w0))))
    = calls w ++ [StartUndo "Split EXR"; Lock] ++ batch ++ [Unlock; EndUndo true]).
  { cbn [calls add_call]. rewrite Hc. subst w0. cbn [calls add_call add_log].
    now rewrite <- !app_assoc. }
  exists batch. cbn [snd]. split; [exact Hcalls|]. split; [exact Hn|].
  rewrite Hcalls. destruct (node_calls_neutral batch Hn) as [Hl Hu].
  rewrite !lock_depth_app, !open_undos_app, Hl, Hu. simpl. lia.
Qed.

(** ** Tools that are no EXR loaders *)

Lemma is_exr_loader_eq t w : is_exr_loader t w = (Return (exr_loader w t), w).
Proof. reflexivity. Qed.

Lemma exr_loader_frame w w' t :
  frame w w' -> t < length (tools w) -> exr_loader w' t = exr_loader w t.
Proof.
  intros [Hm _ Hs _ _] Ht. unfold exr_loader, clip_info. rewrite Hm.
  specialize (Hs t Ht). unfold static in Hs. injection Hs as _ _ Hclip.
  now rewrite Hclip.
Qed.

Lemma split_exr_no_exr t pcs opts w :
  exr_loader w t = false -> split_exr t pcs opts w = (Raise UnboundLocalError, w).
Proof.
  intros Hx. unfold exr_loader in Hx.
  unfold split_exr, is_multipart_exr, is_exr_loader.
  cbv [mbind M_bind gets mret M_ret]. rewrite Hx. cbn [negb].
  cbv [mbind M_bind gets mret M_ret]. rewrite Hx. reflexivity.
Qed.

Lemma split_selected_cons t0 sel pcs opts w :
  split_selected (t0 :: sel) pcs opts w
  = (options ← split_exr t0 pcs opts; split_selected sel pcs options)
      (add_log {| levelname := DEBUG;
                  msg := "Tool: " ++ TOOLS_Name (tool_data w t0);
                  args := [] |} w).
Proof. reflexivity. Qed.

Lemma split_selected_all_exr pcs sel : forall opts w,
  (forall t, In t sel -> t < length (tools w)) ->
  fst (split_selected sel pcs opts w) = Return tt ->
  forall t, In t sel -> exr_loader w t = true.
Proof.
  induction sel as [|t0 sel IH]; intros opts w Hvalid Hret t Hin; [easy|].
  rewrite split_selected_cons, bind_eq in Hret.
  set (w1 := add_log _ w) in Hret.
  assert (Hx0 : exr_loader w t0 = true).
  { destruct (exr_loader w t0) eqn:E; [reflexivity|].
    rewrite (split_exr_no_exr t0 pcs opts w1) in Hret by exact E. discriminate. }
  destruct Hin as [<-|Hin]; [exact Hx0|].
  pose proof (frame_split_exr t0 pcs opts w1) as Hf.
  destruct (split_exr t0 pcs opts w1) as [[o|e] w2]; [|discriminate].
  simpl in Hf.
  assert (Hww2 : frame w w2).
  { etransitivity; [|exact Hf]. apply frame_add_log. }
  rewrite <- (exr_loader_frame w w2 t Hww2 (Hvalid t (or_intror Hin))).
  apply (IH o w2); auto.
  intros t' Ht'. pose proof (frame_length _ _ Hww2). specialize (Hvalid t' (or_intror Ht')). lia.
Qed.

Lemma selected_tools_valid ty w t :
  In t (List.filter
          (fun t => Selected (tool_data w t) &&
                    match ty with
                    | None => true
                    | Some ty => String.eqb (TOOLS_RegID (tool_data w t)) ty
                    end)
          (seq 0 (length (tools w)))) ->
  t < length (tools w).
Proof.
  intros Hin. apply List.filter_In in Hin as [Hin _].
  apply List.in_seq in Hin. lia.
Qed.

(** C10: for a tool that is no EXR loader [split_exr] assigns nothing
    to [new_tools] and reaches the test of it, which raises
    UnboundLocalError, a NameError; nothing was done for the tool.  The
    script therefore returns without an exception only if every
    selected loader is an EXR loader. *)
Theorem split_exr_unbound_new_tools :
  (forall t pcs opts w,
      fst (is_exr_loader t w) = Return false ->
      split_exr t pcs opts w = (Raise UnboundLocalError, w)
      /\ isinstance UnboundLocalError NameError = true)
  /\ (forall w selected,
        fst (get_selected_tools (Some "Loader") w) = Return selected ->
        fst (split_exr_script w) = Return tt ->
        forall t, In t selected -> fst (is_exr_loader t w) = Return true).
Proof.
  split.
  - intros t pcs opts w Hx. rewrite is_exr_loader_eq in Hx. simpl in Hx.
    split; [|reflexivity]. apply split_exr_no_exr. congruence.
  - intros w selected Hsel Hret t Hin.
    rewrite is_exr_loader_eq. simpl. f_equal.
    rewrite split_exr_script_eq, try_finally_cleanup in Hret.
    set (w0 := add_call Lock _) in Hret. cbn [fst] in Hret.
    unfold get_selected_tools in Hsel, Hret. rewrite bind_eq in Hret.
    cbn [gets fst] in Hsel, Hret. injection Hsel as Hsel.
    change (exr_loader w t) with (exr_loader w0 t).
    eapply (split_selected_all_exr _ selected ∅ w0).
    + intros t' Ht'. subst selected.
      exact (selected_tools_valid (Some "Loader") w t' Ht').
    + subst selected. exact Hret.
    + exact Hin.
Qed.

(** ** Multi-part and multi-layer mode *)

Lemma quiet_new_part_loaders t f names nt :
  preserves quiet (new_part_loaders t f names nt).
Proof.
  revert nt. induction names as [|n names IH]; intros nt; simpl; pres.
  unfold new_part_loader. pres.
Qed.

Lemma quiet_split_multipart_exr t pcs opts :
  preserves quiet (split_multipart_exr t pcs opts).
Proof.
  unfold split_multipart_exr, is_exr_loader. pres. apply quiet_new_part_loaders.
Qed.

Lemma quiet_place_tools ox oy cs mr i l :
  preserves quiet (place_tools ox oy cs mr i l).
Proof. revert i. induction l as [|t l IH]; intros i; simpl; pres. Qed.

Lemma quiet_arrange_tools_table l cs mr o :
  preserves quiet (arrange_tools_table l cs mr o).
Proof.
  unfold arrange_tools_table, flow_GetPosTable. pres; apply quiet_place_tools.
Qed.

Lemma is_multipart_exr_eq t w :
  is_multipart_exr t w = (Return (multipart_exr w t), w).
Proof.
  unfold is_multipart_exr, multipart_exr, is_exr_loader, exr_loader.
  cbv [mbind M_bind gets mret M_ret].
  destruct (String.eqb _ _); reflexivity.
Qed.

Lemma split_exr_multipart t pcs opts w :
  multipart_exr w t = true ->
  split_exr t pcs opts w
  = (r ← split_multipart_exr t pcs opts;
     match r with
     | None | Some [] => mret opts
     | Some new_tools => arrange_tools_table new_tools 1 20 (Some t);; mret opts
     end) w.
Proof.
  intros Hm. unfold split_exr. rewrite bind_eq, is_multipart_exr_eq, Hm.
  rewrite !bind_eq. destruct (split_multipart_exr t pcs opts w) as [[r|e] w1];
    reflexivity.
Qed.

Lemma split_exr_multilayer t pcs opts w :
  multipart_exr w t = false -> exr_loader w t = true ->
  split_exr t pcs opts w
  = ('(new_tools, options) ← split_multilayer_exr t pcs opts;
     match new_tools with
     | [] => mret options
     | _ => arrange_tools_table new_tools 1 20 (Some t);; mret options
     end) w.
Proof.
  intros Hm Hx. unfold split_exr. rewrite bind_eq, is_multipart_exr_eq, Hm.
  rewrite !bind_eq, is_exr_loader_eq, Hx. rewrite !bind_eq.
  destruct (split_multilayer_exr t pcs opts w) as [[[nt o]|e] w1]; reflexivity.
Qed.

Lemma split_multilayer_exr_log t pcs opts w :
  exists recs,
    log (snd (split_multilayer_exr t pcs opts w)) = log w ++ layers_found w t :: recs.
Proof.
  set (rest :=
    let layers := group_layers (ChannelIDs (clip_info w t)) in
    let '(plugins, options) :=
      make_plugins pcs (TOOLST_Clip_Name (tool_data w t)) t layers opts in
    '(_, new_tools) ← dispatch_layers layers plugins [];
    logger_debug "Finished processing all layers." [];;
    mret (new_tools, options)).
  assert (E : split_multilayer_exr t pcs opts w = rest (add_log (layers_found w t) w))
    by reflexivity.
  assert (Hf : preserves frame rest).
  { subst rest. cbv zeta. unfold make_plugins. pres.
    apply preserves_dispatch_layers; auto using frame_logger, frame_process_layer.
    exact _. }
  rewrite E. destruct (Hf (add_log (layers_found w t) w)) as [_ _ _ _ (recs & Hr)].
  exists recs. rewrite Hr. simpl. now rewrite <- app_assoc.
Qed.

(** C6: a tool that reports a part enumeration, that is an EXR loader
    whose Part control exists, is handled by the multi-part splitter
    alone: nothing of the layer-grouping path runs, which would log the
    number of layers first.  Only an EXR loader without part
    enumeration is handled by the multi-layer splitter, and by it
    alone. *)
Theorem split_exr_modes_exclusive (t : tool) (pcs : list plugin_class)
    (opts : options_t) (w : World) :
  (fst (is_multipart_exr t w) = Return true <->
   fst (is_exr_loader t w) = Return true /\ PartIDs (clip_info w t) <> None)
  /\ (fst (is_multipart_exr t w) = Return true ->
      split_exr t pcs opts w
      = (r ← split_multipart_exr t pcs opts;
         match r with
         | None | Some [] => mret opts
         | Some new_tools => arrange_tools_table new_tools 1 20 (Some t);; mret opts
         end) w
      /\ log (snd (split_exr t pcs opts w)) = log w)
  /\ (fst (is_multipart_exr t w) = Return false ->
      fst (is_exr_loader t w) = Return true ->
      split_exr t pcs opts w
      = ('(new_tools, options) ← split_multilayer_exr t pcs opts;
         match new_tools with
         | [] => mret options
         | _ => arrange_tools_table new_tools 1 20 (Some t);; mret options
         end) w
      /\ exists recs,
           log (snd (split_exr t pcs opts w)) = log w ++ layers_found w t :: recs).
Proof.
  rewrite is_multipart_exr_eq, is_exr_loader_eq. cbn [fst].
  split; [|split].
  - unfold multipart_exr. destruct (exr_loader w t), (PartIDs (clip_info w t));
      simpl; split; try easy; intros [? ?]; congruence.
  - intros Hm. assert (Hm' : multipart_exr w t = true) by congruence.
    split; [now apply split_exr_multipart|].
    rewrite split_exr_multipart by assumption.
    assert (Hq : preserves quiet
      (r ← split_multipart_exr t pcs opts;
       match r with
       | None | Some [] => mret opts
       | Some new_tools => arrange_tools_table new_tools 1 20 (Some t);; mret opts
       end)).
    { pres; auto using quiet_split_multipart_exr, quiet_arrange_tools_table. }
    apply Hq.
  - intros Hm Hx. assert (Hm' : multipart_exr w t = false) by congruence.
    assert (Hx' : exr_loader w t = true) by congruence.
    split; [now apply split_exr_multilayer|].
    rewrite split_exr_multilayer by assumption. rewrite bind_eq.
    destruct (split_multilayer_exr_log t pcs opts w) as (recs & Hrecs).
    destruct (split_multilayer_exr t pcs opts w) as [[[nt o]|e] w1]; simpl in Hrecs.
    + destruct nt as [|n nt]; [exists recs; exact Hrecs|].
      pose proof (frame_arrange_tools_table (n :: nt) 1 20 (Some t) w1) as Hf.
      rewrite bind_eq.
      destruct (arrange_tools_table (n :: nt) 1 20 (Some t) w1) as [[u|e] w2];
        simpl in Hf; destruct Hf as [_ _ _ _ (r2 & Hr2)];
        exists (recs ++ r2); simpl; rewrite Hr2, Hrecs, <- app_assoc; reflexivity.
    + exists recs. exact Hrecs.
Qed.

(** ** The layout arranger *)

Lemma flow_SetPos_eq t x y w :
  flow_SetPos t x y w
  = (Return tt, add_call (SetPos t x y) (set_tools (alter (with_pos x y) t) w)).
Proof. reflexivity. Qed.

Lemma place_tools_spec ox oy cs (l : list tool) : forall (k : nat) (w : World),
  exists w',
    place_tools ox oy cs 20 (Z.of_nat k) l w = (Return tt, w')
    /\ length (tools w') = length (tools w)
    /\ calls w' = calls w ++ imap (fun i t => grid_call ox oy cs (k + i) t) l
    /\ (forall t, ~ In t l -> tool_data w' t = tool_data w t)
    /\ (forall i t,
          l !! i = Some t -> (forall j, l !! j = Some t -> j = i) ->
          t < length (tools w) ->
          Pos (tool_data w' t) = grid_pos ox oy cs (k + i)).
Proof.
  induction l as [|a l IH]; intros k w.
  - exists w. simpl. rewrite app_nil_r. repeat split; auto. intros i t Hi. easy.
  - cbn [place_tools]. rewrite bind_eq, flow_SetPos_eq.
    set (w1 := add_call _ _).
    replace (Z.of_nat k + 1)%Z with (Z.of_nat (S k)) by lia.
    destruct (IH (S k) w1) as (w' & Hrun & Hlen & Hcalls & Hout & Hpos).
    exists w'. split; [exact Hrun|]. split; [|split; [|split]].
    + rewrite Hlen. subst w1. simpl. apply length_alter.
    + rewrite Hcalls. subst w1. cbn [calls add_call set_tools].
      rewrite <- app_assoc. f_equal. rewrite imap_cons. simpl. f_equal.
      * unfold grid_call, grid_pos. cbn [fst snd]. rewrite Nat.add_0_r. f_equal; lia.
      * apply imap_ext. intros i t _. simpl. f_equal. lia.
    + intros t Hnin. rewrite Hout by (intros Hin; apply Hnin; now right).
      subst w1. change (tool_data (add_call ?c ?w) t) with (tool_data w t).
      rewrite tool_data_alter. case_decide as E; [|reflexivity].
      subst a. exfalso. apply Hnin. now left.
    + intros i t Hi Huniq Hvalid. destruct i as [|i].
      * simpl in Hi. injection Hi as <-.
        rewrite Hout.
        -- subst w1. change (tool_data (add_call ?c ?w) a) with (tool_data w a).
           rewrite tool_data_alter. rewrite decide_True by reflexivity.
           destruct (lookup_lt_is_Some_2 (tools w) a Hvalid) as [d ->].
           unfold grid_pos. rewrite Nat.add_0_r. simpl. f_equal; lia.
        -- intros Hin. apply list_elem_of_In, list_elem_of_lookup in Hin as [j Hj].
           specialize (Huniq (S j) Hj). discriminate.
      * simpl in Hi. replace (k + S i) with (S k + i) by lia.
        apply Hpos; [exact Hi| |].
        -- intros j Hj. specialize (Huniq (S j) Hj). lia.
        -- subst w1. simpl. now rewrite length_alter.
Qed.

(** C7: the arranger reads the position of the origin, the given tool
    or else the first new one, and sets the position of the i-th new
    node (from 0) to row i mod 20 and column i / 20 of a grid at the
    origin, the columns [col_spacing] apart and the rows one unit
    apart; node 20 lands in column 1, row 0, exactly one column
    spacing to the right of the origin. *)
Theorem arrange_tools_table_grid (new_tools : list tool) (col_spacing max_rows : Z)
    (origin_tool : option tool) (origin : tool) (w : World) :
  origin_of origin_tool new_tools = Some origin ->
  let ox := fst (Pos (tool_data w origin)) in
  let oy := snd (Pos (tool_data w origin)) in
  exists w',
    arrange_tools_table new_tools col_spacing max_rows origin_tool w = (Return tt, w')
    /\ calls w' = calls w ++ imap (grid_call ox oy col_spacing) new_tools
    /\ (forall i t,
          new_tools !! i = Some t -> (forall j, new_tools !! j = Some t -> j = i) ->
          t < length (tools w) ->
          Pos (tool_data w' t) = grid_pos ox oy col_spacing i)
    /\ grid_pos ox oy col_spacing 20 = (ox + col_spacing, oy)%Z.
Proof.
  intros Horigin ox oy.
  destruct (place_tools_spec ox oy col_spacing new_tools 0 w)
    as (w' & Hrun & _ & Hcalls & _ & Hpos).
  exists w'. split; [|split; [exact Hcalls|split; [exact Hpos|]]].
  - unfold arrange_tools_table.
    assert (Ho : (match origin_tool with
                  | Some t => mret t
                  | None => match new_tools with
                            | t :: _ => mret t
                            | [] => raise IndexError
                            end
                  end : M tool) w = (Return origin, w)).
    { destruct origin_tool as [t|]; simpl in Horigin.
      - now injection Horigin as ->.
      - destruct new_tools as [|t l]; [discriminate|]. now injection Horigin as ->. }
    rewrite bind_eq, Ho, bind_eq. unfold flow_GetPosTable. cbn [gets].
    subst ox oy. destruct (Pos (tool_data w origin)) as [x y]. exact Hrun.
  - unfold grid_pos.
    replace (Z.of_nat 20 / 20)%Z with 1%Z by reflexivity.
    replace (Z.of_nat 20 mod 20)%Z with 0%Z by reflexivity.
    f_equal; lia.
Qed.

(** ** The auxiliary-pass plugin *)

Lemma vray_channel_pos self layer_name c (flip : bool) w :
  options self !! "flip_worldpos_axis" = Some flip ->
  fst (vray_channel self "pos" "PosName" layer_name c w) = Return tt
  /\ tools (snd (vray_channel self "pos" "PosName" layer_name c w))
     = vray_write flip (loader self) (tools w) c.
Proof.
  intros Hflip. destruct c as [chan raw].
  unfold vray_channel, vray_axis, vray_write, vray_fusion_name, getitem.
  rewrite Hflip. cbn [fst snd].
  generalize (default chan (dict_get chan pos_remappings)). intros axis.
  change (String.eqb "pos" "pos") with true. cbn [andb].
  destruct flip; [destruct (String.eqb axis "z"); [|destruct (String.eqb axis "y")]|];
    split; reflexivity.
Qed.

Lemma vray_channels_pos self layer_name (flip : bool) channels : forall w,
  options self !! "flip_worldpos_axis" = Some flip ->
  fst (for_each channels (vray_channel self "pos" "PosName" layer_name) w) = Return tt
  /\ tools (snd (for_each channels (vray_channel self "pos" "PosName" layer_name) w))
     = fold_left (vray_write flip (loader self)) channels (tools w).
Proof.
  induction channels as [|c channels IH]; intros w Hflip; [split; reflexivity|].
  cbn [for_each fold_left]. rewrite bind_eq.
  destruct (vray_channel_pos self layer_name c flip w Hflip) as [Hr Ht].
  destruct (vray_channel self "pos" "PosName" layer_name c w) as [[[]|e] w1];
    [|discriminate].
  cbn [snd] in Ht. rewrite <- Ht. now apply IH.
Qed.

(** C5, amended: for a layer whose lower-cased name contains the
    keyword pos and does not contain the keyword normal, which is
    looked for first, every channel is written to the control of the
    position group named by its axis letter; with the flip option set,
    channel g goes to the control beginning with Z and channel b to
    the one beginning with Y, and without it g goes to Y and b to Z. *)
Theorem vray_flip_axis (self : plugin) (layer_name : string)
    (channels : list channel) (flip : bool) (w : World) :
  options self !! "use_aux_channels" = Some true ->
  options self !! "flip_worldpos_axis" = Some flip ->
  Py.contains "pos" (Py.lower layer_name) = true ->
  Py.contains "normal" (Py.lower layer_name) = false ->
  fst (VrayPlugin_process_layer self layer_name channels w)
  = Return (PyBool true, self)
  /\ tools (snd (VrayPlugin_process_layer self layer_name channels w))
     = fold_left (vray_write flip (loader self)) channels (tools w)
  /\ vray_fusion_name flip "pos" "PosName" "g"
     = (if flip then "ZPosName" else "YPosName")
  /\ vray_fusion_name flip "pos" "PosName" "b"
     = (if flip then "YPosName" else "ZPosName").
Proof.
  intros Huse Hflip Hcontains Hnormal.
  assert (Hpos : mapping_name_of layer_name = Some "pos").
  { unfold mapping_name_of.
    cbn [dict_keys layer_name_mappings map fst List.find].
    now rewrite Hnormal, Hcontains. }
  assert (E : VrayPlugin_process_layer self layer_name channels w
    = (for_each channels (vray_channel self "pos" "PosName" layer_name);;
       mret (PyBool true, self))
        (add_log {| levelname := INFO; msg := "Native Fusion Layer: %s";
                    args := [LStr layer_name] |} w)).
  { unfold VrayPlugin_process_layer, getitem. rewrite Huse.
    fold (mapping_name_of layer_name). rewrite Hpos. reflexivity. }
  rewrite E, bind_eq.
  match goal with |- context [for_each _ _ ?w1] =>
    destruct (vray_channels_pos self layer_name flip channels w1 Hflip) as [Hr Ht];
    destruct (for_each channels (vray_channel self "pos" "PosName" layer_name) w1)
      as [[[]|e] w2]; [|discriminate]
  end.
  split; [reflexivity|]. split; [exact Ht|].
  destruct flip; split; reflexivity.
Qed.

(** ** The default plugin *)

Lemma for_each_cons {A} (x : A) l body w :
  for_each (x :: l) body w
  = match body x w with
    | (Return _, w1) => for_each l body w1
    | (Raise e, w1) => (Raise e, w1)
    end.
Proof. reflexivity. Qed.

Lemma bind_channel_eq new_loader (c : channel) w :
  bind_channel new_loader c w
  = (Return tt,
     match dict_get (fst c) channel_mappings with
     | Some mapping => set_tools (alter (with_control mapping (snd c)) new_loader) w
     | None => add_log (unknown_channel_record c) w
     end).
Proof.
  destruct c as [chan raw]. unfold bind_channel. cbn [fst snd].
  now destruct (dict_get chan channel_mappings).
Qed.

(** The loop does not read the log. *)
Lemma bind_channels_tools new_loader channels : forall w w',
  tools w = tools w' ->
  tools (snd (for_each channels (bind_channel new_loader) w))
  = tools (snd (for_each channels (bind_channel new_loader) w')).
Proof.
  induction channels as [|c channels IH]; intros w w' Hw; [exact Hw|].
  rewrite !for_each_cons, !bind_channel_eq. apply IH.
  destruct (dict_get (fst c) channel_mappings); simpl; [now rewrite Hw|exact Hw].
Qed.

Lemma bind_channels_spec new_loader channels : forall w,
  fst (for_each channels (bind_channel new_loader) w) = Return tt
  /\ log (snd (for_each channels (bind_channel new_loader) w))
     = log w ++ map unknown_channel_record
                    (List.filter (fun c => negb (known_channel c)) channels)
  /\ tools (snd (for_each channels (bind_channel new_loader) w))
     = tools (snd (for_each (List.filter known_channel channels)
                            (bind_channel new_loader) w))
  /\ calls (snd (for_each channels (bind_channel new_loader) w)) = calls w
  /\ media (snd (for_each channels (bind_channel new_loader) w)) = media w
  /\ length (tools (snd (for_each channels (bind_channel new_loader) w)))
     = length (tools w).
Proof.
  induction channels as [|c channels IH]; intros w.
  - simpl. now rewrite app_nil_r.
  - rewrite for_each_cons, bind_channel_eq. cbn [List.filter].
    destruct (dict_get (fst c) channel_mappings) as [mapping|] eqn:E.
    + assert (Hk : known_channel c = true) by (unfold known_channel; now rewrite E).
      rewrite Hk. cbn [negb]. rewrite for_each_cons, bind_channel_eq, E.
      destruct (IH (set_tools (alter (with_control mapping (snd c)) new_loader) w))
        as (Hr & Hl & Ht & Hc & Hm & Hn).
      repeat split; try assumption. rewrite Hn. simpl. apply length_alter.
    + assert (Hk : known_channel c = false) by (unfold known_channel; now rewrite E).
      rewrite Hk. cbn [negb].
      destruct (IH (add_log (unknown_channel_record c) w))
        as (Hr & Hl & Ht & Hc & Hm & Hn).
      split; [exact Hr|]. split; [|split; [|split; [|split]]]; try assumption.
      * rewrite Hl. simpl. now rewrite <- app_assoc.
      * rewrite Ht. now apply bind_channels_tools.
Qed.

(** What [process_layer] does after the loop over the channels. *)
Lemma DefaultPlugin_process_layer_eq self layer_name channels w :
  DefaultPlugin_process_layer self layer_name channels w
  = (let new_loader := length (tools w) in
     for_each channels (bind_channel new_loader);;
     alpha_fallback ← getitem (options self) "alpha_fallback";
     no_alpha ← (if alpha_fallback : bool
                 then keys ← list_keys channels;
                      mret (negb (existsb (String.eqb "a") keys))
                 else mret false);
     (if no_alpha : bool
      then
        fallback_alpha_channel ←
          match dict_get "default" (layers self) with
          | Some l => list_get l "a"
          | None => mret None
          end;
        match fallback_alpha_channel with
        | Some c =>
            if String.eqb c EmptyString then mret tt
            else update_tool new_loader (with_control "AlphaName" c)
        | None => mret tt
        end
      else mret tt);;
     gin ← gets (fun w => GlobalIn (tool_data w (loader self)));
     update_tool new_loader (with_GlobalIn gin);;
     gout ← gets (fun w => GlobalOut (tool_data w (loader self)));
     update_tool new_loader (with_GlobalOut gout);;
     set_tool_name new_loader layer_name;;
     mret (PyTool new_loader, self))
      (set_tools
         (alter (with_control "ZName" CHANNEL_NO_MATCH) (length (tools w)))
         (set_tools
            (alter (with_control "AlphaName" CHANNEL_NO_MATCH) (length (tools w)))
            (set_tools
               (alter (with_control "BlueName" CHANNEL_NO_MATCH) (length (tools w)))
               (set_tools
                  (alter (with_control "GreenName" CHANNEL_NO_MATCH) (length (tools w)))
                  (set_tools
                     (alter (with_control "RedName" CHANNEL_NO_MATCH) (length (tools w)))
                     (add_call (Loader (exr_filename self) (length (tools w)))
                        (set_tools
                           (fun l => l ++ [new_tool_data "Loader" (exr_filename self)])
                           (add_log {| levelname := INFO;
                                       msg := "Creating new loader for layer: %s";
                                       args := [LStr layer_name] |} w)))))))).
Proof. reflexivity. Qed.

(** The outcome of the default plugin is decided by the option alone. *)
Lemma DefaultPlugin_outcome self layer_name channels w :
  fst (DefaultPlugin_process_layer self layer_name channels w)
  = match options self !! "alpha_fallback" with
    | Some true => Raise AttributeError
    | Some false => Return (PyTool (length (tools w)), self)
    | None => Raise KeyError
    end.
Proof.
  rewrite DefaultPlugin_process_layer_eq. cbv zeta. rewrite bind_eq.
  match goal with |- context [for_each _ _ ?w1] =>
    destruct (bind_channels_spec (length (tools w)) channels w1) as (Hr & _);
    destruct (for_each channels (bind_channel (length (tools w))) w1) as [[[]|e] w2];
      [|discriminate]
  end.
  unfold getitem. destruct (options self !! "alpha_fallback") as [[|]|]; reflexivity.
Qed.

(** The part of [process_layer] after the loop does not read the log
    either. *)
Lemma DefaultPlugin_tools_known self layer_name channels w :
  tools (snd (DefaultPlugin_process_layer self layer_name channels w))
  = tools (snd (DefaultPlugin_process_layer self layer_name
                  (List.filter known_channel channels) w)).
Proof.
  rewrite !DefaultPlugin_process_layer_eq. cbv zeta. rewrite !bind_eq.
  match goal with |- context [for_each channels _ ?w1] =>
    destruct (bind_channels_spec (length (tools w)) channels w1)
      as (Hr & _ & Ht & _);
    destruct (bind_channels_spec (length (tools w))
                (List.filter known_channel channels) w1) as (Hr' & _);
    destruct (for_each channels (bind_channel (length (tools w))) w1)
      as [[[]|e] w2]; [|discriminate];
    destruct (for_each (List.filter known_channel channels)
                (bind_channel (length (tools w))) w1) as [[[]|e'] w3];
      [|discriminate]
  end.
  cbn [snd] in Ht. unfold getitem.
  destruct (options self !! "alpha_fallback") as [[|]|]; simpl; try exact Ht.
  unfold tool_data. cbn [tools set_tools]. now rewrite Ht.
Qed.

(** *** The alpha fallback *)

Lemma alpha_mapping k :
  dict_get k channel_mappings = Some "AlphaName" -> k = "a".
Proof.
  unfold channel_mappings. cbn [dict_get].
  repeat match goal with
         | |- context [String.eqb ?a k] =>
             destruct (String.eqb_spec a k); [try discriminate; congruence|]
         end.
  discriminate.
Qed.

Lemma OpenEXRFormat_alter f t w t' :
  (forall d, OpenEXRFormat (f d) = OpenEXRFormat d) ->
  OpenEXRFormat (tool_data (set_tools (alter f t) w) t')
  = OpenEXRFormat (tool_data w t').
Proof.
  intros Hf. rewrite tool_data_alter. case_decide as E; [|reflexivity].
  subst t'. unfold tool_data. destruct (tools w !! t); [apply Hf|reflexivity].
Qed.

Lemma bind_channels_alpha new_loader (channels : list channel) : forall w,
  Forall (fun c : channel => fst c <> "a") channels ->
  OpenEXRFormat (tool_data (snd (for_each channels (bind_channel new_loader) w))
                           new_loader) !! "AlphaName"
  = OpenEXRFormat (tool_data w new_loader) !! "AlphaName".
Proof.
  induction channels as [|c channels IH]; intros w Hall; [reflexivity|].
  inversion Hall as [|? ? Hc Hrest]; subst.
  rewrite for_each_cons, bind_channel_eq, IH by assumption.
  destruct (dict_get (fst c) channel_mappings) as [mapping|] eqn:E; [|reflexivity].
  rewrite tool_data_alter, decide_True by reflexivity. unfold tool_data.
  destruct (tools w !! new_loader) as [d|]; [|reflexivity].
  simpl. apply lookup_insert_ne. intros ->. apply Hc. now apply alpha_mapping.
Qed.

(** With the option disabled and no channel [a] in the layer, the alpha
    slot of the new loader stays at the sentinel. *)
Lemma default_alpha_disabled self layer_name (channels : list channel) w :
  options self !! "alpha_fallback" = Some false ->
  Forall (fun c : channel => fst c <> "a") channels ->
  OpenEXRFormat
    (tool_data (snd (DefaultPlugin_process_layer self layer_name channels w))
               (length (tools w))) !! "AlphaName"
  = Some CHANNEL_NO_MATCH.
Proof.
  intros Hopt Hall. rewrite DefaultPlugin_process_layer_eq. cbv zeta.
  rewrite bind_eq.
  match goal with |- context [for_each _ _ ?w1] =>
    pose proof (bind_channels_alpha (length (tools w)) channels w1 Hall) as Ha;
    destruct (bind_channels_spec (length (tools w)) channels w1) as (Hr & _);
    destruct (for_each channels (bind_channel (length (tools w))) w1)
      as [[[]|e] w2]; [|discriminate]
  end.
  cbn [snd] in Ha. unfold getitem. rewrite Hopt.
  cbv [mbind M_bind mret M_ret gets update_tool set_tool_name modify snd].
  rewrite !OpenEXRFormat_alter by reflexivity. rewrite Ha.
  unfold tool_data. cbn [tools set_tools add_call add_log].
  rewrite !list_lookup_alter_eq, lookup_app_r, Nat.sub_diag by lia.
  reflexivity.
Qed.

(** With the option enabled the plugin raises at [channels.keys()],
    whatever the layer. *)
Lemma default_alpha_enabled self layer_name channels w :
  options self !! "alpha_fallback" = Some true ->
  fst (DefaultPlugin_process_layer self layer_name channels w)
  = Raise AttributeError.
Proof. intros Hopt. now rewrite DefaultPlugin_outcome, Hopt. Qed.

(** C1 (at the failing input): in the example composition the layer
    "default" has a channel [a]; with [alpha_fallback] enabled the
    default plugin raises AttributeError on the layer "diffuse" of
    channels r, g and b instead of binding the alpha slot, and so does
    the whole splitting operation; with the option disabled the alpha
    slot of the new loader is the sentinel. *)
Theorem alpha_fallback_enabled_raises :
  dict_get "default" (layers (demo_plugin DefaultPlugin {[ "alpha_fallback" := true ]}))
  = Some [("r", "R"); ("g", "G"); ("b", "B"); ("a", "A")]
  /\ fst (DefaultPlugin_process_layer
            (demo_plugin DefaultPlugin {[ "alpha_fallback" := true ]}) "diffuse"
            [("r", "diffuse.R"); ("g", "diffuse.G"); ("b", "diffuse.B")]
            (demo_world "/shots/beauty.exr"))
     = Raise AttributeError
  /\ fst (split_multilayer_exr 0 [CryptomattePlugin; DefaultPlugin]
            {[ "alpha_fallback" := true ]} (demo_world "/shots/beauty.exr"))
     = Raise AttributeError
  /\ OpenEXRFormat
       (tool_data
          (snd (DefaultPlugin_process_layer
                  (demo_plugin DefaultPlugin {[ "alpha_fallback" := false ]})
                  "diffuse"
                  [("r", "diffuse.R"); ("g", "diffuse.G"); ("b", "diffuse.B")]
                  (demo_world "/shots/beauty.exr")))
          1) !! "AlphaName"
     = Some CHANNEL_NO_MATCH.
Proof. repeat split; vm_compute; reflexivity. Qed.

(** ** The dispatch loop *)

Section ChainFacts.
Context {P : Type} `{Plugin P}.

Lemma dispatch_layer_cons plugin rest layer_name channels new_tools w :
  dispatch_layer (plugin :: rest) layer_name channels new_tools w
  = match process_layer plugin layer_name channels
            (attempt_logged plugin layer_name w) with
    | (Return (result, plugin'), w1) =>
        if truthy result then
          (Return (plugin' :: rest,
                   if has_GetAttrs result then new_tools ++ created result
                   else new_tools),
           accepted_logged plugin' layer_name result w1)
        else
          match dispatch_layer rest layer_name channels new_tools
                  (rejected_logged plugin' layer_name result w1) with
          | (Return (rest', new_tools'), w2) =>
              (Return (plugin' :: rest', new_tools'), w2)
          | (Raise e, w2) => (Raise e, w2)
          end
    | (Raise e, w1) => (Raise e, w1)
    end.
Proof.
  cbn [dispatch_layer]. unfold logger_debug, logger.
  rewrite bind_eq. cbn [modify]. rewrite bind_eq.
  fold (attempt_logged plugin layer_name w).
  destruct (process_layer plugin layer_name channels
              (attempt_logged plugin layer_name w)) as [[[result plugin']|e] w1];
    [|reflexivity].
  rewrite bind_eq. cbn [modify].
  destruct (truthy result).
  - unfold accepted_logged. destruct (has_GetAttrs result); reflexivity.
  - rewrite bind_eq. cbn [modify]. rewrite bind_eq. unfold rejected_logged.
    destruct (dispatch_layer rest layer_name channels new_tools
                (add_log _ (add_log _ w1))) as [[[rest' nt']|e] w2]; reflexivity.
Qed.

Lemma created_no_GetAttrs result :
  has_GetAttrs result = false -> created result = [].
Proof. now destruct result. Qed.

(** One layer: after a prefix of plugins that return false results
    the loop returns with [new_tools] as before; a first true result
    ends it, appended when it is a tool; an exception leaves it. *)
Lemma dispatch_layer_chain (layer_name : string)
    (channels : list channel) (pre pre' : list P) (w w1 : World)
    (new_tools : list tool) :
  rejects layer_name channels pre w pre' w1 ->
  dispatch_layer pre layer_name channels new_tools w
  = (Return (pre', new_tools), w1)
  /\ (forall plugin post result plugin' w2,
        process_layer plugin layer_name channels
          (attempt_logged plugin layer_name w1)
        = (Return (result, plugin'), w2) ->
        truthy result = true ->
        dispatch_layer (pre ++ plugin :: post) layer_name channels new_tools w
        = (Return (pre' ++ plugin' :: post, new_tools ++ created result),
           accepted_logged plugin' layer_name result w2)
        /\ (has_GetAttrs result = true ->
            exists t, result = PyTool t /\ created result = [t])
        /\ (has_GetAttrs result = false -> created result = []))
  /\ (forall plugin post e w2,
        process_layer plugin layer_name channels
          (attempt_logged plugin layer_name w1)
        = (Raise e, w2) ->
        dispatch_layer (pre ++ plugin :: post) layer_name channels new_tools w
        = (Raise e, w2)).
Proof.
  induction 1 as [w|plugin rest w result plugin' w1 rest' w2 Hcall Hfalse Hrest IH].
  - split; [reflexivity|]. split.
    + intros plugin post result plugin' w2 Hcall Htrue. cbn [app].
      rewrite dispatch_layer_cons, Hcall, Htrue.
      split; [|split].
      * destruct (has_GetAttrs result) eqn:E; [reflexivity|].
        now rewrite created_no_GetAttrs, app_nil_r.
      * destruct result; try discriminate. eauto.
      * apply created_no_GetAttrs.
    + intros plugin post e w2 Hcall. cbn [app].
      now rewrite dispatch_layer_cons, Hcall.
  - destruct IH as (IH1 & IH2 & IH3). split; [|split].
    + now rewrite dispatch_layer_cons, Hcall, Hfalse, IH1.
    + intros p post r p' w3 Hp Htrue.
      destruct (IH2 p post r p' w3 Hp Htrue) as (E & Hg & Hn).
      split; [|split; assumption].
      cbn [app]. now rewrite dispatch_layer_cons, Hcall, Hfalse, E.
    + intros p post e w3 Hp. cbn [app].
      now rewrite dispatch_layer_cons, Hcall, Hfalse, (IH3 p post e w3 Hp).
Qed.

Lemma dispatch_layers_cons layer_name channels (layers : layers_t)
    (plugins : list P) new_tools w :
  dispatch_layers ((layer_name, channels) :: layers) plugins new_tools w
  = match dispatch_layer plugins layer_name channels new_tools
            (layer_logged layer_name w) with
    | (Return (plugins', new_tools'), w1) =>
        dispatch_layers layers plugins' new_tools' w1
    | (Raise e, w1) => (Raise e, w1)
    end.
Proof.
  cbn [dispatch_layers]. unfold logger_info, logger.
  rewrite bind_eq. cbn [modify]. rewrite bind_eq.
  fold (layer_logged layer_name w).
  destruct (dispatch_layer plugins layer_name channels new_tools
              (layer_logged layer_name w)) as [[[ps nt]|e] w1]; reflexivity.
Qed.

(** The loop over the layers goes through them one after the other. *)
Lemma dispatch_layers_app (before after : layers_t) : forall (plugins : list P)
    new_tools w,
  dispatch_layers (before ++ after) plugins new_tools w
  = match dispatch_layers before plugins new_tools w with
    | (Return (plugins', new_tools'), w1) =>
        dispatch_layers after plugins' new_tools' w1
    | (Raise e, w1) => (Raise e, w1)
    end.
Proof.
  induction before as [|[ln ch] before IH]; intros plugins new_tools w;
    [reflexivity|].
  rewrite <- app_comm_cons, !dispatch_layers_cons.
  destruct (dispatch_layer plugins ln ch new_tools (layer_logged ln w))
    as [[[ps nt]|e] w1]; [apply IH|reflexivity].
Qed.

(** The loop at one of its layers, from the state in which it reaches
    the layer. *)
Lemma dispatch_layers_at (before after : layers_t) layer_name channels
    (plugins0 plugins : list P) nt0 new_tools w0 w :
  dispatch_layers before plugins0 nt0 w0 = (Return (plugins, new_tools), w) ->
  dispatch_layers (before ++ (layer_name, channels) :: after) plugins0 nt0 w0
  = match dispatch_layer plugins layer_name channels new_tools
            (layer_logged layer_name w) with
    | (Return (plugins', new_tools'), w1) =>
        dispatch_layers after plugins' new_tools' w1
    | (Raise e, w1) => (Raise e, w1)
    end.
Proof.
  intros Hreach. rewrite dispatch_layers_app, Hreach. apply dispatch_layers_cons.
Qed.
End ChainFacts.

(** ** The matte plugin *)

Lemma no_AddTool_set_tool_name t n : preserves no_AddTool (set_tool_name t n).
Proof. unfold set_tool_name. pres. Qed.

Lemma no_AddTool_bind_channel t c : preserves no_AddTool (bind_channel t c).
Proof. destruct c. unfold bind_channel. pres. Qed.

Lemma no_AddTool_vray_channel self mn m ln c :
  preserves no_AddTool (vray_channel self mn m ln c).
Proof. destruct c. unfold vray_channel, vray_axis. pres. Qed.

#[global] Hint Resolve no_AddTool_set_tool_name no_AddTool_bind_channel
  no_AddTool_vray_channel : pres.



Lemma VrayPlugin_self self ln ch w v p' :
  fst (VrayPlugin_process_layer self ln ch w) = Return (v, p') -> p' = self.
Proof.
  unfold VrayPlugin_process_layer, getitem.
  destruct (options self !! "use_aux_channels") as [[|]|];
    rewrite bind_eq; cbn [mret M_ret raise negb fst].
  - rewrite bind_eq. unfold logger_info at 1, logger. cbn [modify].
    destruct (List.find _ _) as [mn|]; [|cbn [mret M_ret fst]; congruence].
    destruct (dict_get mn layer_name_mappings) as [m|];
      [|cbn [raise fst]; congruence].
    rewrite bind_eq.
    destruct (for_each ch _ _) as [[[]|e] w2]; cbn [mret M_ret fst]; congruence.
  - congruence.
  - congruence.
Qed.

Lemma CryptomattePlugin_other_layer self ln ch w :
  crypto_layer ln = false ->
  CryptomattePlugin_process_layer self ln ch w = (Return (PyBool false, self), w).
Proof.
  intros Hl. unfold CryptomattePlugin_process_layer. fold (crypto_layer ln).
  now rewrite Hl.
Qed.

Lemma CryptomattePlugin_made self ln ch w :
  crypto_layer ln = true -> made_crypto self = true ->
  CryptomattePlugin_process_layer self ln ch w
  = (Return (PyBool true, self),
     add_log {| levelname := INFO; msg := "Cryptomatte: %s";
                args := [LStr ln] |} w).
Proof.
  intros Hl Hm. unfold CryptomattePlugin_process_layer. fold (crypto_layer ln).
  rewrite Hl. cbn [negb]. rewrite bind_eq. cbn [logger_info logger modify].
  now rewrite Hm.
Qed.

Lemma CryptomattePlugin_first self ln ch w :
  crypto_layer ln = true -> made_crypto self = false ->
  fst (CryptomattePlugin_process_layer self ln ch w)
  = Return (PyTool (length (tools w)), with_made_crypto true self)
  /\ TOOLS_RegID
       (tool_data (snd (CryptomattePlugin_process_layer self ln ch w))
                  (length (tools w)))
     = "Fuse.Cryptomatte"
  /\ count_AddTool (calls (snd (CryptomattePlugin_process_layer self ln ch w)))
     = count_AddTool (calls w) + 1.
Proof.
  intros Hl Hm. unfold CryptomattePlugin_process_layer. fold (crypto_layer ln).
  rewrite Hl. cbn [negb]. rewrite bind_eq. cbn [logger_info logger modify].
  rewrite Hm.
  split; [reflexivity|]. split.
  - cbv [mbind M_bind mret M_ret logger_info logger modify comp_AddTool
         update_tool set_tool_name snd].
    unfold tool_data. cbn [tools set_tools add_call add_log].
    rewrite !list_lookup_alter_eq, lookup_app_r, Nat.sub_diag by lia. reflexivity.
  - cbv [mbind M_bind mret M_ret logger_info logger modify comp_AddTool
         update_tool set_tool_name snd].
    cbn [calls set_tools add_call add_log]. now rewrite count_AddTool_snoc.
Qed.







Lemma split_multilayer_exr_eq t pcs opts w :
  split_multilayer_exr t pcs opts w
  = let layers := group_layers (ChannelIDs (clip_info w t)) in
    let mk := make_plugins pcs (TOOLST_Clip_Name (tool_data w t)) t layers opts in
    match dispatch_layers layers (fst mk) [] (add_log (layers_found w t) w) with
    | (Return (_, new_tools), w1) =>
        (Return (new_tools, snd mk),
         add_log {| levelname := DEBUG; msg := "Finished processing all layers.";
                    args := [] |} w1)
    | (Raise e, w1) => (Raise e, w1)
    end.
Proof.
  cbv zeta.
  assert (E : split_multilayer_exr t pcs opts w
    = ('(_, new_tools) ←
         dispatch_layers (group_layers (ChannelIDs (clip_info w t)))
           (fst (make_plugins pcs (TOOLST_Clip_Name (tool_data w t)) t
                   (group_layers (ChannelIDs (clip_info w t))) opts)) [];
       logger_debug "Finished processing all layers." [];;
       mret (new_tools,
             snd (make_plugins pcs (TOOLST_Clip_Name (tool_data w t)) t
                    (group_layers (ChannelIDs (clip_info w t))) opts)))
        (add_log (layers_found w t) w)) by reflexivity.
  rewrite E, bind_eq.
  destruct (dispatch_layers _ _ _ _) as [[[plugins' nt']|e] w1]; reflexivity.
Qed.


Lemma process_layer_crypto (self : plugin) ln ch :
  is_crypto self = true ->
  process_layer self ln ch = CryptomattePlugin_process_layer self ln ch.
Proof.
  unfold is_crypto. cbn [process_layer plugin_Plugin].
  now destruct (cls self).
Qed.



(** The example composition has two matte layers and gets one matte
    node, the last of the three new nodes. *)
Example two_crypto_layers_one_node :
  map fst (group_layers (ChannelIDs (demo_media "/shots/beauty.exr")))
  = ["default"; "diffuse"; "crypto00"; "CryptoObject01"]
  /\ fst (split_multilayer_exr 0 [CryptomattePlugin; DefaultPlugin] ∅
            (demo_world "/shots/beauty.exr"))
     = Return ([1; 2; 3], {[ "alpha_fallback" := false ]})
  /\ map (fun d => TOOLS_RegID d)
         (tools (snd (split_multilayer_exr 0 [CryptomattePlugin; DefaultPlugin] ∅
                        (demo_world "/shots/beauty.exr"))))
     = ["Loader"; "Loader"; "Loader"; "Fuse.Cryptomatte"].
Proof. repeat split; vm_compute; reflexivity. Qed.

Lemma pair_of_fst {A B} (x : A * B) (a : A) : fst x = a -> x = (a, snd x).
Proof. intros <-. now destruct x. Qed.

(** C3: for every layer, at whatever place of the loop over the
    layers, the plugins are called in the order of the list until one
    returns a true result.  While the plugins return false results the
    next one is called; if all do, the layer is skipped: the loop goes
    on with the next layer, [new_tools] is as before and nothing is
    raised.  The first true result ends the calls for the layer: a
    result with GetAttrs, a tool, is appended to [new_tools], any other
    leaves [new_tools] as it is, the plugins after it are not called,
    and the loop goes on with the next layer.  An exception of a plugin
    leaves both loops.  The layers of [split_multilayer_exr] are those
    of the parser, in its order, the plugins the instances of the
    configured classes, in their order, and what it returns is the
    [new_tools] of the loop, which starts empty. *)
Theorem dispatch_layers_first_accepting {P : Type} `{Plugin P}
    (before after : layers_t) (layer_name : string) (channels : list channel)
    (plugins0 pre pre' : list P) (nt0 new_tools : list tool) (w0 w w1 : World) :
  rejects layer_name channels pre (layer_logged layer_name w) pre' w1 ->
  (dispatch_layer pre layer_name channels new_tools (layer_logged layer_name w)
   = (Return (pre', new_tools), w1)
   /\ (dispatch_layers before plugins0 nt0 w0 = (Return (pre, new_tools), w) ->
       dispatch_layers (before ++ (layer_name, channels) :: after) plugins0 nt0 w0
       = dispatch_layers after pre' new_tools w1))
  /\ (forall plugin post result plugin' w2,
        process_layer plugin layer_name channels
          (attempt_logged plugin layer_name w1)
        = (Return (result, plugin'), w2) ->
        truthy result = true ->
        dispatch_layer (pre ++ plugin :: post) layer_name channels new_tools
          (layer_logged layer_name w)
        = (Return (pre' ++ plugin' :: post, new_tools ++ created result),
           accepted_logged plugin' layer_name result w2)
        /\ (dispatch_layers before plugins0 nt0 w0
            = (Return (pre ++ plugin :: post, new_tools), w) ->
            dispatch_layers (before ++ (layer_name, channels) :: after)
              plugins0 nt0 w0
            = dispatch_layers after (pre' ++ plugin' :: post)
                (new_tools ++ created result)
                (accepted_logged plugin' layer_name result w2))
        /\ (has_GetAttrs result = true ->
            exists t, result = PyTool t /\ created result = [t])
        /\ (has_GetAttrs result = false -> created result = []))
  /\ (forall plugin post e w2,
        process_layer plugin layer_name channels
          (attempt_logged plugin layer_name w1)
        = (Raise e, w2) ->
        dispatch_layer (pre ++ plugin :: post) layer_name channels new_tools
          (layer_logged layer_name w)
        = (Raise e, w2)
        /\ (dispatch_layers before plugins0 nt0 w0
            = (Return (pre ++ plugin :: post, new_tools), w) ->
            dispatch_layers (before ++ (layer_name, channels) :: after)
              plugins0 nt0 w0
            = (Raise e, w2)))
  /\ (forall t pcs opts ws,
        split_multilayer_exr t pcs opts ws
        = let layers := group_layers (ChannelIDs (clip_info ws t)) in
          let mk := make_plugins pcs (TOOLST_Clip_Name (tool_data ws t)) t
                      layers opts in
          match dispatch_layers layers (fst mk) [] (add_log (layers_found ws t) ws)
          with
          | (Return (_, new_tools), w') =>
              (Return (new_tools, snd mk),
               add_log {| levelname := DEBUG;
                          msg := "Finished processing all layers.";
                          args := [] |} w')
          | (Raise e, w') => (Raise e, w')
          end).
Proof.
  intros Hrej.
  destruct (dispatch_layer_chain layer_name channels pre pre'
              (layer_logged layer_name w) w1 new_tools Hrej) as (Hall & Hacc & Hexn).
  split; [|split; [|split]].
  - split; [exact Hall|]. intros Hreach.
    now rewrite (dispatch_layers_at before after layer_name channels plugins0 pre
                   nt0 new_tools w0 w Hreach), Hall.
  - intros plugin post result plugin' w2 Hcall Htrue.
    destruct (Hacc plugin post result plugin' w2 Hcall Htrue) as (E & Hg & Hn).
    split; [exact E|]. split; [|split; assumption]. intros Hreach.
    now rewrite (dispatch_layers_at before after layer_name channels plugins0
                   (pre ++ plugin :: post) nt0 new_tools w0 w Hreach), E.
  - intros plugin post e w2 Hcall.
    pose proof (Hexn plugin post e w2 Hcall) as E.
    split; [exact E|]. intros Hreach.
    now rewrite (dispatch_layers_at before after layer_name channels plugins0
                   (pre ++ plugin :: post) nt0 new_tools w0 w Hreach), E.
  - intros t pcs opts ws. apply split_multilayer_exr_eq.
Qed.

Lemma dispatch_layers_first_accepting_witness :
  let opts : options_t := {[ "alpha_fallback" := false ]} in
  let crypto := demo_plugin CryptomattePlugin opts in
  let dflt := demo_plugin DefaultPlugin opts in
  let w := demo_world "/shots/beauty.exr" in
  let diffuse : list channel := [("r", "diffuse.R"); ("q", "diffuse.Q")] in
  let matte : list channel := [("r", "crypto00.R")] in
  let w1 := rejected_logged crypto "diffuse" (PyBool false)
              (attempt_logged crypto "diffuse" (layer_logged "diffuse" w)) in
  rejects "diffuse" diffuse [crypto] (layer_logged "diffuse" w) [crypto] w1
  /\ dispatch_layer [crypto] "diffuse" diffuse [] (layer_logged "diffuse" w)
     = (Return ([crypto], []), w1)
  /\ fst (process_layer dflt "diffuse" diffuse (attempt_logged dflt "diffuse" w1))
     = Return (PyTool 1, dflt)
  /\ fst (dispatch_layers [("diffuse", diffuse); ("crypto00", matte)]
            [crypto; dflt] [] w)
     = Return ([with_made_crypto true crypto; dflt], [1; 2]).
Proof.
  cbv zeta.
  set (opts := ({[ "alpha_fallback" := false ]} : options_t)).
  set (crypto := demo_plugin CryptomattePlugin opts).
  set (dflt := demo_plugin DefaultPlugin opts).
  set (w := demo_world "/shots/beauty.exr").
  set (diffuse := [("r", "diffuse.R"); ("q", "diffuse.Q")] : list channel).
  set (w1 := rejected_logged crypto "diffuse" (PyBool false)
               (attempt_logged crypto "diffuse" (layer_logged "diffuse" w))).
  assert (Hrej : rejects "diffuse" diffuse [crypto] (layer_logged "diffuse" w)
                   [crypto] w1).
  { eapply rejects_cons; [reflexivity|reflexivity|apply rejects_nil]. }
  assert (Hcall : process_layer dflt "diffuse" diffuse
                    (attempt_logged dflt "diffuse" w1)
                  = (Return (PyTool 1, dflt),
                     snd (process_layer dflt "diffuse" diffuse
                            (attempt_logged dflt "diffuse" w1)))).
  { apply pair_of_fst. vm_compute. reflexivity. }
  destruct (dispatch_layers_first_accepting [] [("crypto00", [("r", "crypto00.R")])]
              "diffuse" diffuse [crypto; dflt] [crypto] [crypto] [] [] w w w1 Hrej)
    as ((Hall & _) & Hacc & _).
  destruct (Hacc dflt [] (PyTool 1) dflt _ Hcall eq_refl) as (_ & Hloop & _).
  split; [exact Hrej|]. split; [exact Hall|].
  split; [now rewrite Hcall|].
  refine (eq_trans (f_equal fst (Hloop eq_refl)) _). vm_compute. reflexivity.
Defined.

Example dispatch_layer_default_accepts :
  fst (dispatch_layer [demo_plugin CryptomattePlugin ∅;
                       demo_plugin DefaultPlugin {[ "alpha_fallback" := false ]}]
         "diffuse" [("r", "diffuse.R")] [] (demo_world "/shots/beauty.exr"))
  = Return ([demo_plugin CryptomattePlugin ∅;
             demo_plugin DefaultPlugin {[ "alpha_fallback" := false ]}], [1]).
Proof. vm_compute. reflexivity. Qed.

(** ** Instances on the example compositions *)

Lemma mapping_name_of_pos ln :
  mapping_name_of ln = Some "pos" <->
  Py.contains "normal" (Py.lower ln) = false
  /\ Py.contains "pos" (Py.lower ln) = true.
Proof.
  unfold mapping_name_of.
  cbn [dict_keys layer_name_mappings map fst List.find].
  destruct (Py.contains "normal" (Py.lower ln));
    destruct (Py.contains "pos" (Py.lower ln));
    destruct (Py.contains "vel" (Py.lower ln)); split; intros; try tauto;
    try discriminate; destruct H; discriminate.
Qed.

Lemma vray_flip_axis_witness :
  demo_vray_options true !! "use_aux_channels" = Some true
  /\ demo_vray_options true !! "flip_worldpos_axis" = Some true
  /\ Py.contains "pos" (Py.lower "WorldPos") = true
  /\ Py.contains "normal" (Py.lower "WorldPos") = false
  /\ fst (VrayPlugin_process_layer (demo_plugin VrayPlugin (demo_vray_options true))
            "WorldPos" [("g", "WorldPos.G"); ("b", "WorldPos.B")]
            (demo_world "/shots/beauty.exr"))
     = Return (PyBool true, demo_plugin VrayPlugin (demo_vray_options true))
  /\ tools (snd (VrayPlugin_process_layer
                   (demo_plugin VrayPlugin (demo_vray_options true))
                   "WorldPos" [("g", "WorldPos.G"); ("b", "WorldPos.B")]
                   (demo_world "/shots/beauty.exr")))
     = [with_control "YPosName" "WorldPos.B"
          (with_control "ZPosName" "WorldPos.G" (demo_loader "/shots/beauty.exr"))].
Proof.
  destruct (vray_flip_axis (demo_plugin VrayPlugin (demo_vray_options true))
              "WorldPos" [("g", "WorldPos.G"); ("b", "WorldPos.B")] true
              (demo_world "/shots/beauty.exr") eq_refl eq_refl eq_refl eq_refl)
    as (Hr & Ht & _).
  repeat split; try reflexivity; assumption.
Defined.

(** C5 as stated fails: the name VRayNormals_pos contains the keyword
    pos, yet with the flip option set the plugin writes its channel g
    to YNormName and its channel b to ZNormName, as the keyword normal
    is found first: nothing is swapped and no control of the position
    group is written. *)
Lemma vray_flip_axis_counterexample :
  let self := demo_plugin VrayPlugin (demo_vray_options true) in
  let r := VrayPlugin_process_layer self "VRayNormals_pos"
             [("g", "VRayNormals_pos.G"); ("b", "VRayNormals_pos.B")]
             (demo_world "/shots/beauty.exr") in
  Py.contains "pos" (Py.lower "VRayNormals_pos") = true
  /\ options self !! "use_aux_channels" = Some true
  /\ options self !! "flip_worldpos_axis" = Some true
  /\ fst r = Return (PyBool true, self)
  /\ OpenEXRFormat (tool_data (snd r) 0)
     = {[ "YNormName" := "VRayNormals_pos.G"; "ZNormName" := "VRayNormals_pos.B" ]}
  /\ ~ (exists k rest,
          OpenEXRFormat (tool_data (snd r) 0) !! String "Z" rest
          = Some "VRayNormals_pos.G"
          /\ OpenEXRFormat (tool_data (snd r) 0) !! String "Y" k
             = Some "VRayNormals_pos.B").
Proof.
  cbv zeta.
  assert (Hfmt : OpenEXRFormat
                   (tool_data
                      (snd (VrayPlugin_process_layer
                              (demo_plugin VrayPlugin (demo_vray_options true))
                              "VRayNormals_pos"
                              [("g", "VRayNormals_pos.G"); ("b", "VRayNormals_pos.B")]
                              (demo_world "/shots/beauty.exr"))) 0)
                 = {[ "YNormName" := "VRayNormals_pos.G";
                      "ZNormName" := "VRayNormals_pos.B" ]})
    by (vm_compute; reflexivity).
  repeat split; try reflexivity; try exact Hfmt.
  rewrite Hfmt. intros (k & rest & Hz & _).
  apply lookup_insert_Some in Hz as [[Hk _]|[_ Hz]]; [discriminate|].
  apply lookup_singleton_Some in Hz as [_ Hv]. discriminate.
Qed.

Lemma split_exr_modes_exclusive_witness :
  fst (is_multipart_exr 0 (demo_world "/shots/parts.exr")) = Return true
  /\ log (snd (split_exr 0 [CryptomattePlugin; DefaultPlugin] ∅
                 (demo_world "/shots/parts.exr")))
     = []
  /\ fst (is_multipart_exr 0 (demo_world "/shots/beauty.exr")) = Return false
  /\ fst (is_exr_loader 0 (demo_world "/shots/beauty.exr")) = Return true
  /\ exists recs,
       log (snd (split_exr 0 [CryptomattePlugin; DefaultPlugin] ∅
                   (demo_world "/shots/beauty.exr")))
       = layers_found (demo_world "/shots/beauty.exr") 0 :: recs.
Proof.
  destruct (split_exr_modes_exclusive 0 [CryptomattePlugin; DefaultPlugin] ∅
              (demo_world "/shots/parts.exr")) as (_ & Hparts & _).
  destruct (split_exr_modes_exclusive 0 [CryptomattePlugin; DefaultPlugin] ∅
              (demo_world "/shots/beauty.exr")) as (_ & _ & Hlayers).
  split; [reflexivity|]. split; [exact (proj2 (Hparts eq_refl))|].
  split; [reflexivity|]. split; [reflexivity|].
  exact (proj2 (Hlayers eq_refl eq_refl)).
Defined.

Lemma arrange_tools_table_grid_witness :
  origin_of (Some 0) (seq 1 25) = Some 0
  /\ Pos (tool_data demo_world_25 0) = (5, 7)%Z
  /\ Pos (tool_data (snd (arrange_tools_table (seq 1 25) 3 20 (Some 0) demo_world_25))
                    21)
     = (5 + 3, 7)%Z.
Proof.
  destruct (arrange_tools_table_grid (seq 1 25) 3 20 (Some 0) 0 demo_world_25 eq_refl)
    as (w' & Hrun & _ & Hpos & H20).
  split; [reflexivity|]. split; [reflexivity|].
  rewrite Hrun. cbn [snd]. rewrite (Hpos 20 21).
  - exact H20.
  - reflexivity.
  - intros j Hj. apply lookup_seq in Hj. lia.
  - cbn. lia.
Defined.

Lemma split_exr_unbound_new_tools_witness :
  fst (is_exr_loader 0 (demo_world "/shots/photo.jpg")) = Return false
  /\ split_exr 0 [CryptomattePlugin; DefaultPlugin] ∅ (demo_world "/shots/photo.jpg")
     = (Raise UnboundLocalError, demo_world "/shots/photo.jpg")
  /\ fst (split_exr_script (demo_world "/shots/photo.jpg")) = Raise UnboundLocalError.
Proof.
  split; [reflexivity|]. split.
  - apply (proj1 split_exr_unbound_new_tools). reflexivity.
  - reflexivity.
Defined.

(** The script on a multi-layer EXR returns, on a JPEG it raises; the
    graph is unlocked and the undo transaction closed in both runs. *)
Example split_exr_script_runs :
  fst (split_exr_script (demo_world "/shots/beauty.exr")) = Return tt
  /\ calls (snd (split_exr_script (demo_world "/shots/beauty.exr")))
     = [StartUndo "Split EXR"; Lock; Loader "/shots/beauty.exr" 1;
        Loader "/shots/beauty.exr" 2; AddTool "Fuse.Cryptomatte" 3;
        SetPos 1 5 7; SetPos 2 5 8; SetPos 3 5 9; Unlock; EndUndo true]
  /\ fst (split_exr_script (demo_world "/shots/photo.jpg")) = Raise UnboundLocalError
  /\ calls (snd (split_exr_script (demo_world "/shots/photo.jpg")))
     = [StartUndo "Split EXR"; Lock; Unlock; EndUndo true].
Proof. repeat split; vm_compute; reflexivity. Qed.

(** * Further properties *)

(** ** More on the channel-name parser *)

Lemma split_segments_dot_free s :
  Forall (fun seg => dot_free seg = true) (Py.split namespace_separator s).
Proof.
  induction s as [|c s IH]; cbn [Py.split]; [repeat constructor|].
  destruct (Ascii.eqb c namespace_separator) eqn:E.
  - constructor; [reflexivity|exact IH].
  - pose proof (split_nonempty namespace_separator s) as Hne.
    destruct (Py.split namespace_separator s) as [|seg rest]; [contradiction|].
    inversion IH as [|? ? Hseg Hrest]; subst.
    constructor; [|exact Hrest]. cbn [dot_free]. now rewrite E, Hseg.
Qed.

Lemma string_app_assoc (a b c : string) :
  ((a ++ b) ++ c = a ++ (b ++ c))%string.
Proof.
  induction a as [|x a IH]; [reflexivity|].
  change (String x ((a ++ b) ++ c) = String x (a ++ (b ++ c)))%string.
  now rewrite IH.
Qed.

Lemma join_snoc sep l x :
  l <> [] -> Py.join sep (l ++ [x]) = (Py.join sep l ++ sep ++ x)%string.
Proof.
  induction l as [|a l IH]; [congruence|]. intros _.
  destruct l as [|b l].
  - reflexivity.
  - change (Py.join sep ((a :: b :: l) ++ [x]))
      with (a ++ sep ++ Py.join sep ((b :: l) ++ [x]))%string.
    rewrite IH by discriminate.
    change (Py.join sep (a :: b :: l)) with (a ++ sep ++ Py.join sep (b :: l))%string.
    now rewrite !string_app_assoc.
Qed.

(** X1: the key, not yet lower-cased, and the layer name the parser
    takes from a raw channel name give the name back: a name with a dot
    is its layer name, a dot and its key, where the key has no dot; a
    name without a dot is its own key, in layer "default". *)
Theorem split_channel_roundtrip (chan : string) :
  let '(key, layer_name) := split_channel chan in
  dot_free key = true
  /\ if dot_free chan
     then key = chan /\ layer_name = "default"
     else (layer_name ++ String namespace_separator key)%string = chan.
Proof.
  unfold split_channel.
  pose proof (split_segments_dot_free chan) as Hfree.
  pose proof (join_split namespace_separator chan) as Hjoin.
  pose proof (split_nonempty namespace_separator chan) as Hne.
  destruct (dot_free chan) eqn:Hd.
  - rewrite split_dot_free by assumption. cbn. auto.
  - destruct (@exists_last _ (Py.split namespace_separator chan) Hne)
      as (front & key & Hsplit).
    rewrite Hsplit in *. apply Forall_app in Hfree as [Hfront Hkey].
    apply Forall_inv in Hkey. rename Hkey into Hk. cbn beta in Hk.
    destruct front as [|a front].
    + cbn in Hjoin. congruence.
    + replace (1 <? length ((a :: front) ++ [key]))%nat with true
        by (symmetry; apply Nat.ltb_lt; rewrite length_app; simpl; lia).
      unfold Py.last_item, Py.but_last.
      rewrite List.last_last, List.removelast_last. split; [exact Hk|].
      rewrite join_snoc in Hjoin by discriminate. exact Hjoin.
Qed.

Lemma filter_split_perm {A} (p q : A -> bool) (l : list A) :
  (forall x, p x = true -> q x = false) ->
  Permutation (List.filter p l ++ List.filter q l)
              (List.filter (fun x => p x || q x) l).
Proof.
  intros Hpq. induction l as [|x l IH]; [reflexivity|]. cbn [List.filter].
  destruct (p x) eqn:Hp.
  - rewrite (Hpq x Hp). cbn. now constructor.
  - destruct (q x); cbn; [|exact IH].
    rewrite <- Permutation_middle. now constructor.
Qed.

Lemma layers_cover_perm (cs ks : list string) :
  List.NoDup ks ->
  Permutation
    (concat (map (fun L => List.filter (fun c => String.eqb (layer_name_of c) L) cs) ks))
    (List.filter (fun c => mem (layer_name_of c) ks) cs).
Proof.
  induction 1 as [|k ks Hk Hnd IH]; cbn [map concat mem existsb].
  - induction cs as [|c cs IHc]; [reflexivity|exact IHc].
  - rewrite IH. apply filter_split_perm.
    intros c Hc. apply String.eqb_eq in Hc. rewrite Hc.
    destruct (mem k ks) eqn:Hm; [|exact Hm].
    apply mem_true_In in Hm. contradiction.
Qed.

Lemma filter_all {A} (p : A -> bool) (l : list A) :
  (forall x, In x l -> p x = true) -> List.filter p l = l.
Proof.
  induction l as [|x l IH]; intros Hp; [reflexivity|]. cbn.
  rewrite (Hp x (or_introl eq_refl)), IH; [reflexivity|].
  intros y Hy. apply Hp. now right.
Qed.

Lemma dict_get_tabulate {V} (g : string -> V) k ks :
  dict_get k (tabulate g ks) = if mem k ks then Some (g k) else None.
Proof.
  unfold tabulate, mem. induction ks as [|a ks IH]; [reflexivity|].
  cbn [map dict_get existsb]. rewrite (String.eqb_sym k a).
  destruct (String.eqb_spec a k) as [->|]; [reflexivity|exact IH].
Qed.

(** X2: the parser loses and repeats nothing: the channels of all
    layers together are the channels of the enumeration, each with its
    key, up to order; the layer names are distinct; and a layer is never
    empty: it is stored under its name with channels that all belong to
    it. *)
Theorem group_layers_partition (sourceChannels : list string) :
  Permutation (all_channels (group_layers sourceChannels))
              (map (fun c => (key_of c, c)) sourceChannels)
  /\ List.NoDup (dict_keys (group_layers sourceChannels))
  /\ forall layer_name channels,
       In (layer_name, channels) (group_layers sourceChannels) ->
       channels <> []
       /\ dict_get layer_name (group_layers sourceChannels) = Some channels
       /\ Forall (fun kc : channel =>
                    layer_name_of (snd kc) = layer_name /\ fst kc = key_of (snd kc))
                 channels.
Proof.
  rewrite group_layers_spec. unfold spec_group_layers.
  fold (tabulate (fun L => channels_of L sourceChannels)
                 (first_seen (map layer_name_of sourceChannels))).
  split; [|split].
  - unfold all_channels, tabulate. rewrite map_map. cbn [snd].
    unfold channels_of.
    rewrite <- (map_map (fun L => List.filter
                                    (fun c => String.eqb (layer_name_of c) L)
                                    sourceChannels)
                        (map (fun c => (key_of c, c)))).
    rewrite <- concat_map. apply Permutation_map.
    rewrite layers_cover_perm by apply first_seen_nodup.
    rewrite filter_all; [reflexivity|].
    intros c Hc. rewrite mem_first_seen. apply mem_true_In.
    now apply in_map.
  - rewrite dict_keys_tabulate. apply first_seen_nodup.
  - intros L chans Hin. unfold tabulate in Hin. apply in_map_iff in Hin
      as (L' & [= -> <-] & HL).
    apply mem_true_In in HL.
    fold (tabulate (fun L => channels_of L sourceChannels)
                   (first_seen (map layer_name_of sourceChannels))).
    rewrite dict_get_tabulate, HL. split; [|split; [reflexivity|]].
    + rewrite mem_first_seen in HL. apply mem_true_In, in_map_iff in HL
        as (c & Hc & Hin).
      unfold channels_of. intros Hnil.
      assert (Hf : In c (List.filter
                           (fun c => String.eqb (layer_name_of c) L) sourceChannels)).
      { apply List.filter_In. split; [exact Hin|]. now apply String.eqb_eq. }
      destruct (List.filter _ sourceChannels); [contradiction|discriminate].
    + unfold channels_of. apply List.Forall_forall. intros kc Hkc.
      apply in_map_iff in Hkc as (c & <- & Hc).
      apply List.filter_In in Hc as [_ Hc]. apply String.eqb_eq in Hc. auto.
Qed.

(** ** Options and their defaults *)

Lemma init_options_lookup c (options : options_t) k :
  init_options c options !! k
  = match options !! k with
    | Some v => Some v
    | None => default_options_dict c !! k
    end.
Proof.
  unfold init_options, default_options_dict.
  generalize (default_options c). intros l. revert options.
  induction l as [|[a d] l IH]; intros options; cbn [fold_left fst snd].
  - cbn [list_to_map foldr]. rewrite lookup_empty. now destruct (options !! k).
  - rewrite IH. cbn [list_to_map foldr]. cbn [uncurry fst snd Datatypes.uncurry].
    destruct (decide (a = k)) as [->|Hne].
    + destruct (options !! k) as [v|] eqn:E; [now rewrite E|].
      now rewrite !lookup_insert_eq.
    + rewrite (lookup_insert_ne (list_to_map l)) by assumption.
      destruct (options !! a); [reflexivity|].
      now rewrite lookup_insert_ne.
Qed.

(** X3: for a key of the defaults of a plugin class, [get_or_default]
    on the caller's dict gives what the dict holds under the key after
    the constructor has run: the caller's value, or else the default.
    For any other key [get_or_default] raises KeyError, also when the
    caller's dict has the key, while the constructor leaves the entry
    as it is. *)
Theorem get_or_default_init (c : plugin_class) (options : options_t) (key : string) :
  match default_options_dict c !! key with
  | Some d =>
      get_or_default key options (default_options_dict c)
      = Return (default d (options !! key))
      /\ init_options c options !! key = Some (default d (options !! key))
  | None =>
      get_or_default key options (default_options_dict c) = Raise KeyError
      /\ init_options c options !! key = options !! key
  end.
Proof.
  unfold get_or_default. rewrite init_options_lookup.
  destruct (default_options_dict c !! key) as [d|]; split; try reflexivity;
    now destruct (options !! key).
Qed.

Lemma default_options_dict_In c k d :
  In (k, d) (default_options c) <-> default_options_dict c !! k = Some d.
Proof.
  unfold default_options_dict. rewrite <- list_elem_of_In.
  apply elem_of_list_to_map.
  destruct c; cbn [default_options]; apply (bool_decide_unpack _); vm_compute;
    exact I.
Qed.

Lemma default_options_agree c c' k d d' :
  In (k, d) (default_options c) -> In (k, d') (default_options c') -> d = d'.
Proof.
  destruct c, c'; cbn; intros H H'; intuition congruence.
Qed.

Lemma fold_init_options_lookup pcs : forall (options : options_t) k,
  fold_left (fun o c => init_options c o) pcs options !! k
  = match options !! k with
    | Some v => Some v
    | None =>
        match List.find (fun c => bool_decide (is_Some (default_options_dict c !! k)))
                        pcs with
        | Some c => default_options_dict c !! k
        | None => None
        end
    end.
Proof.
  induction pcs as [|c pcs IH]; intros options k; cbn [fold_left List.find].
  - now destruct (options !! k).
  - rewrite IH, init_options_lookup.
    destruct (options !! k) as [v|]; [reflexivity|].
    case_bool_decide as Hc.
    + destruct Hc as [d Hd]. now rewrite Hd.
    + destruct (default_options_dict c !! k) as [d|] eqn:Hd; [|reflexivity].
      exfalso. apply Hc. eauto.
Qed.

(** X4: the constructors of the plugins fill the one options dict of
    the operation: an entry of the caller stays as it is, every default
    of every class in the list the caller left out is added, and nothing
    else; every instance holds the filled dict, its class in the order
    of the list, with no matte node made yet. *)
Theorem make_plugins_options (plugin_classes : list plugin_class)
    (exr_filename' : string) (loader' : tool) (layers' : layers_t)
    (options' : options_t) :
  let plugins := fst (make_plugins plugin_classes exr_filename' loader' layers' options') in
  let filled := snd (make_plugins plugin_classes exr_filename' loader' layers' options') in
  (forall k v, options' !! k = Some v -> filled !! k = Some v)
  /\ (forall c k d,
        In c plugin_classes -> In (k, d) (default_options c) ->
        filled !! k = Some (default d (options' !! k)))
  /\ (forall k,
        options' !! k = None ->
        (forall c, In c plugin_classes -> default_options_dict c !! k = None) ->
        filled !! k = None)
  /\ map cls plugins = plugin_classes
  /\ Forall (fun p => options p = filled /\ made_crypto p = false
                      /\ exr_filename p = exr_filename' /\ loader p = loader'
                      /\ layers p = layers') plugins.
Proof.
  unfold make_plugins. cbn [fst snd]. split; [|split; [|split; [|split]]].
  - intros k v Hk. now rewrite fold_init_options_lookup, Hk.
  - intros c k d Hc Hd. rewrite fold_init_options_lookup.
    destruct (options' !! k) as [v|]; [reflexivity|]. cbn [default from_option id].
    destruct (List.find _ plugin_classes) as [c'|] eqn:Hfind.
    + apply List.find_some in Hfind as [_ Hsome].
      apply bool_decide_eq_true in Hsome as [d' Hd'].
      rewrite Hd'. f_equal. apply default_options_dict_In in Hd'.
      exact (default_options_agree c' c k d' d Hd' Hd).
    + exfalso. apply (List.find_none _ _ Hfind) in Hc.
      apply bool_decide_eq_false in Hc. apply Hc.
      apply default_options_dict_In in Hd. eauto.
  - intros k Hk Hnone. rewrite fold_init_options_lookup, Hk.
    destruct (List.find _ plugin_classes) as [c|] eqn:Hfind; [|reflexivity].
    apply List.find_some in Hfind as [Hin _]. now apply Hnone.
  - rewrite map_map. cbn [cls]. apply map_id.
  - apply List.Forall_forall. intros p Hp. apply in_map_iff in Hp as (c & <- & _).
    cbn. auto.
Qed.

(** ** The default plugin in closed form *)

Lemma alter_new {A} (f : A -> A) (l : list A) (d : A) :
  alter f (length l) (l ++ [d]) = l ++ [f d].
Proof.
  induction l as [|a l IH]; [reflexivity|]. cbn. f_equal. exact IH.
Qed.

Lemma bind_channels_data new_loader (channels : list channel) : forall w l d,
  tools w = l ++ [d] -> new_loader = length l ->
  tools (snd (for_each channels (bind_channel new_loader) w))
  = l ++ [fold_left bind_data channels d].
Proof.
  induction channels as [|c channels IH]; intros w l d Hw Hn; [exact Hw|].
  rewrite for_each_cons, bind_channel_eq. cbn [fold_left]. apply IH; [|exact Hn].
  unfold bind_data. destruct (dict_get (fst c) channel_mappings) as [m|].
  - cbn [tools set_tools]. rewrite Hw, Hn. apply alter_new.
  - exact Hw.
Qed.

Lemma tool_data_snoc_other (w : World) l d t :
  tools w = l ++ [d] -> t <> length l ->
  tool_data w t = default blank_tool (l !! t).
Proof.
  intros Hw Hne. unfold tool_data. rewrite Hw.
  destruct (decide (t < length l)) as [Hlt|Hge].
  - now rewrite lookup_app_l.
  - rewrite (lookup_ge_None_2 l) by lia.
    rewrite lookup_ge_None_2; [reflexivity|]. rewrite length_app. cbn. lia.
Qed.

Lemma tool_data_snoc_new (w : World) l d :
  tools w = l ++ [d] -> tool_data w (length l) = d.
Proof.
  intros Hw. unfold tool_data. rewrite Hw, lookup_app_r, Nat.sub_diag by lia.
  reflexivity.
Qed.

Lemma plain_fold_bind_data (channels : list channel) d :
  plain (fold_left bind_data channels d) = plain d.
Proof.
  revert d. induction channels as [|c channels IH]; intros d; [reflexivity|].
  cbn [fold_left]. rewrite IH. unfold bind_data.
  now destruct (dict_get (fst c) channel_mappings).
Qed.

Lemma read_GlobalIn (w w2 : World) d t :
  tools w2 = tools w ++ [d] -> GlobalIn d = 0%Z ->
  GlobalIn (tool_data w2 t) = GlobalIn (tool_data w t).
Proof.
  intros Hw2 Hin. destruct (decide (t = length (tools w))) as [->|Hne].
  - rewrite (tool_data_snoc_new w2 _ d Hw2), Hin.
    unfold tool_data. now rewrite lookup_ge_None_2 by lia.
  - now rewrite (tool_data_snoc_other w2 _ d t Hw2 Hne).
Qed.

Lemma read_GlobalOut (w w2 : World) d t :
  tools w2 = tools w ++ [d] -> GlobalOut d = 0%Z ->
  GlobalOut (tool_data w2 t) = GlobalOut (tool_data w t).
Proof.
  intros Hw2 Hout. destruct (decide (t = length (tools w))) as [->|Hne].
  - rewrite (tool_data_snoc_new w2 _ d Hw2), Hout.
    unfold tool_data. now rewrite lookup_ge_None_2 by lia.
  - now rewrite (tool_data_snoc_other w2 _ d t Hw2 Hne).
Qed.

(** The default plugin with the fallback disabled, in one equation. *)
Lemma DefaultPlugin_closed_form self layer_name (channels : list channel) w :
  options self !! "alpha_fallback" = Some false ->
  fst (DefaultPlugin_process_layer self layer_name channels w)
  = Return (PyTool (length (tools w)), self)
  /\ tools (snd (DefaultPlugin_process_layer self layer_name channels w))
     = tools w
       ++ [default_loader_data (exr_filename self) layer_name channels
             (GlobalIn (tool_data w (loader self)))
             (GlobalOut (tool_data w (loader self)))]
  /\ calls (snd (DefaultPlugin_process_layer self layer_name channels w))
     = calls w ++ [Loader (exr_filename self) (length (tools w))]
  /\ media (snd (DefaultPlugin_process_layer self layer_name channels w)) = media w.
Proof.
  intros Hopt. split; [now rewrite DefaultPlugin_outcome, Hopt|].
  rewrite DefaultPlugin_process_layer_eq. cbv zeta. rewrite bind_eq.
  match goal with |- context [for_each _ _ ?w1] =>
    pose proof (bind_channels_data (length (tools w)) channels w1 (tools w)
                  (reset_loader_data (exr_filename self))) as Hd;
    destruct (bind_channels_spec (length (tools w)) channels w1)
      as (Hr & _ & _ & Hc & Hm & _);
    destruct (for_each channels (bind_channel (length (tools w))) w1)
      as [[[]|e] w2]; [|discriminate]
  end.
  cbn [snd] in Hd, Hc, Hm.
  set (d := fold_left bind_data channels (reset_loader_data (exr_filename self))) in *.
  assert (Hw2 : tools w2 = tools w ++ [d]).
  { apply Hd; [|reflexivity]. cbn [tools set_tools add_call add_log].
    rewrite !alter_new. reflexivity. }
  clear Hd.
  assert (Hplain : plain d = plain (reset_loader_data (exr_filename self)))
    by apply plain_fold_bind_data.
  unfold plain in Hplain. injection Hplain as _ _ _ _ _ Hgi Hgo _ _ _.
  cbn in Hgi, Hgo.
  unfold getitem. rewrite Hopt.
  cbv [mbind M_bind mret M_ret gets update_tool set_tool_name modify snd].
  cbn [tools calls media set_tools add_call add_log].
  split; [|split; [rewrite Hc; reflexivity|rewrite Hm; reflexivity]].
  rewrite (read_GlobalIn w w2 d (loader self) Hw2 Hgi).
  match goal with |- context [GlobalOut (tool_data ?w3 _)] =>
    rewrite (read_GlobalOut w w3
               (with_GlobalIn (GlobalIn (tool_data w (loader self))) d)
               (loader self))
  end; [|cbn [tools set_tools]; now rewrite Hw2, alter_new|exact Hgo].
  now rewrite Hw2, !alter_new.
Qed.

Lemma fold_bind_data_slot (channels : list channel) : forall d slot,
  OpenEXRFormat (fold_left bind_data channels d) !! slot
  = match last (slot_channels slot channels) with
    | Some raw => Some raw
    | None => OpenEXRFormat d !! slot
    end.
Proof.
  induction channels as [|c channels IH]; intros d slot; [reflexivity|].
  cbn [fold_left]. rewrite IH. unfold slot_channels, bind_data.
  cbn [List.filter].
  destruct (dict_get (fst c) channel_mappings) as [m|]; [|reflexivity].
  destruct (String.eqb_spec m slot) as [->|Hne].
  - cbn [map]. rewrite last_cons.
    destruct (last (map snd _)); [reflexivity|].
    cbn. apply lookup_insert_eq.
  - destruct (last (map snd _)); [reflexivity|].
    cbn. now apply lookup_insert_ne.
Qed.

Lemma reset_loader_slots clip slot :
  OpenEXRFormat (reset_loader_data clip) !! slot
  = if mem slot slot_names then Some CHANNEL_NO_MATCH else None.
Proof.
  unfold reset_loader_data, slot_names, mem. cbn [existsb].
  cbn [OpenEXRFormat with_control new_tool_data].
  repeat match goal with
         | |- context [String.eqb slot ?s] =>
             destruct (String.eqb_spec slot s) as [->|?];
             [vm_compute; reflexivity|rewrite lookup_insert_ne by congruence]
         end.
  cbn. apply lookup_empty.
Qed.

Lemma no_depth_mapping k m :
  dict_get k channel_mappings = Some m -> m <> "ZName".
Proof.
  unfold channel_mappings. cbn [dict_get].
  repeat match goal with
         | |- context [String.eqb ?a k] =>
             destruct (String.eqb a k); [intros [= <-]; discriminate|]
         end.
  discriminate.
Qed.

Lemma slot_channels_depth (channels : list channel) :
  slot_channels "ZName" channels = [].
Proof.
  unfold slot_channels. induction channels as [|c channels IH]; [reflexivity|].
  cbn [List.filter].
  destruct (dict_get (fst c) channel_mappings) as [m|] eqn:E; [|exact IH].
  apply no_depth_mapping in E.
  destruct (String.eqb_spec m "ZName"); [contradiction|exact IH].
Qed.

(** The records of [process_layer]: the loader is announced and each
    unknown channel reported, whatever the options. *)
Lemma DefaultPlugin_log self layer_name (channels : list channel) w :
  log (snd (DefaultPlugin_process_layer self layer_name channels w))
  = log w
    ++ {| levelname := INFO; msg := "Creating new loader for layer: %s";
          args := [LStr layer_name] |}
       :: map unknown_channel_record
              (List.filter (fun c => negb (known_channel c)) channels).
Proof.
  rewrite DefaultPlugin_process_layer_eq. cbv zeta. rewrite bind_eq.
  match goal with |- context [for_each _ _ ?w1] =>
    destruct (bind_channels_spec (length (tools w)) channels w1)
      as (Hr & Hl & _);
    destruct (for_each channels (bind_channel (length (tools w))) w1)
      as [[[]|e] w2]; [|discriminate]
  end.
  cbn [snd log set_tools add_call add_log] in Hl.
  rewrite <- app_assoc in Hl. cbn [app] in Hl.
  unfold getitem.
  destruct (options self !! "alpha_fallback") as [[|]|]; exact Hl.
Qed.

Lemma fold_bind_data_known (channels : list channel) : forall d,
  fold_left bind_data (List.filter known_channel channels) d
  = fold_left bind_data channels d.
Proof.
  induction channels as [|c channels IH]; intros d; [reflexivity|].
  cbn [List.filter fold_left]. unfold known_channel at 1, bind_data at 3.
  destruct (dict_get (fst c) channel_mappings) as [m|] eqn:E.
  - cbn [fold_left]. unfold bind_data at 2. rewrite E. apply IH.
  - apply IH.
Qed.

(** C9: in the default plugin a channel whose key is not in the
    mapping table is logged at error level and skipped, and the
    remaining channels of the layer are processed: after the record
    that announces the loader, [process_layer] logs one error per
    unknown channel, in the order of the channels, and nothing else;
    whether it returns or raises does not depend on the unknown
    channels, and the tools it leaves are those the known channels
    alone would leave.  With the alpha fallback disabled it returns the
    new loader, made by one call of comp.Loader, on which every known
    channel is bound, in order, and no unknown one. *)
Theorem default_unknown_channels (self : plugin) (layer_name : string)
    (channels : list channel) (w : World) :
  let r := DefaultPlugin_process_layer self layer_name channels w in
  let known := List.filter known_channel channels in
  let unknown := List.filter (fun c => negb (known_channel c)) channels in
  log (snd r)
  = log w
    ++ {| levelname := INFO; msg := "Creating new loader for layer: %s";
          args := [LStr layer_name] |}
       :: map (fun c => {| levelname := ERROR;
                           msg := "Unknown channel: " ++ fst c;
                           args := [] |}) unknown
  /\ fst r = fst (DefaultPlugin_process_layer self layer_name known w)
  /\ tools (snd r)
     = tools (snd (DefaultPlugin_process_layer self layer_name known w))
  /\ (options self !! "alpha_fallback" = Some false ->
      fst r = Return (PyTool (length (tools w)), self)
      /\ tools (snd r)
         = tools w
           ++ [with_name layer_name
                 (with_GlobalOut (GlobalOut (tool_data w (loader self)))
                    (with_GlobalIn (GlobalIn (tool_data w (loader self)))
                       (fold_left
                          (fun d c =>
                             match dict_get (fst c) channel_mappings with
                             | Some mapping => with_control mapping (snd c) d
                             | None => d
                             end)
                          known (reset_loader_data (exr_filename self)))))]
      /\ calls (snd r)
         = calls w ++ [Loader (exr_filename self) (length (tools w))]).
Proof.
  cbv zeta. split; [apply DefaultPlugin_log|].
  split; [now rewrite !DefaultPlugin_outcome|].
  split; [apply DefaultPlugin_tools_known|].
  intros Hopt.
  destruct (DefaultPlugin_closed_form self layer_name channels w Hopt)
    as (Hr & Ht & Hc & _).
  split; [exact Hr|]. split; [|exact Hc].
  rewrite Ht. unfold default_loader_data.
  now rewrite <- (fold_bind_data_known channels).
Qed.

Lemma default_unknown_channels_witness :
  let self := demo_plugin DefaultPlugin {[ "alpha_fallback" := false ]} in
  let r := DefaultPlugin_process_layer self "diffuse"
             [("r", "diffuse.R"); ("q", "diffuse.Q"); ("g", "diffuse.G")]
             (demo_world "/shots/beauty.exr") in
  log (snd r)
  = [{| levelname := INFO; msg := "Creating new loader for layer: %s";
        args := [LStr "diffuse"] |};
     {| levelname := ERROR; msg := "Unknown channel: q"; args := [] |}]
  /\ fst r = Return (PyTool 1, self)
  /\ map (fun d => (TOOLS_Name d, OpenEXRFormat d !! "RedName",
                    OpenEXRFormat d !! "GreenName", OpenEXRFormat d !! "BlueName"))
         (tools (snd r))
     = [("Loader1", None, None, None);
        ("diffuse", Some "diffuse.R", Some "diffuse.G", Some CHANNEL_NO_MATCH)].
Proof.
  cbv zeta.
  destruct (default_unknown_channels
              (demo_plugin DefaultPlugin {[ "alpha_fallback" := false ]}) "diffuse"
              [("r", "diffuse.R"); ("q", "diffuse.Q"); ("g", "diffuse.G")]
              (demo_world "/shots/beauty.exr")) as (Hl & _ & _ & Hret).
  destruct (Hret eq_refl) as (Hr & Ht & _).
  split; [rewrite Hl; reflexivity|]. split; [exact Hr|].
  rewrite Ht. vm_compute. reflexivity.
Defined.

(** X5: with the alpha fallback disabled the default plugin returns a
    new loader and changes no other tool: the tools afterwards are the
    tools before and the new loader, made by one call of comp.Loader on
    the file of the plugin, named after the layer, with the frame range
    of the originating loader. *)
Theorem default_new_loader (self : plugin) (layer_name : string)
    (channels : list channel) (w : World) :
  options self !! "alpha_fallback" = Some false ->
  exists d : ToolData,
    DefaultPlugin_process_layer self layer_name channels w
    = (Return (PyTool (length (tools w)), self),
       snd (DefaultPlugin_process_layer self layer_name channels w))
    /\ tools (snd (DefaultPlugin_process_layer self layer_name channels w))
       = tools w ++ [d]
    /\ calls (snd (DefaultPlugin_process_layer self layer_name channels w))
       = calls w ++ [Loader (exr_filename self) (length (tools w))]
    /\ TOOLS_RegID d = "Loader"
    /\ TOOLST_Clip_Name d = exr_filename self
    /\ TOOLS_Name d = layer_name /\ TOOLB_NameSet d = true
    /\ GlobalIn d = GlobalIn (tool_data w (loader self))
    /\ GlobalOut d = GlobalOut (tool_data w (loader self))
    /\ Input d = None.
Proof.
  intros Hopt.
  destruct (DefaultPlugin_closed_form self layer_name channels w Hopt)
    as (Hr & Ht & Hc & _).
  eexists. split; [now apply pair_of_fst|]. split; [exact Ht|]. split; [exact Hc|].
  unfold default_loader_data.
  pose proof (plain_fold_bind_data channels (reset_loader_data (exr_filename self)))
    as Hp.
  unfold plain in Hp. injection Hp as Hid _ _ _ Hclip _ _ _ Hinput _.
  cbn [TOOLS_RegID TOOLST_Clip_Name TOOLS_Name TOOLB_NameSet GlobalIn GlobalOut
       Input with_name with_GlobalOut with_GlobalIn].
  rewrite Hid, Hclip, Hinput. repeat split; reflexivity.
Qed.

Lemma default_new_loader_witness :
  TOOLS_Name
    (tool_data
       (snd (DefaultPlugin_process_layer
               (demo_plugin DefaultPlugin {[ "alpha_fallback" := false ]}) "diffuse"
               [("r", "diffuse.R")] (demo_world "/shots/beauty.exr"))) 1)
  = "diffuse"
  /\ GlobalOut
       (tool_data
          (snd (DefaultPlugin_process_layer
                  (demo_plugin DefaultPlugin {[ "alpha_fallback" := false ]}) "diffuse"
                  [("r", "diffuse.R")] (demo_world "/shots/beauty.exr"))) 1)
     = 100%Z.
Proof.
  assert (Hopt : options (demo_plugin DefaultPlugin {[ "alpha_fallback" := false ]})
                 !! "alpha_fallback" = Some false) by reflexivity.
  destruct (default_new_loader
              (demo_plugin DefaultPlugin {[ "alpha_fallback" := false ]}) "diffuse"
              [("r", "diffuse.R")] (demo_world "/shots/beauty.exr") Hopt)
    as (d & _ & Ht & _ & _ & _ & Hname & _ & _ & Hout & _).
  pose proof (tool_data_snoc_new _ _ d Ht) as Hd.
  change (length (tools (demo_world "/shots/beauty.exr"))) with 1 in Hd.
  rewrite Hd. split; [exact Hname|exact Hout].
Defined.

(** X6: with the alpha fallback disabled, each of the five slots of
    the new loader holds the raw name of the last channel of the layer
    whose key the table maps to the slot, and the sentinel if there is
    none; the depth slot always holds the sentinel, as no key is mapped
    to it (z goes to the blue slot); no other control is set. *)
Theorem default_slots (self : plugin) (layer_name : string)
    (channels : list channel) (w : World) :
  options self !! "alpha_fallback" = Some false ->
  let fmt :=
    OpenEXRFormat
      (tool_data (snd (DefaultPlugin_process_layer self layer_name channels w))
                 (length (tools w))) in
  (forall slot,
      fmt !! slot
      = if mem slot slot_names
        then Some (default CHANNEL_NO_MATCH (last (slot_channels slot channels)))
        else None)
  /\ fmt !! "ZName" = Some CHANNEL_NO_MATCH.
Proof.
  intros Hopt fmt.
  destruct (DefaultPlugin_closed_form self layer_name channels w Hopt)
    as (_ & Ht & _).
  assert (Hslot : forall slot,
      fmt !! slot
      = match last (slot_channels slot channels) with
        | Some raw => Some raw
        | None => if mem slot slot_names then Some CHANNEL_NO_MATCH else None
        end).
  { intros slot. subst fmt. rewrite (tool_data_snoc_new _ _ _ Ht).
    unfold default_loader_data.
    cbn [OpenEXRFormat with_name with_GlobalOut with_GlobalIn].
    now rewrite fold_bind_data_slot, reset_loader_slots. }
  split.
  - intros slot. rewrite Hslot.
    destruct (last (slot_channels slot channels)) as [raw|] eqn:E;
      [|now destruct (mem slot slot_names)].
    assert (Hin : mem slot slot_names = true); [|now rewrite Hin].
    apply last_Some in E as (l' & E). unfold slot_channels in E.
    assert (Hraw : In raw (map snd (List.filter
                     (fun c : channel =>
                        match dict_get (fst c) channel_mappings with
                        | Some mapping => String.eqb mapping slot
                        | None => false
                        end) channels))).
    { rewrite E. apply in_or_app. right. now left. }
    apply in_map_iff in Hraw as (c & _ & Hc).
    apply List.filter_In in Hc as [_ Hc].
    destruct (dict_get (fst c) channel_mappings) as [m|] eqn:Em; [|discriminate].
    apply String.eqb_eq in Hc. subst m. revert Em. unfold channel_mappings.
    cbn [dict_get].
    repeat match goal with
           | |- context [String.eqb ?a (fst c)] =>
               destruct (String.eqb a (fst c)); [intros [= <-]; reflexivity|]
           end.
    discriminate.
  - rewrite Hslot, slot_channels_depth. reflexivity.
Qed.

Lemma default_slots_witness :
  OpenEXRFormat
    (tool_data
       (snd (DefaultPlugin_process_layer
               (demo_plugin DefaultPlugin {[ "alpha_fallback" := false ]}) "P"
               [("r", "P.R"); ("x", "P.X"); ("z", "P.Z")]
               (demo_world "/shots/beauty.exr"))) 1) !! "RedName"
  = Some "P.X"
  /\ OpenEXRFormat
       (tool_data
          (snd (DefaultPlugin_process_layer
                  (demo_plugin DefaultPlugin {[ "alpha_fallback" := false ]}) "P"
                  [("r", "P.R"); ("x", "P.X"); ("z", "P.Z")]
                  (demo_world "/shots/beauty.exr"))) 1) !! "ZName"
     = Some CHANNEL_NO_MATCH.
Proof.
  assert (Hopt : options (demo_plugin DefaultPlugin {[ "alpha_fallback" := false ]})
                 !! "alpha_fallback" = Some false) by reflexivity.
  destruct (default_slots
              (demo_plugin DefaultPlugin {[ "alpha_fallback" := false ]}) "P"
              [("r", "P.R"); ("x", "P.X"); ("z", "P.Z")]
              (demo_world "/shots/beauty.exr") Hopt) as [Hslot Hdepth].
  split; [exact (Hslot "RedName")|exact Hdepth].
Defined.

(** ** The auxiliary-pass plugin in closed form *)

Lemma fold_left_ext_simple {A B} (f g : A -> B -> A) (l : list B) (a : A) :
  (forall a b, f a b = g a b) -> fold_left f l a = fold_left g l a.
Proof.
  intros E. revert a. induction l as [|b l IH]; intros a; [reflexivity|].
  cbn. now rewrite E, IH.
Qed.

#[global] Instance format_only_preorder l : PreOrder (format_only l).
Proof.
  split.
  - intros w. now split.
  - intros w1 w2 w3 [Hc1 Hm1 Hl1 Hp1 Ho1] [Hc2 Hm2 Hl2 Hp2 Ho2]. split.
    + congruence.
    + congruence.
    + congruence.
    + intros t. now rewrite Hp2.
    + intros t Ht. now rewrite Ho2, Ho1.
Qed.

Lemma format_only_logger l lv m a : preserves (format_only l) (logger lv m a).
Proof. intros w. now split. Qed.

Lemma format_only_update_tool l k v :
  preserves (format_only l) (update_tool l (with_control k v)).
Proof.
  intros w. split; cbn.
  - reflexivity.
  - reflexivity.
  - apply length_alter.
  - intros t. rewrite tool_data_alter. case_decide as E; [|reflexivity].
    subst t. unfold tool_data. now destruct (tools w !! l).
  - intros t Ht. rewrite tool_data_alter. now rewrite decide_False by congruence.
Qed.

#[global] Hint Resolve format_only_logger format_only_update_tool : pres.

Lemma format_only_vray_channel self mn m ln c :
  preserves (format_only (loader self)) (vray_channel self mn m ln c).
Proof. destruct c. unfold vray_channel, vray_axis. pres. Qed.

#[global] Hint Resolve format_only_vray_channel : pres.

Lemma format_only_VrayPlugin self ln ch :
  preserves (format_only (loader self)) (VrayPlugin_process_layer self ln ch).
Proof. unfold VrayPlugin_process_layer. pres. Qed.

Lemma VrayPlugin_bool self ln ch w v p' :
  fst (VrayPlugin_process_layer self ln ch w) = Return (v, p') ->
  exists b, v = PyBool b.
Proof.
  unfold VrayPlugin_process_layer, getitem.
  destruct (options self !! "use_aux_channels") as [[|]|];
    rewrite bind_eq; cbn [mret M_ret raise negb fst].
  - rewrite bind_eq. unfold logger_info at 1, logger. cbn [modify].
    destruct (List.find _ _) as [mn|];
      [|cbn [mret M_ret fst]; intros [= <- _]; eauto].
    destruct (dict_get mn layer_name_mappings) as [m|];
      [|cbn [raise fst]; congruence].
    rewrite bind_eq.
    destruct (for_each ch _ _) as [[[]|e] w2]; cbn [mret M_ret fst];
      [intros [= <- _]; eauto|congruence].
  - intros [= <- _]. eauto.
  - congruence.
Qed.

(** X7: whatever the layer and the options, the auxiliary-pass plugin
    creates no node and calls nothing on the composition: it changes
    at most the controls of the format of its own loader, and what it
    returns is a boolean, never a tool, with the plugin unchanged. *)
Theorem vray_only_format (self : plugin) (layer_name : string)
    (channels : list channel) (w : World) :
  format_only (loader self) w
    (snd (VrayPlugin_process_layer self layer_name channels w))
  /\ forall v p',
       fst (VrayPlugin_process_layer self layer_name channels w) = Return (v, p') ->
       p' = self /\ exists b, v = PyBool b.
Proof.
  split; [apply format_only_VrayPlugin|].
  intros v p' Hr. split; [eapply VrayPlugin_self|eapply VrayPlugin_bool]; exact Hr.
Qed.

Lemma vray_channel_at self mn mapping layer_name c (flip : bool) w :
  (mn = "pos" -> options self !! "flip_worldpos_axis" = Some flip) ->
  fst (vray_channel self mn mapping layer_name c w) = Return tt
  /\ tools (snd (vray_channel self mn mapping layer_name c w))
     = vray_write_at flip mn mapping (loader self) (tools w) c.
Proof.
  intros Hflip. destruct c as [chan raw].
  unfold vray_channel, vray_axis, vray_write_at, vray_fusion_name, getitem.
  cbn [fst snd].
  generalize (default chan (dict_get chan pos_remappings)). intros axis.
  destruct (String.eqb_spec mn "pos") as [E|_]; [|split; reflexivity].
  rewrite (Hflip E). cbn [andb].
  destruct flip; [destruct (String.eqb axis "z"); [|destruct (String.eqb axis "y")]|];
    split; reflexivity.
Qed.

Lemma vray_channels_at self mn mapping layer_name (flip : bool) channels : forall w,
  (mn = "pos" -> options self !! "flip_worldpos_axis" = Some flip) ->
  fst (for_each channels (vray_channel self mn mapping layer_name) w) = Return tt
  /\ tools (snd (for_each channels (vray_channel self mn mapping layer_name) w))
     = fold_left (vray_write_at flip mn mapping (loader self)) channels (tools w).
Proof.
  induction channels as [|c channels IH]; intros w Hflip; [split; reflexivity|].
  cbn [for_each fold_left]. rewrite bind_eq.
  destruct (vray_channel_at self mn mapping layer_name c flip w Hflip) as [Hr Ht].
  destruct (vray_channel self mn mapping layer_name c w) as [[[]|e] w1];
    [|discriminate].
  cbn [snd] in Ht. rewrite <- Ht. now apply IH.
Qed.

Lemma mapping_name_of_mapping ln mn :
  mapping_name_of ln = Some mn ->
  exists mapping,
    dict_get mn layer_name_mappings = Some mapping
    /\ In (mn, mapping) layer_name_mappings.
Proof.
  unfold mapping_name_of. cbn [dict_keys layer_name_mappings map fst List.find].
  destruct (Py.contains "normal" (Py.lower ln)); [intros [= <-]; eexists; split; [reflexivity|cbn; auto]|].
  destruct (Py.contains "pos" (Py.lower ln)); [intros [= <-]; eexists; split; [reflexivity|cbn; auto]|].
  destruct (Py.contains "vel" (Py.lower ln)); [intros [= <-]; eexists; split; [reflexivity|cbn; auto 6]|].
  discriminate.
Qed.

(** X8: with both options of the auxiliary-pass plugin set, the plugin
    takes a layer exactly when auxiliary channels are enabled and the
    lower-cased layer name contains one of the keywords normal, pos and
    vel; it never raises.  A layer it takes is written channel by
    channel to the controls of the attribute group of the first keyword
    found, in that order of the keywords; a layer it does not take
    leaves the tools as they are. *)
Theorem vray_accepts (self : plugin) (layer_name : string)
    (channels : list channel) (use flip : bool) (w : World) :
  options self !! "use_aux_channels" = Some use ->
  options self !! "flip_worldpos_axis" = Some flip ->
  match (if use then mapping_name_of layer_name else None) with
  | Some mn =>
      exists mapping,
        In (mn, mapping) layer_name_mappings
        /\ fst (VrayPlugin_process_layer self layer_name channels w)
           = Return (PyBool true, self)
        /\ tools (snd (VrayPlugin_process_layer self layer_name channels w))
           = fold_left (vray_write_at flip mn mapping (loader self)) channels (tools w)
  | None =>
      fst (VrayPlugin_process_layer self layer_name channels w)
      = Return (PyBool false, self)
      /\ tools (snd (VrayPlugin_process_layer self layer_name channels w)) = tools w
  end.
Proof.
  intros Huse Hflip. unfold VrayPlugin_process_layer, getitem. rewrite Huse.
  rewrite bind_eq. cbn [mret M_ret].
  destruct use; cbn [negb]; [|split; reflexivity].
  rewrite bind_eq. cbn [logger_info logger modify].
  fold (mapping_name_of layer_name).
  destruct (mapping_name_of layer_name) as [mn|] eqn:Hmn; [|split; reflexivity].
  destruct (mapping_name_of_mapping layer_name mn Hmn) as (mapping & Hget & Hin).
  rewrite Hget, bind_eq. exists mapping. split; [exact Hin|].
  match goal with |- context [for_each _ _ ?w1] =>
    destruct (vray_channels_at self mn mapping layer_name flip channels w1
                (fun _ => Hflip)) as [Hr Ht];
    destruct (for_each channels (vray_channel self mn mapping layer_name) w1)
      as [[[]|e] w2]; [|discriminate]
  end.
  split; [reflexivity|exact Ht].
Qed.

Lemma vray_accepts_witness :
  mapping_name_of "VRayNormals_pos" = Some "normal"
  /\ tools (snd (VrayPlugin_process_layer
                   (demo_plugin VrayPlugin (demo_vray_options true))
                   "VRayNormals_pos" [("g", "VRayNormals_pos.G")]
                   (demo_world "/shots/beauty.exr")))
     = [with_control "YNormName" "VRayNormals_pos.G" (demo_loader "/shots/beauty.exr")].
Proof.
  assert (Huse : options (demo_plugin VrayPlugin (demo_vray_options true))
                 !! "use_aux_channels" = Some true) by reflexivity.
  assert (Hflip : options (demo_plugin VrayPlugin (demo_vray_options true))
                  !! "flip_worldpos_axis" = Some true) by reflexivity.
  pose proof (vray_accepts (demo_plugin VrayPlugin (demo_vray_options true))
                "VRayNormals_pos" [("g", "VRayNormals_pos.G")] true true
                (demo_world "/shots/beauty.exr") Huse Hflip) as H.
  split; [reflexivity|].
  change (mapping_name_of "VRayNormals_pos") with (Some "normal") in H.
  cbv iota in H. destruct H as (mapping & Hin & _ & Ht). rewrite Ht.
  destruct Hin as [Hm|[Hm|[Hm|[]]]]; try discriminate Hm.
  injection Hm as <-. vm_compute. reflexivity.
Defined.

(** X9: on a layer matched to the keyword normal or vel the flip
    option is not read: whatever it holds, and also when the options
    lack it, the plugin takes the layer and writes the channel with key
    r, g or b to the control X, Y or Z of the attribute group, and a
    channel with any other key to the control named by the upper-cased
    key. *)
Theorem vray_flip_not_read (self : plugin) (layer_name mn mapping : string)
    (channels : list channel) (w : World) :
  options self !! "use_aux_channels" = Some true ->
  mapping_name_of layer_name = Some mn -> mn <> "pos" ->
  dict_get mn layer_name_mappings = Some mapping ->
  fst (VrayPlugin_process_layer self layer_name channels w)
  = Return (PyBool true, self)
  /\ tools (snd (VrayPlugin_process_layer self layer_name channels w))
     = fold_left
         (fun ts (c : channel) =>
            alter (with_control
                     (Py.upper (default (fst c) (dict_get (fst c) pos_remappings))
                      ++ mapping)%string
                     (snd c))
                  (loader self) ts)
         channels (tools w).
Proof.
  intros Huse Hmn Hne Hget. unfold VrayPlugin_process_layer, getitem. rewrite Huse.
  rewrite bind_eq. cbn [mret M_ret negb]. rewrite bind_eq.
  cbn [logger_info logger modify]. fold (mapping_name_of layer_name).
  rewrite Hmn, Hget, bind_eq.
  match goal with |- context [for_each _ _ ?w1] =>
    destruct (vray_channels_at self mn mapping layer_name false channels w1)
      as [Hr Ht]; [congruence|];
    destruct (for_each channels (vray_channel self mn mapping layer_name) w1)
      as [[[]|e] w2]; [|discriminate]
  end.
  split; [reflexivity|]. etransitivity; [exact Ht|]. cbn [tools add_log].
  apply fold_left_ext_simple. intros ts c. unfold vray_write_at, vray_fusion_name.
  destruct (String.eqb_spec mn "pos"); [contradiction|reflexivity].
Qed.

Lemma vray_flip_not_read_witness :
  tools (snd (VrayPlugin_process_layer
                (demo_plugin VrayPlugin {[ "use_aux_channels" := true ]})
                "Velocity" [("r", "Velocity.R"); ("q", "Velocity.Q")]
                (demo_world "/shots/beauty.exr")))
  = [with_control "QVelName" "Velocity.Q"
       (with_control "XVelName" "Velocity.R" (demo_loader "/shots/beauty.exr"))].
Proof.
  assert (Huse : options (demo_plugin VrayPlugin {[ "use_aux_channels" := true ]})
                 !! "use_aux_channels" = Some true) by reflexivity.
  assert (Hmn : mapping_name_of "Velocity" = Some "vel") by reflexivity.
  assert (Hne : "vel" <> "pos") by discriminate.
  assert (Hget : dict_get "vel" layer_name_mappings = Some "VelName") by reflexivity.
  destruct (vray_flip_not_read
              (demo_plugin VrayPlugin {[ "use_aux_channels" := true ]})
              "Velocity" "vel" "VelName"
              [("r", "Velocity.R"); ("q", "Velocity.Q")]
              (demo_world "/shots/beauty.exr") Huse Hmn Hne Hget) as [_ Ht].
  rewrite Ht. vm_compute. reflexivity.
Defined.

(** ** The multi-part splitter in closed form *)

Lemma tool_data_same_prefix (w w' : World) l t :
  tools w' = tools w ++ l -> t < length (tools w) ->
  tool_data w' t = tool_data w t.
Proof.
  intros Hw Ht. unfold tool_data. now rewrite Hw, lookup_app_l.
Qed.

Lemma new_part_loader_spec t clip name w :
  t < length (tools w) ->
  fst (new_part_loader t clip name w) = Return (length (tools w))
  /\ tools (snd (new_part_loader t clip name w))
     = tools w ++ [part_loader_data clip name (GammaSpace (tool_data w t))
                     (GlobalIn (tool_data w t)) (GlobalOut (tool_data w t))]
  /\ calls (snd (new_part_loader t clip name w))
     = calls w ++ [Loader clip (length (tools w))]
  /\ log (snd (new_part_loader t clip name w)) = log w
  /\ media (snd (new_part_loader t clip name w)) = media w.
Proof.
  intros Ht. unfold new_part_loader.
  cbv [mbind M_bind mret M_ret gets update_tool modify comp_Loader fst snd].
  cbn [tools calls log media set_tools add_call add_log].
  split; [reflexivity|]. split; [|repeat split; reflexivity].
  rewrite !alter_new. unfold part_loader_data.
  assert (Hread : forall (ts : list ToolData) d,
             ts = tools w ++ [d] ->
             forall w1, tools w1 = ts -> tool_data w1 t = tool_data w t).
  { intros ts d -> w1 Hw1. now apply (tool_data_same_prefix w w1 [d]). }
  repeat match goal with
         | |- context [tool_data ?w1 t] =>
             lazymatch w1 with
             | w => fail
             | _ => rewrite (Hread _ _ eq_refl w1)
                      by (cbn [tools set_tools add_call]; now rewrite ?alter_new)
             end
         end.
  reflexivity.
Qed.

Lemma new_part_loaders_spec t clip (names : list string) : forall nt w,
  t < length (tools w) ->
  fst (new_part_loaders t clip names nt w)
  = Return (nt ++ seq (length (tools w)) (length names))
  /\ tools (snd (new_part_loaders t clip names nt w))
     = tools w
       ++ map (fun name =>
                 part_loader_data clip name (GammaSpace (tool_data w t))
                   (GlobalIn (tool_data w t)) (GlobalOut (tool_data w t)))
              names
  /\ calls (snd (new_part_loaders t clip names nt w))
     = calls w ++ imap (fun i _ => Loader clip (length (tools w) + i)) names
  /\ log (snd (new_part_loaders t clip names nt w)) = log w
  /\ media (snd (new_part_loaders t clip names nt w)) = media w.
Proof.
  induction names as [|name names IH]; intros nt w Ht.
  - cbn. rewrite !app_nil_r. auto.
  - cbn [new_part_loaders]. rewrite bind_eq.
    destruct (new_part_loader_spec t clip name w Ht) as (Hr & Htools & Hcalls & Hlog & Hm).
    destruct (new_part_loader t clip name w) as [[n|e] w1]; [|discriminate].
    cbn [fst snd] in *. injection Hr as ->.
    assert (Ht1 : t < length (tools w1))
      by (rewrite Htools, length_app; lia).
    destruct (IH (nt ++ [length (tools w)]) w1 Ht1) as (Hr' & Ht' & Hc' & Hl' & Hm').
    rewrite (tool_data_same_prefix w w1 _ t Htools Ht) in Ht'.
    split; [|split; [|split; [|split]]].
    + rewrite Hr', Htools, length_app. cbn [length seq].
      rewrite <- app_assoc. cbn. repeat f_equal. lia.
    + rewrite Ht', Htools, <- app_assoc. reflexivity.
    + rewrite Hc', Hcalls, Htools, <- app_assoc. cbn [app]. rewrite imap_cons.
      rewrite Nat.add_0_r. do 2 f_equal. apply imap_ext. intros i x _. cbn.
      rewrite length_app. cbn. f_equal. lia.
    + congruence.
    + congruence.
Qed.

Lemma split_multipart_exr_eq t pcs opts w :
  split_multipart_exr t pcs opts w
  = if exr_loader w t
    then match PartIDs (clip_info w t) with
         | Some names =>
             (new_tools ←
                new_part_loaders t (TOOLST_Clip_Name (tool_data w t)) names [];
              mret (Some new_tools)) w
         | None => (Raise AttributeError, w)
         end
    else (Return None, w).
Proof.
  unfold split_multipart_exr. rewrite bind_eq, is_exr_loader_eq.
  destruct (exr_loader w t); [|reflexivity].
  cbn [negb]. rewrite bind_eq. cbn [gets]. rewrite bind_eq. cbn [gets].
  destruct (PartIDs (clip_info w t)); reflexivity.
Qed.

(** X10: for an existing tool that is an EXR loader with a part
    enumeration the multi-part splitter makes one loader per part, in
    the order of the enumeration, and returns them, the tools before
    staying as they are: each new loader is on the file of the
    originating loader, is named after its part and selects it, and has
    the colour space and the frame range of the originating loader;
    nothing is logged.  For an EXR loader without the part control it
    raises AttributeError, and for a tool that is no EXR loader it
    returns None; in both cases it does nothing. *)
Theorem split_multipart_exr_parts (t : tool) (pcs : list plugin_class)
    (opts : options_t) (w : World) :
  t < length (tools w) ->
  if exr_loader w t then
    match PartIDs (clip_info w t) with
    | Some names =>
        let clip := TOOLST_Clip_Name (tool_data w t) in
        fst (split_multipart_exr t pcs opts w)
        = Return (Some (seq (length (tools w)) (length names)))
        /\ tools (snd (split_multipart_exr t pcs opts w))
           = tools w
             ++ map (fun name =>
                       part_loader_data clip name (GammaSpace (tool_data w t))
                         (GlobalIn (tool_data w t)) (GlobalOut (tool_data w t)))
                    names
        /\ calls (snd (split_multipart_exr t pcs opts w))
           = calls w ++ imap (fun i _ => Loader clip (length (tools w) + i)) names
        /\ log (snd (split_multipart_exr t pcs opts w)) = log w
    | None => split_multipart_exr t pcs opts w = (Raise AttributeError, w)
    end
  else split_multipart_exr t pcs opts w = (Return None, w).
Proof.
  intros Ht. rewrite split_multipart_exr_eq.
  destruct (exr_loader w t); [|reflexivity].
  destruct (PartIDs (clip_info w t)) as [names|]; [|reflexivity].
  cbv zeta. rewrite bind_eq.
  destruct (new_part_loaders_spec t (TOOLST_Clip_Name (tool_data w t))
              names [] w Ht)
    as (Hr & Htools & Hcalls & Hlog & _).
  destruct (new_part_loaders t _ _ [] w) as [[nt|e] w1]; [|discriminate].
  cbn [fst snd app mret M_ret] in *. injection Hr as ->.
  split; [reflexivity|]. split; [exact Htools|]. split; [exact Hcalls|exact Hlog].
Qed.

Lemma split_multipart_exr_parts_witness :
  fst (split_multipart_exr 0 [] ∅ (demo_world "/shots/parts.exr"))
  = Return (Some [1; 2])
  /\ map (fun d => (TOOLS_Name d, OpenEXRFormat d !! "Part", GlobalOut d))
         (tools (snd (split_multipart_exr 0 [] ∅ (demo_world "/shots/parts.exr"))))
     = [("Loader1", None, 100%Z); ("beauty", Some "beauty", 100%Z);
        ("specular", Some "specular", 100%Z)]
  /\ split_multipart_exr 0 [] ∅ (demo_world "/shots/beauty.exr")
     = (Raise AttributeError, demo_world "/shots/beauty.exr").
Proof.
  assert (Hvalid : 0 < length (tools (demo_world "/shots/parts.exr")))
    by (cbn; lia).
  pose proof (split_multipart_exr_parts 0 [] ∅ (demo_world "/shots/parts.exr") Hvalid)
    as H.
  change (exr_loader (demo_world "/shots/parts.exr") 0) with true in H.
  change (PartIDs (clip_info (demo_world "/shots/parts.exr") 0))
    with (Some ["beauty"; "specular"]) in H.
  cbv iota zeta in H. destruct H as (Hr & Ht & _).
  assert (Hvalid' : 0 < length (tools (demo_world "/shots/beauty.exr")))
    by (cbn; lia).
  pose proof (split_multipart_exr_parts 0 [] ∅ (demo_world "/shots/beauty.exr") Hvalid')
    as H'.
  change (exr_loader (demo_world "/shots/beauty.exr") 0) with true in H'.
  change (PartIDs (clip_info (demo_world "/shots/beauty.exr") 0))
    with (@None (list string)) in H'.
  cbv iota in H'.
  split; [exact Hr|]. split; [|exact H']. rewrite Ht. vm_compute. reflexivity.
Defined.

(** ** The layout arranger on any list *)

Lemma place_tools_moves ox oy cs (l : list tool) : forall (k : nat) (w : World),
  fst (place_tools ox oy cs 20 (Z.of_nat k) l w) = Return tt
  /\ length (tools (snd (place_tools ox oy cs 20 (Z.of_nat k) l w)))
     = length (tools w)
  /\ log (snd (place_tools ox oy cs 20 (Z.of_nat k) l w)) = log w
  /\ forall t,
       unplaced (tool_data (snd (place_tools ox oy cs 20 (Z.of_nat k) l w)) t)
       = unplaced (tool_data w t)
       /\ (t < length (tools w) ->
           Pos (tool_data (snd (place_tools ox oy cs 20 (Z.of_nat k) l w)) t)
           = match last_index_from k t l with
             | Some i => grid_pos ox oy cs i
             | None => Pos (tool_data w t)
             end).
Proof.
  induction l as [|a l IH]; intros k w.
  - cbn. auto.
  - cbn [place_tools last_index_from]. rewrite bind_eq, flow_SetPos_eq.
    set (w1 := add_call _ _).
    replace (Z.of_nat k + 1)%Z with (Z.of_nat (S k)) by lia.
    destruct (IH (S k) w1) as (Hr & Hlen & Hlog & Hts).
    assert (Hlen1 : length (tools w1) = length (tools w))
      by (subst w1; cbn; apply length_alter).
    split; [exact Hr|]. split; [congruence|]. split; [exact Hlog|].
    intros t. destruct (Hts t) as [Hun Hpos].
    assert (Hd1 : tool_data w1 t
                  = if decide (a = t) then
                      match tools w !! a with
                      | Some d => with_pos (ox + Z.of_nat k / 20 * cs)
                                           (oy + Z.of_nat k mod 20) d
                      | None => blank_tool
                      end
                    else tool_data w t).
    { subst w1. change (tool_data (add_call ?c ?w0) t) with (tool_data w0 t).
      apply tool_data_alter. }
    split.
    + rewrite Hun, Hd1. case_decide as E; [|reflexivity].
      subst t. unfold tool_data. now destruct (tools w !! a).
    + intros Ht. rewrite Hpos by lia.
      destruct (last_index_from (S k) t l); [reflexivity|].
      rewrite Hd1. destruct (Nat.eqb_spec a t) as [->|Hne].
      * rewrite decide_True by reflexivity.
        destruct (lookup_lt_is_Some_2 (tools w) t Ht) as [d ->].
        unfold grid_pos. cbn [Pos with_pos]. f_equal; lia.
      * now rewrite decide_False.
Qed.

(** X11: the arranger changes nothing but positions, and it logs
    nothing: every tool keeps all its other attributes, a tool
    that is not in the list keeps its position, and a tool that is in
    the list, also more than once, ends at the grid place of its last
    index.  Called without origin on an empty list it raises IndexError
    before it does anything. *)
Theorem arrange_tools_table_only_moves (new_tools : list tool)
    (col_spacing max_rows : Z) (origin_tool : option tool) (w : World) :
  match origin_of origin_tool new_tools with
  | None =>
      arrange_tools_table new_tools col_spacing max_rows origin_tool w
      = (Raise IndexError, w)
  | Some origin =>
      let w' := snd (arrange_tools_table new_tools col_spacing max_rows origin_tool w) in
      let ox := fst (Pos (tool_data w origin)) in
      let oy := snd (Pos (tool_data w origin)) in
      fst (arrange_tools_table new_tools col_spacing max_rows origin_tool w)
      = Return tt
      /\ length (tools w') = length (tools w)
      /\ log w' = log w
      /\ forall t,
           unplaced (tool_data w' t) = unplaced (tool_data w t)
           /\ (t < length (tools w) ->
               Pos (tool_data w' t)
               = match last_index_from 0 t new_tools with
                 | Some i => grid_pos ox oy col_spacing i
                 | None => Pos (tool_data w t)
                 end)
  end.
Proof.
  unfold arrange_tools_table, origin_of.
  destruct origin_tool as [o|]; [|destruct new_tools as [|o l]]; try reflexivity;
    rewrite bind_eq; cbn [mret M_ret]; rewrite bind_eq;
    unfold flow_GetPosTable; cbn [gets head];
    destruct (Pos (tool_data w o)) as [x y]; cbn [fst snd];
    apply (place_tools_moves x y col_spacing _ 0 w).
Qed.

Example arrange_tools_table_twice :
  Pos (tool_data (snd (arrange_tools_table [1; 2; 1] 3 20 (Some 0) demo_world_25)) 1)
  = (5, 9)%Z
  /\ arrange_tools_table [] 3 20 None demo_world_25 = (Raise IndexError, demo_world_25).
Proof. split; vm_compute; reflexivity. Qed.

(** ** The nodes a splitting operation returns *)

Lemma CryptomattePlugin_first_tools self ln ch w :
  crypto_layer ln = true -> made_crypto self = false ->
  tools (snd (CryptomattePlugin_process_layer self ln ch w))
  = tools w
    ++ [with_name ("Cryp_" ++ splitext_root (basename (exr_filename self)))%string
          (with_input (loader self) (new_tool_data "Fuse.Cryptomatte" ""))].
Proof.
  intros Hl Hm. unfold CryptomattePlugin_process_layer. fold (crypto_layer ln).
  rewrite Hl. cbn [negb]. rewrite bind_eq. cbn [logger_info logger modify].
  rewrite Hm.
  cbv [mbind M_bind mret M_ret logger_info logger modify comp_AddTool
       update_tool set_tool_name snd].
  cbn [tools set_tools add_call add_log]. now rewrite !alter_new.
Qed.

(** One call of a plugin adds the tool it returns, and no other. *)
Lemma process_layer_size (p : plugin) ln ch w :
  match process_layer p ln ch w with
  | (Return (v, _), w') =>
      length (tools w') = length (tools w) + length (created v)
      /\ (has_GetAttrs v = true -> v = PyTool (length (tools w)))
  | (Raise _, _) => True
  end.
Proof.
  cbn [process_layer plugin_Plugin]. destruct (cls p) eqn:Hcls.
  - exact I.
  - pose proof (DefaultPlugin_outcome p ln ch w) as Ho.
    destruct (options p !! "alpha_fallback") as [[|]|] eqn:Hopt;
      try (destruct (DefaultPlugin_process_layer p ln ch w) as [[[v p']|e] w'];
           [discriminate Ho|exact I]).
    destruct (DefaultPlugin_closed_form p ln ch w Hopt) as (_ & Ht & _).
    destruct (DefaultPlugin_process_layer p ln ch w) as [[[v p']|e] w'];
      [|exact I].
    cbn [fst snd] in *. injection Ho as -> _. rewrite Ht, length_app. cbn. auto.
  - destruct (crypto_layer ln) eqn:Hl.
    + destruct (made_crypto p) eqn:Hm.
      * rewrite CryptomattePlugin_made by assumption. cbn. split; [lia|discriminate].
      * destruct (CryptomattePlugin_first p ln ch w Hl Hm) as (Hr & _).
        pose proof (CryptomattePlugin_first_tools p ln ch w Hl Hm) as Ht.
        destruct (CryptomattePlugin_process_layer p ln ch w) as [[[v p']|e] w'];
          [|exact I].
        cbn [fst snd] in *. injection Hr as -> _. rewrite Ht, length_app. cbn. auto.
    + rewrite CryptomattePlugin_other_layer by assumption. cbn.
      split; [lia|discriminate].
  - pose proof (format_only_VrayPlugin p ln ch w) as Hf.
    pose proof (VrayPlugin_bool p ln ch w) as Hb.
    destruct (VrayPlugin_process_layer p ln ch w) as [[[v p']|e] w']; [|exact I].
    cbn [fst snd] in *. destruct (Hb v p' eq_refl) as [b ->].
    destruct Hf as [_ _ Hlen _ _]. cbn. split; [lia|discriminate].
Qed.

Lemma dispatch_layer_fresh ln ch (plugins : list plugin) : forall nt w,
  match dispatch_layer plugins ln ch nt w with
  | (Return (_, nt'), w') =>
      length (tools w) <= length (tools w')
      /\ nt' = nt ++ seq (length (tools w)) (length (tools w') - length (tools w))
  | (Raise _, _) => True
  end.
Proof.
  induction plugins as [|p rest IH]; intros nt w.
  - cbn. rewrite Nat.sub_diag. cbn. now rewrite app_nil_r.
  - rewrite dispatch_layer_cons.
    pose proof (process_layer_size p ln ch (attempt_logged p ln w)) as Hs.
    destruct (process_layer p ln ch (attempt_logged p ln w)) as [[[v p']|e] w1];
      [|exact I].
    destruct Hs as [Hlen Htool]. cbn [tools attempt_logged add_log] in Hlen, Htool.
    destruct (truthy v) eqn:Htruthy.
    + assert (Hacc : tools (accepted_logged p' ln v w1) = tools w1)
        by (unfold accepted_logged; now destruct (has_GetAttrs v)).
      rewrite Hacc. split; [lia|].
      destruct (has_GetAttrs v) eqn:Hg.
      * rewrite (Htool eq_refl) in *. cbn [created length] in *.
        replace (length (tools w1) - length (tools w)) with 1 by lia. reflexivity.
      * rewrite (created_no_GetAttrs v Hg) in Hlen. cbn [length] in Hlen.
        replace (length (tools w1) - length (tools w)) with 0 by lia.
        cbn. now rewrite app_nil_r.
    + assert (Hg : has_GetAttrs v = false) by (destruct v; cbn in *; congruence).
      rewrite (created_no_GetAttrs v Hg) in Hlen. cbn [length] in Hlen.
      specialize (IH nt (rejected_logged p' ln v w1)).
      destruct (dispatch_layer rest ln ch nt (rejected_logged p' ln v w1))
        as [[[rest' nt']|e] w2]; [|exact I].
      cbn [tools rejected_logged add_log] in IH. destruct IH as [Hle ->].
      rewrite Nat.add_0_r in Hlen. rewrite Hlen in *. now split.
Qed.

Lemma dispatch_layers_fresh (layers : layers_t) : forall (plugins : list plugin) nt w,
  match dispatch_layers layers plugins nt w with
  | (Return (_, nt'), w') =>
      length (tools w) <= length (tools w')
      /\ nt' = nt ++ seq (length (tools w)) (length (tools w') - length (tools w))
  | (Raise _, _) => True
  end.
Proof.
  induction layers as [|[ln ch] layers IH]; intros plugins nt w.
  - cbn. rewrite Nat.sub_diag. cbn. now rewrite app_nil_r.
  - cbn [dispatch_layers]. rewrite bind_eq. cbn [logger_info logger modify].
    rewrite bind_eq.
    match goal with |- context [dispatch_layer plugins ln ch nt ?w1] =>
      pose proof (dispatch_layer_fresh ln ch plugins nt w1) as Hf;
      destruct (dispatch_layer plugins ln ch nt w1) as [[[plugins1 nt1]|e] w2]
    end; [|exact I].
    cbn [tools add_log] in Hf. destruct Hf as [Hle ->].
    specialize (IH plugins1 (nt ++ seq (length (tools w))
                                      (length (tools w2) - length (tools w))) w2).
    destruct (dispatch_layers layers plugins1 _ w2) as [[[plugins' nt']|e] w'];
      [|exact I].
    destruct IH as [Hle' ->]. split; [lia|].
    rewrite <- app_assoc. f_equal.
    replace (length (tools w') - length (tools w))
      with ((length (tools w2) - length (tools w))
            + (length (tools w') - length (tools w2))) by lia.
    rewrite seq_app. do 2 f_equal. lia.
Qed.

Lemma split_multilayer_exr_seq (t : tool) (pcs : list plugin_class)
    (opts opts' : options_t) (new_tools : list tool) (w : World) :
  fst (split_multilayer_exr t pcs opts w) = Return (new_tools, opts') ->
  new_tools = seq (length (tools w)) (length new_tools)
  /\ length (tools (snd (split_multilayer_exr t pcs opts w)))
     = length (tools w) + length new_tools.
Proof.
  rewrite split_multilayer_exr_eq. cbv zeta.
  match goal with |- context [dispatch_layers ?l ?p ?nt ?w1] =>
    pose proof (dispatch_layers_fresh l p nt w1) as Hf;
    destruct (dispatch_layers l p nt w1) as [[[plugins' nt']|e] w2]
  end; [|discriminate].
  cbn [fst snd tools add_log app] in *. intros [= <- _].
  destruct Hf as [Hle ->]. rewrite length_seq. split; [reflexivity|lia].
Qed.

(** X12: when the splitting of a multi-layer file returns, what it
    returns are exactly the tools it has created, in the order of their
    creation: the handles run from the number of tools before the
    operation up to the number after it, so each is new, no two are the
    same and none is a tool that existed before. *)
Theorem split_multilayer_exr_fresh (t : tool) (pcs : list plugin_class)
    (opts opts' : options_t) (new_tools : list tool) (w : World) :
  fst (split_multilayer_exr t pcs opts w) = Return (new_tools, opts') ->
  new_tools = seq (length (tools w)) (length new_tools)
  /\ length (tools (snd (split_multilayer_exr t pcs opts w)))
     = length (tools w) + length new_tools.
Proof. apply split_multilayer_exr_seq. Qed.

Lemma split_multilayer_exr_fresh_witness :
  fst (split_multilayer_exr 0 [CryptomattePlugin; DefaultPlugin] ∅
         (demo_world "/shots/beauty.exr"))
  = Return ([1; 2; 3], {[ "alpha_fallback" := false ]})
  /\ length (tools (snd (split_multilayer_exr 0 [CryptomattePlugin; DefaultPlugin] ∅
                           (demo_world "/shots/beauty.exr"))))
     = 4.
Proof.
  assert (Hr : fst (split_multilayer_exr 0 [CryptomattePlugin; DefaultPlugin] ∅
                      (demo_world "/shots/beauty.exr"))
               = Return ([1; 2; 3], {[ "alpha_fallback" := false ]}))
    by (vm_compute; reflexivity).
  split; [exact Hr|].
  exact (proj2 (split_multilayer_exr_fresh _ _ _ _ _ _ Hr)).
Defined.

(** ** The plugin chain of the script *)

Lemma process_layer_default (d : plugin) ln ch :
  cls d = DefaultPlugin ->
  process_layer d ln ch = DefaultPlugin_process_layer d ln ch.
Proof. intros Hd. cbn [process_layer plugin_Plugin]. now rewrite Hd. Qed.

(** With the chain of the script a layer is always taken, and the
    tools before it stay as they are. *)
Lemma dispatch_layer_script ln ch plugins nt w :
  script_chain plugins ->
  exists plugins' nt' w' ds,
    dispatch_layer plugins ln ch nt w = (Return (plugins', nt'), w')
    /\ script_chain plugins'
    /\ tools w' = tools w ++ ds
    /\ media w' = media w.
Proof.
  intros (c & d & -> & Hc & Hd & Hopt).
  rewrite dispatch_layer_cons, (process_layer_crypto c) by assumption.
  destruct (crypto_layer ln) eqn:Hl.
  - destruct (made_crypto c) eqn:Hm.
    + rewrite CryptomattePlugin_made by assumption. cbn [truthy has_GetAttrs].
      eexists _, _, _, []. split; [reflexivity|].
      split; [exists c, d; auto|]. now rewrite app_nil_r.
    + destruct (CryptomattePlugin_first c ln ch (attempt_logged c ln w) Hl Hm)
        as (Hr & _).
      pose proof (CryptomattePlugin_first_tools c ln ch (attempt_logged c ln w) Hl Hm)
        as Ht.
      pose proof (frame_CryptomattePlugin c ln ch (attempt_logged c ln w)) as Hf.
      destruct (CryptomattePlugin_process_layer c ln ch (attempt_logged c ln w))
        as [[[v c']|e] w1]; [|discriminate].
      cbn [fst snd] in *. injection Hr as -> ->. cbn [truthy has_GetAttrs].
      eexists _, _, _, _. split; [reflexivity|]. split; [|split].
      * exists (with_made_crypto true c), d. repeat split; auto.
      * cbn [tools accepted_logged has_GetAttrs add_log]. exact Ht.
      * cbn [media accepted_logged has_GetAttrs add_log].
        now rewrite (frame_media _ _ Hf).
  - rewrite CryptomattePlugin_other_layer by assumption. cbn [truthy].
    rewrite dispatch_layer_cons, (process_layer_default d) by assumption.
    match goal with |- context [DefaultPlugin_process_layer d ln ch ?w1] =>
      destruct (DefaultPlugin_closed_form d ln ch w1 Hopt) as (Hr & Ht & _ & Hm);
      destruct (DefaultPlugin_process_layer d ln ch w1) as [[[v d']|e] w2];
        [|discriminate]
    end.
    cbn [fst snd] in *. injection Hr as -> ->. cbn [truthy has_GetAttrs].
    eexists _, _, _, _. split; [reflexivity|]. split; [|split].
    + exists c, d. auto.
    + cbn [tools accepted_logged has_GetAttrs add_log]. exact Ht.
    + cbn [media accepted_logged has_GetAttrs add_log]. exact Hm.
Qed.

Lemma dispatch_layers_script (layers : layers_t) : forall plugins nt w,
  script_chain plugins ->
  exists plugins' nt' w' ds,
    dispatch_layers layers plugins nt w = (Return (plugins', nt'), w')
    /\ tools w' = tools w ++ ds
    /\ media w' = media w.
Proof.
  induction layers as [|[ln ch] layers IH]; intros plugins nt w Hchain.
  - exists plugins, nt, w, []. cbn. now rewrite app_nil_r.
  - cbn [dispatch_layers]. rewrite bind_eq. cbn [logger_info logger modify].
    rewrite bind_eq.
    match goal with |- context [dispatch_layer plugins ln ch nt ?w1] =>
      destruct (dispatch_layer_script ln ch plugins nt w1 Hchain)
        as (plugins1 & nt1 & w2 & ds1 & -> & Hchain1 & Ht1 & Hm1)
    end.
    destruct (IH plugins1 nt1 w2 Hchain1) as (plugins' & nt' & w' & ds & E & Ht & Hm).
    exists plugins', nt', w', (ds1 ++ ds). split; [exact E|]. split.
    + rewrite Ht, Ht1. cbn [tools add_log]. now rewrite app_assoc.
    + now rewrite Hm, Hm1.
Qed.

Lemma make_plugins_script exr ld ly (opts : options_t) :
  opts !! "alpha_fallback" <> Some true ->
  script_chain (fst (make_plugins script_plugin_classes exr ld ly opts))
  /\ snd (make_plugins script_plugin_classes exr ld ly opts) !! "alpha_fallback"
     = Some false
  /\ forall k, k <> "alpha_fallback" ->
       snd (make_plugins script_plugin_classes exr ld ly opts) !! k = opts !! k.
Proof.
  intros Hopt. unfold make_plugins, script_plugin_classes.
  cbn [fst snd map fold_left].
  assert (Hfilled : init_options DefaultPlugin (init_options CryptomattePlugin opts)
                    !! "alpha_fallback" = Some false).
  { rewrite !init_options_lookup.
    destruct (opts !! "alpha_fallback") as [[|]|]; try reflexivity. congruence. }
  split; [|split; [exact Hfilled|]].
  - eexists _, _. split; [reflexivity|]. repeat split. exact Hfilled.
  - intros k Hk. rewrite !init_options_lookup.
    destruct (opts !! k); [reflexivity|].
    unfold default_options_dict. cbn [default_options list_to_map foldr].
    cbn [uncurry fst snd Datatypes.uncurry].
    rewrite lookup_empty. now rewrite lookup_insert_ne, lookup_empty by congruence.
Qed.

(** The splitting of a multi-layer file with the chain of the script. *)
Lemma split_multilayer_exr_script t (opts : options_t) w :
  opts !! "alpha_fallback" <> Some true ->
  exists nt opts' w' ds,
    split_multilayer_exr t script_plugin_classes opts w = (Return (nt, opts'), w')
    /\ opts' !! "alpha_fallback" = Some false
    /\ (forall k, k <> "alpha_fallback" -> opts' !! k = opts !! k)
    /\ tools w' = tools w ++ ds
    /\ media w' = media w
    /\ nt = seq (length (tools w)) (length ds).
Proof.
  intros Hopt.
  destruct (make_plugins_script (TOOLST_Clip_Name (tool_data w t)) t
              (group_layers (ChannelIDs (clip_info w t))) opts Hopt)
    as (Hchain & Hfilled & Hother).
  destruct (dispatch_layers_script (group_layers (ChannelIDs (clip_info w t)))
              _ [] (add_log (layers_found w t) w) Hchain)
    as (plugins' & nt & w2 & ds & E & Ht & Hm).
  set (opts' := snd (make_plugins script_plugin_classes
                       (TOOLST_Clip_Name (tool_data w t)) t
                       (group_layers (ChannelIDs (clip_info w t))) opts)) in *.
  set (w' := add_log {| levelname := DEBUG;
                        msg := "Finished processing all layers.";
                        args := [] |} w2).
  assert (Heq : split_multilayer_exr t script_plugin_classes opts w
                = (Return (nt, opts'), w')).
  { rewrite split_multilayer_exr_eq. cbv zeta. now rewrite E. }
  pose proof (split_multilayer_exr_seq t script_plugin_classes opts opts' nt w)
    as Hfresh.
  rewrite Heq in Hfresh. destruct (Hfresh eq_refl) as [Hseq Hlen].
  cbn [snd tools add_log] in Hlen. cbn [tools add_log] in Ht.
  exists nt, opts', w', ds. split; [exact Heq|].
  split; [exact Hfilled|]. split; [exact Hother|].
  split; [exact Ht|]. split; [exact Hm|].
  subst w'. cbn [tools add_log] in Hlen.
  rewrite Ht, length_app in Hlen. assert (length ds = length nt) as -> by lia.
  exact Hseq.
Qed.

(** ** [split_exr] with the chain of the script *)

Lemma last_index_from_seq t : forall k n j,
  last_index_from j t (seq n k)
  = if Nat.leb n t && Nat.ltb t (n + k) then Some (j + (t - n)) else None.
Proof.
  induction k as [|k IH]; intros n j.
  - cbn [seq last_index_from]. destruct (Nat.leb_spec n t), (Nat.ltb_spec t (n + 0));
      cbn; try reflexivity; lia.
  - cbn [seq last_index_from]. rewrite IH.
    destruct (Nat.leb_spec (S n) t), (Nat.ltb_spec t (S n + k)),
             (Nat.leb_spec n t), (Nat.ltb_spec t (n + S k)), (Nat.eqb_spec n t);
      cbn [andb]; try lia; try reflexivity; f_equal; lia.
Qed.

Lemma tool_of_unplaced_pos d d' :
  unplaced d = unplaced d' -> Pos d = Pos d' -> d = d'.
Proof.
  destruct d, d'. unfold unplaced. cbn. intros [= -> -> -> -> -> -> -> -> -> ->] ->.
  reflexivity.
Qed.

(** Laying out freshly created tools [seq n k] with the origin among
    the tools before. *)
Lemma arrange_fresh (w w1 : World) ds t :
  tools w1 = tools w ++ ds -> t < length (tools w) -> ds <> [] ->
  let w' := snd (arrange_tools_table (seq (length (tools w)) (length ds)) 1 20
                   (Some t) w1) in
  fst (arrange_tools_table (seq (length (tools w)) (length ds)) 1 20 (Some t) w1)
  = Return tt
  /\ length (tools w') = length (tools w) + length ds
  /\ media w' = media w1
  /\ (forall t', t' < length (tools w) -> tool_data w' t' = tool_data w t')
  /\ (forall i, i < length ds ->
        Pos (tool_data w' (length (tools w) + i))
        = grid_pos (fst (Pos (tool_data w t))) (snd (Pos (tool_data w t))) 1 i).
Proof.
  intros Hw1 Ht Hds w'. subst w'. unfold arrange_tools_table.
  rewrite bind_eq. cbn [mret M_ret]. rewrite bind_eq.
  unfold flow_GetPosTable. cbn [gets].
  rewrite (tool_data_same_prefix w w1 ds t Hw1 Ht).
  destruct (Pos (tool_data w t)) as [x y] eqn:Hxy. cbn [fst snd].
  pose proof (frame_place_tools x y 1 20 0 (seq (length (tools w)) (length ds)) w1)
    as Hframe.
  destruct (place_tools_moves x y 1 (seq (length (tools w)) (length ds)) 0 w1)
    as (Hr & Hlen & _ & Hts).
  change (Z.of_nat 0) with 0%Z in *.
  split; [exact Hr|]. split; [now rewrite Hlen, Hw1, length_app|].
  split; [exact (frame_media _ _ Hframe)|]. split.
  - intros t' Ht'. destruct (Hts t') as [Hun Hpos].
    rewrite <- (tool_data_same_prefix w w1 ds t' Hw1 Ht').
    apply tool_of_unplaced_pos; [exact Hun|].
    rewrite Hpos by (rewrite Hw1, length_app; lia).
    rewrite last_index_from_seq.
    destruct (Nat.leb_spec (length (tools w)) t'); [lia|reflexivity].
  - intros i Hi. destruct (Hts (length (tools w) + i)) as [_ Hpos].
    rewrite Hpos by (rewrite Hw1, length_app; lia).
    rewrite last_index_from_seq.
    destruct (Nat.leb_spec (length (tools w)) (length (tools w) + i)); [|lia].
    destruct (Nat.ltb_spec (length (tools w) + i) (length (tools w) + length ds));
      [|lia].
    cbn [andb]. repeat f_equal; lia.
Qed.

(** What [split_exr] does for an EXR loader, with the chain of the
    script and the alpha fallback not enabled. *)
Lemma split_exr_script_loader t (opts : options_t) w :
  t < length (tools w) -> exr_loader w t = true ->
  opts !! "alpha_fallback" <> Some true ->
  exists (opts' : options_t) (ds : list ToolData),
    let w' := snd (split_exr t script_plugin_classes opts w) in
    fst (split_exr t script_plugin_classes opts w) = Return opts'
    /\ opts' !! "alpha_fallback" <> Some true
    /\ (forall k, k <> "alpha_fallback" -> opts' !! k = opts !! k)
    /\ length (tools w') = length (tools w) + length ds
    /\ media w' = media w
    /\ (forall t', t' < length (tools w) -> tool_data w' t' = tool_data w t')
    /\ (forall i, i < length ds ->
          Pos (tool_data w' (length (tools w) + i))
          = grid_pos (fst (Pos (tool_data w t))) (snd (Pos (tool_data w t))) 1 i).
Proof.
  intros Ht Hx Hopt.
  assert (Hfinish : forall (opts' : options_t) (w1 : World) ds,
    tools w1 = tools w ++ ds -> media w1 = media w ->
    let m := match seq (length (tools w)) (length ds) with
             | [] => mret opts'
             | _ => arrange_tools_table (seq (length (tools w)) (length ds))
                      1 20 (Some t);; mret opts'
             end in
    fst (m w1) = Return opts'
    /\ length (tools (snd (m w1))) = length (tools w) + length ds
    /\ media (snd (m w1)) = media w
    /\ (forall t', t' < length (tools w) ->
          tool_data (snd (m w1)) t' = tool_data w t')
    /\ (forall i, i < length ds ->
          Pos (tool_data (snd (m w1)) (length (tools w) + i))
          = grid_pos (fst (Pos (tool_data w t))) (snd (Pos (tool_data w t))) 1 i)).
  { intros opts' w1 ds Hw1 Hm1 m. subst m. destruct ds as [|d ds].
    - cbn [length seq mret M_ret fst snd]. split; [reflexivity|].
      split; [now rewrite Hw1, length_app|]. split; [exact Hm1|].
      split; [|intros i Hi; cbn in Hi; lia].
      intros t' Ht'. now apply (tool_data_same_prefix w w1 []).
    - destruct (arrange_fresh w w1 (d :: ds) t Hw1 Ht) as (Hr & Hl & Hm & Hold & Hnew);
        [discriminate|].
      cbn [length seq] in *. rewrite bind_eq.
      destruct (arrange_tools_table _ 1 20 (Some t) w1) as [[[]|e] w2];
        [|discriminate].
      cbn [fst snd mret M_ret] in *.
      split; [reflexivity|]. split; [exact Hl|]. split; [congruence|].
      split; [exact Hold|exact Hnew]. }
  destruct (multipart_exr w t) eqn:Hmp.
  - rewrite split_exr_multipart by assumption. cbv zeta. rewrite bind_eq.
    assert (E : split_multipart_exr t script_plugin_classes opts w
      = (new_tools ←
           new_part_loaders t (TOOLST_Clip_Name (tool_data w t))
             (default [] (PartIDs (clip_info w t))) [];
         mret (Some new_tools)) w).
    { rewrite split_multipart_exr_eq, Hx. unfold multipart_exr in Hmp.
      rewrite Hx in Hmp. now destruct (PartIDs (clip_info w t)). }
    rewrite E, bind_eq.
    destruct (new_part_loaders_spec t (TOOLST_Clip_Name (tool_data w t))
                (default [] (PartIDs (clip_info w t))) [] w Ht)
      as (Hr & Htools & _ & _ & Hm).
    destruct (new_part_loaders t _ _ [] w) as [[nt|e] w1]; [|discriminate].
    cbn [fst snd app mret M_ret] in *. injection Hr as ->.
    exists opts, (map (fun name =>
                         part_loader_data (TOOLST_Clip_Name (tool_data w t)) name
                           (GammaSpace (tool_data w t)) (GlobalIn (tool_data w t))
                           (GlobalOut (tool_data w t)))
                      (default [] (PartIDs (clip_info w t)))).
    destruct (Hfinish opts w1 _ Htools Hm) as (H1 & H2 & H3 & H4 & H5).
    rewrite length_map in *. repeat split; auto.
  - rewrite split_exr_multilayer by assumption. rewrite bind_eq.
    destruct (split_multilayer_exr_script t opts w Hopt)
      as (nt & opts' & w1 & ds & -> & Hfilled & Hother & Htools & Hm & ->).
    exists opts', ds.
    destruct (Hfinish opts' w1 ds Htools Hm) as (H1 & H2 & H3 & H4 & H5).
    cbv zeta. repeat split; auto. congruence.
Qed.

(** X13: for an EXR loader of the composition, multi-part or
    multi-layer, [split_exr] with the plugin chain of the script and the
    alpha fallback not enabled returns: it adds tools to the composition
    and leaves every tool that was there as it was, the loader itself
    included; the [i]-th created tool lies in row [i mod 20] and column
    [i / 20] of a grid that starts on the position of the loader, so the
    first created tool covers the loader; the options come back with the
    alpha fallback still not enabled and otherwise as the caller gave
    them. *)
Theorem split_exr_layout (t : tool) (opts : options_t) (w : World) :
  t < length (tools w) -> exr_loader w t = true ->
  opts !! "alpha_fallback" <> Some true ->
  exists (opts' : options_t) (ds : list ToolData),
    let w' := snd (split_exr t script_plugin_classes opts w) in
    fst (split_exr t script_plugin_classes opts w) = Return opts'
    /\ opts' !! "alpha_fallback" <> Some true
    /\ (forall k, k <> "alpha_fallback" -> opts' !! k = opts !! k)
    /\ length (tools w') = length (tools w) + length ds
    /\ media w' = media w
    /\ (forall t', t' < length (tools w) -> tool_data w' t' = tool_data w t')
    /\ (forall i, i < length ds ->
          Pos (tool_data w' (length (tools w) + i))
          = grid_pos (fst (Pos (tool_data w t))) (snd (Pos (tool_data w t))) 1 i).
Proof. apply split_exr_script_loader. Qed.

Lemma split_exr_layout_witness :
  exists (opts' : options_t) (ds : list ToolData),
    let w' := snd (split_exr 0 script_plugin_classes ∅
                     (demo_world "/shots/parts.exr")) in
    fst (split_exr 0 script_plugin_classes ∅ (demo_world "/shots/parts.exr"))
    = Return opts'
    /\ opts' !! "alpha_fallback" <> Some true
    /\ (forall k, k <> "alpha_fallback" -> opts' !! k = (∅ : options_t) !! k)
    /\ length (tools w') = 1 + length ds
    /\ media w' = demo_media
    /\ (forall t', t' < 1 ->
          tool_data w' t' = tool_data (demo_world "/shots/parts.exr") t')
    /\ (forall i, i < length ds ->
          Pos (tool_data w' (1 + i)) = grid_pos 5 7 1 i).
Proof.
  apply (split_exr_layout 0 ∅ (demo_world "/shots/parts.exr")).
  - cbn. lia.
  - reflexivity.
  - rewrite lookup_empty. discriminate.
Defined.

(** ** The batch of the script *)

Lemma exr_loader_same w w' t :
  media w' = media w -> tool_data w' t = tool_data w t ->
  exr_loader w' t = exr_loader w t.
Proof. intros Hm Ht. unfold exr_loader, clip_info. now rewrite Hm, Ht. Qed.

Lemma forallb_same {A} (f g : A -> bool) l :
  (forall x, In x l -> f x = g x) -> forallb f l = forallb g l.
Proof.
  induction l as [|a l IH]; intros H; [reflexivity|]. cbn [forallb].
  rewrite (H a) by now left. rewrite IH; [reflexivity|].
  intros x Hx. apply H. now right.
Qed.

Lemma split_selected_script sel : forall (opts : options_t) w,
  (forall t, In t sel -> t < length (tools w)) ->
  opts !! "alpha_fallback" <> Some true ->
  let w' := snd (split_selected sel script_plugin_classes opts w) in
  fst (split_selected sel script_plugin_classes opts w)
  = (if forallb (exr_loader w) sel then Return tt else Raise UnboundLocalError)
  /\ media w' = media w
  /\ length (tools w) <= length (tools w')
  /\ (forall t, t < length (tools w) -> tool_data w' t = tool_data w t).
Proof.
  induction sel as [|t0 sel IH]; intros opts w Hvalid Hopt; cbv zeta.
  - cbn. repeat split; auto.
  - rewrite split_selected_cons, bind_eq.
    set (w1 := add_log _ w). cbn [forallb].
    assert (H1 : tools w1 = tools w) by reflexivity.
    assert (Hm1 : media w1 = media w) by reflexivity.
    assert (Hd1 : forall t, tool_data w1 t = tool_data w t) by reflexivity.
    assert (Hx1 : exr_loader w1 t0 = exr_loader w t0) by reflexivity.
    destruct (exr_loader w t0) eqn:Hx.
    + destruct (split_exr_script_loader t0 opts w1) as (opts' & ds & Hs);
        [rewrite H1; apply Hvalid; now left|congruence|exact Hopt|].
      cbv zeta in Hs. destruct Hs as (Hr & Hopt' & _ & Hlen & Hm & Hold & _).
      destruct (split_exr t0 script_plugin_classes opts w1) as [[o|e] w2];
        [|discriminate].
      cbn [fst snd] in *. injection Hr as ->.
      rewrite H1 in Hlen, Hold.
      destruct (IH opts' w2) as (Hr2 & Hm2 & Hlen2 & Hold2);
        [intros t Hin; specialize (Hvalid t (or_intror Hin)); lia|exact Hopt'|].
      cbv zeta in *. cbn [andb]. split.
      * rewrite Hr2. rewrite (forallb_same (exr_loader w2) (exr_loader w)); [reflexivity|].
        intros t Hin. apply exr_loader_same; [congruence|].
        rewrite Hold by (apply Hvalid; now right). apply Hd1.
      * split; [congruence|]. split; [lia|].
        intros t Ht. rewrite Hold2 by lia. rewrite Hold by exact Ht. apply Hd1.
    + rewrite (split_exr_no_exr t0 script_plugin_classes opts w1) by congruence.
      cbn [fst snd andb]. repeat split; auto.
Qed.

(** X14: the script returns exactly when every selected loader reads
    an EXR file, and raises UnboundLocalError otherwise, also when the
    loaders before the offending one were split already; in both cases
    every tool of the composition is after the run as it was before:
    the script only adds tools. *)
Theorem split_exr_script_outcome (w : World) :
  let w' := snd (split_exr_script w) in
  fst (split_exr_script w)
  = (if forallb (exr_loader w) (selected_loaders w)
     then Return tt else Raise UnboundLocalError)
  /\ length (tools w) <= length (tools w')
  /\ media w' = media w
  /\ (forall t, t < length (tools w) -> tool_data w' t = tool_data w t).
Proof.
  cbv zeta. rewrite split_exr_script_eq, try_finally_cleanup.
  set (w0 := add_call Lock _).
  assert (E : (selected ← get_selected_tools (Some "Loader");
               split_selected selected [CryptomattePlugin; DefaultPlugin] ∅) w0
              = split_selected (selected_loaders w) script_plugin_classes ∅ w0)
    by reflexivity.
  rewrite E. cbn [fst snd].
  destruct (split_selected_script (selected_loaders w) ∅ w0) as (Hr & Hm & Hlen & Hold).
  - intros t Hin. exact (selected_tools_valid (Some "Loader") w t Hin).
  - rewrite lookup_empty. discriminate.
  - cbv zeta in *. split; [exact Hr|]. split; [exact Hlen|]. split; [exact Hm|].
    exact Hold.
Qed.

(** ** The abstract plugin *)

Lemma group_layers_cons_nonempty c cs : group_layers (c :: cs) <> [].
Proof. rewrite group_layers_spec. discriminate. Qed.

(** X15: a plugin chain headed by the abstract base class, whose
    [process_layer] is not implemented, stops the splitting of a
    multi-layer file with NotImplementedError at the first layer, before
    any node is made and any host call; only a file without channels,
    which has no layer, is split by such a chain, into nothing. *)
Theorem base_plugin_not_implemented (t : tool) (pcs : list plugin_class)
    (opts : options_t) (w : World) :
  let r := split_multilayer_exr t (EXRSplitPlugin :: pcs) opts w in
  (match ChannelIDs (clip_info w t) with
   | [] => exists opts', fst r = Return ([], opts')
   | _ :: _ => fst r = Raise NotImplementedError
   end)
  /\ tools (snd r) = tools w
  /\ calls (snd r) = calls w.
Proof.
  cbv zeta. rewrite split_multilayer_exr_eq. cbv zeta.
  destruct (ChannelIDs (clip_info w t)) as [|c cs] eqn:Hc.
  - change (group_layers []) with (@nil (string * list channel)).
    cbn [dispatch_layers mret M_ret fst snd tools calls add_log].
    split; [eexists; reflexivity|]. split; reflexivity.
  - pose proof (group_layers_cons_nonempty c cs) as Hne.
    destruct (group_layers (c :: cs)) as [|[L chs] layers]; [contradiction|].
    cbn [make_plugins fst map dispatch_layers].
    unfold logger_info, logger. rewrite bind_eq. cbn [modify]. rewrite bind_eq.
    rewrite dispatch_layer_cons. cbn [process_layer plugin_Plugin cls raise].
    cbn [fst snd tools calls add_log attempt_logged].
    unfold attempt_logged. cbn [fst snd tools calls add_log].
    repeat split; reflexivity.
Qed.

(** ** The name of the matte node *)

Lemma split_char_free sep s : char_free sep s = true -> Py.split sep s = [s].
Proof.
  induction s as [|c s IH]; cbn [char_free Py.split]; [reflexivity|].
  intros Hd. apply andb_true_iff in Hd as [Hc Hs].
  apply negb_true_iff in Hc. rewrite Hc, IH by assumption. reflexivity.
Qed.

Lemma char_free_app c a b :
  char_free c a = true -> char_free c b = true -> char_free c (a ++ b)%string = true.
Proof.
  induction a as [|x a IH]; intros Ha Hb; [exact Hb|].
  cbn [char_free] in Ha. apply andb_true_iff in Ha as [Hx Ha].
  change (char_free c (String x (a ++ b)) = true). cbn [char_free].
  now rewrite Hx, IH.
Qed.

Lemma basename_join dir file :
  char_free "/" file = true -> basename (dir ++ String "/" file)%string = file.
Proof.
  intros Hf. unfold basename, Py.last_item.
  rewrite split_app_sep, (split_char_free _ file Hf). apply last_last.
Qed.

Lemma splitext_root_ext stem ext :
  all_dots stem = false -> char_free "." ext = true ->
  splitext_root (stem ++ String "." ext)%string = stem.
Proof.
  intros Hs He. unfold splitext_root, Py.but_last.
  rewrite split_app_sep, (split_char_free _ ext He), removelast_last.
  rewrite join_split, Hs, length_app.
  pose proof (split_nonempty "." stem) as Hne.
  destruct (Py.split "." stem) as [|a l]; [contradiction|].
  cbn [length]. replace (1 <? S (length l) + 1)%nat with true; [reflexivity|].
  symmetry. apply Nat.ltb_lt. lia.
Qed.

(** X16: at the first layer whose name contains "crypto", in whatever
    case, the matte plugin adds one Fuse.Cryptomatte node, connects its
    input to the loader being split and returns it; for a file
    [dir/stem.ext] the node is named [Cryp_stem]: the directory and the
    last extension of the file name are dropped.  The other tools stay
    as they were. *)
Theorem cryptomatte_node (self : plugin) (layer_name : string)
    (channels : list channel) (dir stem ext : string) (w : World) :
  Py.contains "crypto" (Py.lower layer_name) = true ->
  made_crypto self = false ->
  exr_filename self = (dir ++ "/" ++ stem ++ "." ++ ext)%string ->
  char_free "/" stem = true -> all_dots stem = false ->
  char_free "/" ext = true -> char_free "." ext = true ->
  let r := CryptomattePlugin_process_layer self layer_name channels w in
  let n := length (tools w) in
  fst r = Return (PyTool n, with_made_crypto true self)
  /\ length (tools (snd r)) = S n
  /\ TOOLS_RegID (tool_data (snd r) n) = "Fuse.Cryptomatte"
  /\ TOOLS_Name (tool_data (snd r) n) = ("Cryp_" ++ stem)%string
  /\ TOOLB_NameSet (tool_data (snd r) n) = true
  /\ Input (tool_data (snd r) n) = Some (loader self)
  /\ (forall t, t < n -> tool_data (snd r) t = tool_data w t).
Proof.
  intros Hl Hm Hname Hstem Hdots Hext Hdot. cbv zeta.
  destruct (CryptomattePlugin_first self layer_name channels w Hl Hm) as (Hr & _ & _).
  pose proof (CryptomattePlugin_first_tools self layer_name channels w Hl Hm) as Ht.
  assert (Hn : splitext_root (basename (exr_filename self)) = stem).
  { rewrite Hname.
    change (dir ++ "/" ++ stem ++ "." ++ ext)%string
      with (dir ++ String "/" (stem ++ String "." ext))%string.
    rewrite basename_join; [now apply splitext_root_ext|].
    apply char_free_app; [exact Hstem|]. cbn [char_free]. now rewrite Hext. }
  rewrite Hn in Ht. split; [exact Hr|].
  split; [rewrite Ht, length_app; cbn [length]; lia|].
  rewrite (tool_data_snoc_new _ _ _ Ht).
  repeat split.
  intros t Hlt. apply (tool_data_snoc_other _ _ _ t Ht). lia.
Qed.

Lemma cryptomatte_node_witness :
  let self := demo_plugin CryptomattePlugin ∅ in
  let r := CryptomattePlugin_process_layer self "CryptoObject01"
             [("r", "CryptoObject01.R")] (demo_world "/shots/beauty.exr") in
  fst r = Return (PyTool 1, with_made_crypto true self)
  /\ length (tools (snd r)) = 2
  /\ TOOLS_RegID (tool_data (snd r) 1) = "Fuse.Cryptomatte"
  /\ TOOLS_Name (tool_data (snd r) 1) = "Cryp_beauty"
  /\ TOOLB_NameSet (tool_data (snd r) 1) = true
  /\ Input (tool_data (snd r) 1) = Some 0
  /\ (forall t, t < 1 ->
        tool_data (snd r) t = tool_data (demo_world "/shots/beauty.exr") t).
Proof.
  apply (cryptomatte_node (demo_plugin CryptomattePlugin ∅) "CryptoObject01"
           [("r", "CryptoObject01.R")] "/shots" "beauty" "exr"
           (demo_world "/shots/beauty.exr")); reflexivity.
Defined.

(** ** Logging *)

(** X17: with the set-up of [logConfig] no record of the script's
    logger is written twice: a record below the effective level of the
    logger is dropped, any other goes to stdout when its level is below
    WARNING and to stderr otherwise.  The level is DEBUG with the name
    [pa] the script gives and INFO when none is given; so the script's
    debug and info records appear on stdout and its errors on stderr,
    and without a name the debug records are dropped. *)
Theorem logConfig_streams :
  (forall name record_levelno,
      written (logConfig name) record_levelno
      = if (record_levelno <? effective_level (logConfig name))%Z then []
        else if (record_levelno <? levelno WARNING)%Z then [stdout]
        else [stderr])
  /\ effective_level (logConfig (Some "pa")) = levelno DEBUG
  /\ effective_level (logConfig None) = levelno INFO
  /\ (forall l, written (logConfig (Some "pa")) (levelno l)
                = [match l with
                   | DEBUG | INFO => stdout
                   | WARNING | ERROR => stderr
                   end])
  /\ written (logConfig None) (levelno DEBUG) = [].
Proof.
  split; [|repeat split; try reflexivity; intros []; reflexivity].
  intros name lv.
  assert (He : effective_level (logConfig name) = 10%Z
               \/ effective_level (logConfig name) = 20%Z).
  { unfold effective_level, logConfig. cbn [named_level root_level levelno].
    destruct name as [name|]; [|now right].
    destruct (String.eqb name ""); [now right|].
    destruct (ancestor_or_self name logger_name); [now left|now right]. }
  assert (Hh : map handler_stream
                  (List.filter (fun h => handler_emits h lv)
                     (root_handlers (logConfig name)))
               = if (lv <? 10)%Z then []
                 else if (lv <? 30)%Z then [stdout] else [stderr]).
  { unfold logConfig, handler_emits, LessThanFilter_filter.
    cbn [root_handlers List.filter handler_level handler_filters forallb
         max_level levelno].
    destruct (Z.ltb_spec lv 30), (Z.leb_spec 10 lv), (Z.leb_spec 30 lv),
             (Z.ltb_spec lv 10); try lia; reflexivity. }
  unfold written. rewrite Hh. cbn [levelno].
  destruct (Z.leb_spec (effective_level (logConfig name)) lv),
           (Z.ltb_spec lv (effective_level (logConfig name))); try lia;
    [|reflexivity].
  destruct (Z.ltb_spec lv 10); [lia|reflexivity].
Qed.
